(** * dtools: token instruction encoding and transaction composition

    A shallow embedding of the Domichain token toolkit
    (instructions.js, mint.js, burn.js, transfer.js, balance.js, the mock
    connection of full_test.js and the confirmation helper of
    production_test.js), the properties its specification states about it,
    and further properties of the code. *)

From Stdlib Require Import ZArith Lia String Ascii List.
From stdpp Require Import base tactics option list gmap strings pretty.

Local Open Scope string_scope.
Local Open Scope list_scope.
Local Open Scope Z_scope.

(** ** Errors and results *)

(** The JavaScript exceptions the code can raise.  [Error msg] is
    [new Error(msg)]; [ExternalError] is whatever a collaborator (the RPC
    connection or the wallet) rejects with. *)
Inductive error : Type :=
| RangeError (msg : string)
| TypeError (msg : string)
| ReferenceError (name : string)
| Error (msg : string)
| ExternalError (detail : string).

Inductive Result (A : Type) : Type :=
| Ok (a : A)
| Err (e : error).
Arguments Ok {A} a.
Arguments Err {A} e.

#[global] Instance Result_ret : MRet Result := fun A a => Ok a.
#[global] Instance Result_bind : MBind Result := fun A B f m =>
  match m with
  | Ok a => f a
  | Err e => Err e
  end.
#[global] Instance Result_fmap : FMap Result := fun A B f m =>
  match m with
  | Ok a => Ok (f a)
  | Err e => Err e
  end.

#[global] Instance error_eq_dec : EqDecision error.
Proof. solve_decision. Defined.

(** ** Buffers *)

(** A [Buffer] is a sequence of bytes, each a [Z] in [0, 256). *)
Abbreviation Buffer := (list Z).

(** [Buffer.alloc(n)]: [n] zero bytes. *)
Definition Buffer_alloc (n : nat) : Buffer := replicate n 0.

(** [b.slice(start, end)]. *)
Definition Buffer_slice (b : Buffer) (start end_ : nat) : Buffer :=
  take (end_ - start) (drop start b).

(** Overwrite [length src] bytes of [b] from [offset] on. *)
Definition Buffer_write (src : Buffer) (b : Buffer) (offset : nat) : Buffer :=
  take offset b ++ src ++ drop (offset + length src) b.

(** Little-endian digits of [n] in base 256, [width] of them. *)
Fixpoint le_bytes (n : Z) (width : nat) : Buffer :=
  match width with
  | O => []
  | S w => n `mod` 256 :: le_bytes (n `div` 256) w
  end.

(** bigint-buffer's [toBufferLE(num, width)].  The library fixes the result
    for [0 <= num < 256^width] only; outside that range its native and its
    pure JavaScript implementations disagree, and the model stops with an
    error rather than choose one. *)
Definition toBufferLE (num : Z) (width : nat) : Result Buffer :=
  if decide (0 <= num < 256 ^ Z.of_nat width)
  then Ok (le_bytes num width)
  else Err (RangeError "toBufferLE: value does not fit the width").

(** bigint-buffer's [toBigIntLE(buf)]. *)
Definition toBigIntLE (buf : Buffer) : Z :=
  foldr (fun x acc => x + 256 * acc) 0 buf.

(** Big-endian reading of a buffer ([new BN(bytes)]). *)
Definition toBigIntBE (buf : Buffer) : Z := toBigIntLE (reverse buf).

(** ** Base58 and public keys *)

Definition base58_alphabet : string :=
  "123456789ABCDEFGHJKLMNPQRSTUVWXYZabcdefghijkmnopqrstuvwxyz".

Fixpoint index_of (c : ascii) (s : string) (i : Z) : option Z :=
  match s with
  | EmptyString => None
  | String c' s' => if Ascii.eqb c c' then Some i else index_of c s' (i + 1)
  end.

(** The number a base58 string denotes (most significant digit first). *)
Fixpoint base58_value (s : string) (acc : Z) : option Z :=
  match s with
  | EmptyString => Some acc
  | String c s' =>
      match index_of c base58_alphabet 0 with
      | Some d => base58_value s' (acc * 58 + d)
      | None => None
      end
  end.

Fixpoint leading_ones (s : string) : nat :=
  match s with
  | String "1" s' => S (leading_ones s')
  | _ => O
  end.

Fixpoint byte_length (fuel : nat) (n : Z) : nat :=
  match fuel with
  | O => O
  | S f => if decide (n <= 0) then O else S (byte_length f (n `div` 256))
  end.

(** [bs58.decode]: one zero byte per leading '1', then the big-endian bytes
    of the number. *)
Definition bs58_decode (s : string) : option Buffer :=
  n ← base58_value s 0;
  Some (replicate (leading_ones s) 0
          ++ reverse (le_bytes n (byte_length (String.length s) n))).

Fixpoint base58_digits (fuel : nat) (n : Z) (acc : string) : string :=
  match fuel with
  | O => acc
  | S f =>
      if decide (n <= 0) then acc
      else
        match String.get (Z.to_nat (n `mod` 58)) base58_alphabet with
        | Some ch => base58_digits f (n `div` 58) (String ch acc)
        | None => acc
        end
  end.

Fixpoint leading_zeros (b : list Z) : nat :=
  match b with
  | 0 :: rest => S (leading_zeros rest)
  | _ => O
  end.

Fixpoint ones (n : nat) (s : string) : string :=
  match n with
  | O => s
  | S n' => String "1" (ones n' s)
  end.

(** [bs58.encode]. *)
Definition bs58_encode (b : list Z) : string :=
  ones (leading_zeros b)
    (base58_digits (2 * length b) (toBigIntLE (reverse b)) EmptyString).

(** web3.js [PublicKey]: a 256-bit number [_bn]. *)
Record PublicKey : Type := mkPublicKey { _bn : Z }.

#[global] Instance PublicKey_eq_dec : EqDecision PublicKey.
Proof. solve_decision. Defined.

#[global] Instance PublicKey_countable : Countable PublicKey.
Proof. apply (inj_countable' _bn mkPublicKey). by intros []. Defined.

Definition PUBLIC_KEY_LENGTH : nat := 32.

(** [new PublicKey(bytes)]: the bytes are read as a big-endian number, which
    must fit 32 bytes. *)
Definition PublicKey_of_bytes (b : Buffer) : Result PublicKey :=
  if decide (toBigIntBE b < 2 ^ 256)
  then Ok (mkPublicKey (toBigIntBE b))
  else Err (Error "Invalid public key input").

(** [new PublicKey(base58String)]: the string must decode to 32 bytes. *)
Definition PublicKey_of_base58 (s : string) : Result PublicKey :=
  match bs58_decode s with
  | Some b =>
      if decide (length b = PUBLIC_KEY_LENGTH)
      then PublicKey_of_bytes b
      else Err (Error "Invalid public key input")
  | None => Err (Error "Non-base58 character")
  end.

(** [key.toBuffer()]: the 32 big-endian bytes of [_bn]. *)
Definition toBuffer (k : PublicKey) : Buffer :=
  reverse (le_bytes (_bn k) PUBLIC_KEY_LENGTH).

(** [key.toBase58()]. *)
Definition toBase58 (k : PublicKey) : string := bs58_encode (toBuffer k).

(** [a.equals(b)]. *)
Definition equals (a b : PublicKey) : bool := bool_decide (_bn a = _bn b).

(** A module-level constant [new PublicKey('...')]. *)
Definition PublicKey_new (s : string) : PublicKey :=
  match PublicKey_of_base58 s with
  | Ok k => k
  | Err _ => mkPublicKey 0
  end.

Definition PublicKey_default : PublicKey :=
  Eval vm_compute in PublicKey_new "11111111111111111111111111111111".
Definition SystemProgram_programId : PublicKey := PublicKey_default.
Definition SYSVAR_RENT_PUBKEY : PublicKey :=
  Eval vm_compute in PublicKey_new "SysvarRent111111111111111111111111111111111".

Definition TOKEN_PROGRAM_ID : PublicKey :=
  Eval vm_compute in PublicKey_new "TokenAAGbeQq5tGW2r5RoR3oauzN2EkNFiHNPw9q34s".
Definition ASSOCIATED_TOKEN_PROGRAM_ID : PublicKey :=
  Eval vm_compute in PublicKey_new "Dt8fRCpjeV6JDemhPmtcTKijgKdPxXHn9Wo9cXY5agtG".
Definition BTCI_PROGRAM_ID : PublicKey :=
  Eval vm_compute in PublicKey_new "BTCi9FUjBVY3BSaqjzfhEPKVExuvarj8Gtfn4rJ5soLC".
Definition USDT_PROGRAM_ID : PublicKey :=
  Eval vm_compute in PublicKey_new "USDTx3HDeSKemTNpycea2xxqJHQbo9veLvgWPTK1Vh1".
Definition WRAPPED_DOMI_MINT : PublicKey :=
  Eval vm_compute in PublicKey_new "So11111111111111111111111111111111111111112".
Definition MEMO_PROGRAM_ID : PublicKey :=
  Eval vm_compute in PublicKey_new "Memo1UhkJRfHyvLMcVucJwxXeuD728EqVDDwQDxFMNo".
Definition TOKEN_METADATA_PROGRAM_ID : PublicKey :=
  Eval vm_compute in PublicKey_new "MetaXKaVt8cn9dGYns81au23cqBYUH4DU4WpC8tAbhQ".
Definition OWNER_VALIDATION_PROGRAM_ID : PublicKey :=
  Eval vm_compute in PublicKey_new "4MNPdKu9wFMvEeZBMt3Eipfs5ovVWTJb31pEXDJAAxX5".

(** ** @solana/buffer-layout, as far as instructions.js uses it *)

(** The field layouts [BufferLayout.u8], [BufferLayout.blob(length)] and the
    [bigInt(length)] of instructions.js: a blob whose [encode] goes through
    [toBufferLE] and whose [decode] goes through [toBigIntLE]. *)
Inductive Layout : Type :=
| u8
| blob (length : nat)
| bigInt (length : nat).

Definition u64 : Layout := bigInt 8.

(** The JavaScript values a field can hold. *)
Inductive Value : Type :=
| Num (n : Z)
| Bool (b : bool)
| Big (n : Z)
| Bytes (b : Buffer).

#[global] Instance Value_eq_dec : EqDecision Value.
Proof. solve_decision. Defined.

Definition Layout_span (l : Layout) : nat :=
  match l with
  | u8 => 1
  | blob n => n
  | bigInt n => n
  end.

(** [UInt.encode] for one byte: [writeUIntLE] rejects values outside
    [0, 255] and offsets outside the buffer. *)
Definition u8_encode (src : Z) (b : Buffer) (offset : nat) : Result Buffer :=
  if decide (0 <= src <= 255) then
    if decide (offset + 1 <= length b)%nat
    then Ok (Buffer_write [src] b offset)
    else Err (RangeError "offset is out of range")
  else Err (RangeError "value is out of range").

(** [Blob.encode]. *)
Definition Blob_encode (len : nat) (src : Buffer) (b : Buffer) (offset : nat)
  : Result Buffer :=
  if decide (length src = len) then
    if decide (offset + len <= length b)%nat
    then Ok (Buffer_write src b offset)
    else Err (RangeError "encoding overruns Uint8Array")
  else Err (TypeError "Blob.encode requires Uint8Array of the blob length as src").

(** The [layout.encode] that [bigInt(length)] installs. *)
Definition bigInt_encode (len : nat) (n : Z) (b : Buffer) (offset : nat)
  : Result Buffer :=
  src ← toBufferLE n len;
  Blob_encode len src b offset.

Definition Layout_encode (l : Layout) (v : Value) (b : Buffer) (offset : nat)
  : Result Buffer :=
  match l, v with
  | u8, Num n => u8_encode n b offset
  | u8, Bool x => u8_encode (Z.b2z x) b offset
  | blob len, Bytes src => Blob_encode len src b offset
  | bigInt len, Big n => bigInt_encode len n b offset
  | _, _ => Err (TypeError "value does not fit the layout")
  end.

(** [UInt.decode] for one byte. *)
Definition u8_decode (b : Buffer) (offset : nat) : Result Z :=
  match b !! offset with
  | Some x => Ok x
  | None => Err (RangeError "offset is out of range")
  end.

(** [Blob.decode]: a slice, shorter than the blob when the buffer ends. *)
Definition Blob_decode (len : nat) (b : Buffer) (offset : nat) : Buffer :=
  Buffer_slice b offset (offset + len).

Definition Layout_decode (l : Layout) (b : Buffer) (offset : nat) : Result Value :=
  match l with
  | u8 => Num <$> u8_decode b offset
  | blob len => Ok (Bytes (Blob_decode len b offset))
  | bigInt len => Ok (Big (toBigIntLE (Blob_decode len b offset)))
  end.

(** A [BufferLayout.struct]: its fields with their property names.  A source
    object is a finite map from property names to values. *)
Definition Structure : Type := list (string * Layout).

Definition Structure_span (fields : Structure) : nat :=
  foldr (fun fd acc => (Layout_span fd.2 + acc)%nat) 0%nat fields.

(** [Structure.encode]: fields absent from the source are skipped. *)
Fixpoint Structure_encode (fields : Structure) (src : gmap string Value)
    (b : Buffer) (offset : nat) : Result Buffer :=
  match fields with
  | [] => Ok b
  | (property, fd) :: rest =>
      b' ← match src !! property with
           | Some fv => Layout_encode fd fv b offset
           | None => Ok b
           end;
      Structure_encode rest src b' (offset + Layout_span fd)
  end.

(** [Structure.decode]. *)
Fixpoint Structure_decode (fields : Structure) (b : Buffer) (offset : nat)
    (dest : gmap string Value) : Result (gmap string Value) :=
  match fields with
  | [] => Ok dest
  | (property, fd) :: rest =>
      v ← Layout_decode fd b offset;
      Structure_decode rest b (offset + Layout_span fd) (<[property := v]> dest)
  end.

(** A variant of a [BufferLayout.union] with a [u8] prefix discriminator. *)
Record VariantLayout : Type := mkVariant {
  variant : Z;
  layout : Structure;
  property : string;
}.

(** [vlo.span]: the discriminator byte and the struct. *)
Definition VariantLayout_span (vlo : VariantLayout) : nat :=
  (1 + Structure_span (layout vlo))%nat.

(** The instruction union of instructions.js, in the order of its tags. *)
Definition LAYOUT : list VariantLayout :=
  [ mkVariant 0
      [("decimals", u8); ("mintAuthority", blob 32);
       ("freezeAuthorityOption", u8); ("freezeAuthority", blob 32)]
      "initializeMint";
    mkVariant 1 [] "initializeAccount";
    mkVariant 7 [("amount", u64)] "mintTo";
    mkVariant 8 [("amount", u64)] "burn";
    mkVariant 9 [] "closeAccount";
    mkVariant 12 [("amount", u64); ("decimals", u8)] "transferChecked" ].

Definition instructionMaxSpan : nat :=
  foldr Nat.max 0%nat (map VariantLayout_span LAYOUT).

(** [Union.getSourceVariant], for a source object without the discriminator
    property (the builders never set it): the first variant whose property
    the source object has. *)
Definition getSourceVariant (registry : list VariantLayout)
    (src : gmap string (gmap string Value)) : Result VariantLayout :=
  match List.find (fun vlo => bool_decide (is_Some (src !! property vlo))) registry with
  | Some vlo => Ok vlo
  | None => Err (Error "unable to infer src variant")
  end.

(** [VariantLayout.encode]: returns the buffer written and the span. *)
Definition VariantLayout_encode (vlo : VariantLayout)
    (src : gmap string (gmap string Value)) (b : Buffer) : Result (Buffer * nat) :=
  match src !! property vlo with
  | None => Err (TypeError "variant lacks property")
  | Some fields =>
      b1 ← u8_encode (variant vlo) b 0;
      b2 ← Structure_encode (layout vlo) fields b1 1;
      Ok (b2, VariantLayout_span vlo)
  end.

(** [LAYOUT.encode(src, b)]. *)
Definition Union_encode (registry : list VariantLayout)
    (src : gmap string (gmap string Value)) (b : Buffer) : Result (Buffer * nat) :=
  vlo ← getSourceVariant registry src;
  VariantLayout_encode vlo src b.

(** [LAYOUT.decode(b)]: the union has no default layout, so an unknown
    discriminator is an error. *)
Definition Union_decode (registry : list VariantLayout) (b : Buffer)
  : Result (gmap string (gmap string Value)) :=
  discr ← u8_decode b 0;
  match List.find (fun vlo => bool_decide (variant vlo = discr)) registry with
  | None => Err (TypeError "no layout for the discriminator")
  | Some vlo =>
      fields ← Structure_decode (layout vlo) b 1 ∅;
      Ok {[ property vlo := fields ]}
  end.

(** instructions.js, [encodeTokenInstructionData]. *)
Definition encodeTokenInstructionData (instruction : gmap string (gmap string Value))
  : Result Buffer :=
  let b := Buffer_alloc instructionMaxSpan in
  '(b, span) ← Union_encode LAYOUT instruction b;
  Ok (Buffer_slice b 0 span).

(** ** SHA-256 and the ed25519 curve test (the primitives of web3.js) *)

Module SHA256.

Definition mask32 : Z := 4294967295.
Definition add32 (x y : Z) : Z := Z.land (x + y) mask32.
Definition rotr (n x : Z) : Z :=
  Z.land (Z.lor (Z.shiftr x n) (Z.shiftl x (32 - n))) mask32.
Definition shr (n x : Z) : Z := Z.shiftr x n.
Definition xor3 (x y z : Z) : Z := Z.lxor x (Z.lxor y z).

Definition Ch (x y z : Z) : Z :=
  Z.lxor (Z.land x y) (Z.land (Z.lxor x mask32) z).
Definition Maj (x y z : Z) : Z :=
  xor3 (Z.land x y) (Z.land x z) (Z.land y z).
Definition Sigma0 (x : Z) : Z := xor3 (rotr 2 x) (rotr 13 x) (rotr 22 x).
Definition Sigma1 (x : Z) : Z := xor3 (rotr 6 x) (rotr 11 x) (rotr 25 x).
Definition sigma0 (x : Z) : Z := xor3 (rotr 7 x) (rotr 18 x) (shr 3 x).
Definition sigma1 (x : Z) : Z := xor3 (rotr 17 x) (rotr 19 x) (shr 10 x).

(** Integer cube root of [n], by bisection on [bits] bits. *)
Fixpoint icbrt (bits : nat) (n acc : Z) : Z :=
  match bits with
  | O => acc
  | S b =>
      let c := acc + 2 ^ Z.of_nat b in
      icbrt b n (if decide (c * c * c <= n) then c else acc)
  end.

Definition first_primes : list Z :=
  [ 2; 3; 5; 7; 11; 13; 17; 19; 23; 29; 31; 37; 41; 43; 47; 53; 59; 61; 67;
    71; 73; 79; 83; 89; 97; 101; 103; 107; 109; 113; 127; 131; 137; 139; 149;
    151; 157; 163; 167; 173; 179; 181; 191; 193; 197; 199; 211; 223; 227; 229;
    233; 239; 241; 251; 257; 263; 269; 271; 277; 281; 283; 293; 307; 311 ].

(** The round constants: the first 32 bits of the fractional parts of the
    cube roots of the first 64 primes. *)
Definition K : list Z :=
  Eval vm_compute in
    map (fun p => icbrt 40 (p * 2 ^ 96) 0 `mod` 2 ^ 32) first_primes.

(** The initial hash value: the first 32 bits of the fractional parts of
    the square roots of the first 8 primes. *)
Definition H0 : list Z :=
  Eval vm_compute in
    map (fun p => Z.sqrt (p * 2 ^ 64) `mod` 2 ^ 32) (take 8 first_primes).

(** Message padding: a 1 bit, zeros, and the bit length on 8 big-endian
    bytes, to a multiple of 64 bytes. *)
Definition pad (msg : Buffer) : Buffer :=
  let len := length msg in
  let zeros := ((64 - (len + 9) mod 64) mod 64)%nat in
  msg ++ [128] ++ replicate zeros 0
      ++ reverse (le_bytes (8 * Z.of_nat len) 8).

Fixpoint words_be (b : Buffer) (n : nat) : list Z :=
  match n with
  | O => []
  | S n' => toBigIntBE (take 4 b) :: words_be (drop 4 b) n'
  end.

(** The message schedule, most recent word first: [rev_w] holds
    W[t-1], W[t-2], ... *)
Fixpoint schedule (n : nat) (rev_w : list Z) : list Z :=
  match n with
  | O => rev_w
  | S n' =>
      let w2 := rev_w !!! 1%nat in
      let w7 := rev_w !!! 6%nat in
      let w15 := rev_w !!! 14%nat in
      let w16 := rev_w !!! 15%nat in
      schedule n' (add32 (add32 (sigma1 w2) w7) (add32 (sigma0 w15) w16) :: rev_w)
  end.

Record state : Type := mkState { a : Z; b : Z; c : Z; d : Z; e : Z; f : Z; g : Z; h : Z }.

Definition round (s : state) (kw : Z * Z) : state :=
  let t1 := add32 (add32 (add32 (h s) (Sigma1 (e s))) (add32 (Ch (e s) (f s) (g s)) kw.1)) kw.2 in
  let t2 := add32 (Sigma0 (a s)) (Maj (a s) (b s) (c s)) in
  mkState (add32 t1 t2) (a s) (b s) (c s) (add32 (d s) t1) (e s) (f s) (g s).

Definition compress (hs : state) (block : Buffer) : state :=
  let w := reverse (schedule 48 (reverse (words_be block 16))) in
  let s := foldl round hs (zip K w) in
  mkState (add32 (a hs) (a s)) (add32 (b hs) (b s)) (add32 (c hs) (c s))
          (add32 (d hs) (d s)) (add32 (e hs) (e s)) (add32 (f hs) (f s))
          (add32 (g hs) (g s)) (add32 (h hs) (h s)).

Fixpoint blocks (n : nat) (hs : state) (data : Buffer) : state :=
  match n with
  | O => hs
  | S n' => blocks n' (compress hs (take 64 data)) (drop 64 data)
  end.

Definition initial : state :=
  match H0 with
  | [h0; h1; h2; h3; h4; h5; h6; h7] => mkState h0 h1 h2 h3 h4 h5 h6 h7
  | _ => mkState 0 0 0 0 0 0 0 0
  end.

Definition word_bytes (x : Z) : Buffer := reverse (le_bytes x 4).

(** The digest, 32 bytes. *)
Definition sha256 (msg : Buffer) : Buffer :=
  let data := pad msg in
  let s := blocks (length data / 64) initial data in
  word_bytes (a s) ++ word_bytes (b s) ++ word_bytes (c s) ++ word_bytes (d s)
    ++ word_bytes (e s) ++ word_bytes (f s) ++ word_bytes (g s) ++ word_bytes (h s).

End SHA256.

Module Ed25519.

(** The field prime 2^255 - 19. *)
Definition P : Z := 2 ^ 255 - 19.

(** One folding step of the reduction modulo [P]: 2^255 is 19 there. *)
Definition fold19 (x : Z) : Z :=
  Z.land x (Z.ones 255) + 19 * Z.shiftr x 255.

(** The residue of [x] modulo [P], for [0 <= x < 2^510]. *)
Definition reduce (x : Z) : Z :=
  let y := fold19 (fold19 x) in
  let y := if decide (P <= y) then y - P else y in
  if decide (P <= y) then y - P else y.

Definition mul (x y : Z) : Z := reduce (x * y).

Fixpoint pow (base : Z) (exp : positive) : Z :=
  match exp with
  | xH => reduce base
  | xO e' => let r := pow base e' in mul r r
  | xI e' => let r := pow base e' in mul (mul r r) base
  end.

Definition inv (x : Z) : Z := pow x (Z.to_pos (P - 2)).

(** The curve constant d = -121665/121666. *)
Definition d : Z := Eval vm_compute in mul (P - 121665) (inv 121666).

(** Euler's criterion: [x] is zero or a square modulo [P]. *)
Definition is_square (x : Z) : bool :=
  let e := pow x (Z.to_pos ((P - 1) `div` 2)) in
  bool_decide (e = 0) || bool_decide (e = 1).

(** web3.js [isOnCurve(bytes)]: whether the 32 bytes decompress to a point,
    as [ExtendedPoint.fromHex] decides it: y below the prime,
    x^2 = u/v with u = y^2 - 1 and v = d y^2 + 1 a square, and not x = 0
    with the sign bit set.  Since u/v and u v differ by the square v^2
    (v is never zero), one is a square when the other is; and x = 0
    exactly when u = 0. *)
Definition isOnCurve (bytes : list Z) : bool :=
  let n := toBigIntLE bytes in
  let y := Z.land n (Z.ones 255) in
  let sign := Z.testbit n 255 in
  let y2 := mul y y in
  let u := reduce (y2 + (P - 1)) in
  let v := reduce (mul d y2 + 1) in
  bool_decide (y < P) && is_square (mul u v)
  && negb (bool_decide (u = 0) && sign).

End Ed25519.

(** [Buffer.from(text, 'utf-8')], for text held as its UTF-8 bytes. *)
Definition utf8 (text : string) : Buffer :=
  map (fun ch => Z.of_nat (nat_of_ascii ch)) (list_ascii_of_string text).

Definition MAX_SEED_LENGTH : nat := 32.

(** web3.js [PublicKey.createProgramAddressSync(seeds, programId)]. *)
Definition createProgramAddressSync (seeds : list Buffer) (programId : PublicKey)
  : Result PublicKey :=
  if decide (Forall (fun seed => (length seed <= MAX_SEED_LENGTH)%nat) seeds) then
    let buffer := concat seeds ++ toBuffer programId ++ utf8 "ProgramDerivedAddress" in
    let publicKeyBytes := SHA256.sha256 buffer in
    if Ed25519.isOnCurve publicKeyBytes
    then Err (Error "Invalid seeds, address must fall off the curve")
    else PublicKey_of_bytes publicKeyBytes
  else Err (TypeError "Max seed length exceeded").

(** The loop of [PublicKey.findProgramAddressSync]: bump seeds from [nonce]
    down to 1; a [TypeError] is rethrown, any other failure moves on to the
    next bump. *)
Fixpoint findProgramAddressSync_from (seeds : list Buffer) (programId : PublicKey)
    (nonce : nat) : Result (PublicKey * Z) :=
  match nonce with
  | O => Err (Error "Unable to find a viable program address nonce")
  | S n =>
      match createProgramAddressSync (seeds ++ [[Z.of_nat nonce]]) programId with
      | Ok address => Ok (address, Z.of_nat nonce)
      | Err (TypeError msg) => Err (TypeError msg)
      | Err _ => findProgramAddressSync_from seeds programId n
      end
  end.

Definition findProgramAddressSync (seeds : list Buffer) (programId : PublicKey)
  : Result (PublicKey * Z) :=
  findProgramAddressSync_from seeds programId 255.

(** transfer.js, [findAssociatedTokenAddress]. *)
Definition findAssociatedTokenAddress (walletAddress tokenMintAddress : PublicKey)
    (programId : PublicKey) : Result PublicKey :=
  fst <$> findProgramAddressSync
            [ toBuffer walletAddress; toBuffer programId; toBuffer tokenMintAddress ]
            ASSOCIATED_TOKEN_PROGRAM_ID.

(** ** Instructions (instructions.js) *)

Record AccountMeta : Type := mkAccountMeta {
  pubkey : PublicKey;
  isSigner : bool;
  isWritable : bool;
}.

Record TransactionInstruction : Type := mkInstruction {
  keys : list AccountMeta;
  data : Buffer;
  programId : PublicKey;
}.

#[global] Instance AccountMeta_eq_dec : EqDecision AccountMeta.
Proof. solve_decision. Defined.
#[global] Instance TransactionInstruction_eq_dec : EqDecision TransactionInstruction.
Proof. solve_decision. Defined.

Definition initializeMint (mint : PublicKey) (decimals : Z)
    (mintAuthority : PublicKey) (freezeAuthority : option PublicKey)
  : Result TransactionInstruction :=
  let keys :=
    [ mkAccountMeta mint false true;
      mkAccountMeta SYSVAR_RENT_PUBKEY false false ] in
  data ← encodeTokenInstructionData
    {[ "initializeMint" :=
         {[ "decimals" := Num decimals;
            "mintAuthority" := Bytes (toBuffer mintAuthority);
            "freezeAuthorityOption" := Bool (bool_decide (is_Some freezeAuthority));
            "freezeAuthority" := Bytes (toBuffer (default PublicKey_default freezeAuthority)) ]} ]};
  Ok (mkInstruction keys data TOKEN_PROGRAM_ID).

Definition initializeAccount (account mint owner : PublicKey)
  : Result TransactionInstruction :=
  let keys :=
    [ mkAccountMeta account false true;
      mkAccountMeta mint false false;
      mkAccountMeta owner false false;
      mkAccountMeta SYSVAR_RENT_PUBKEY false false ] in
  data ← encodeTokenInstructionData {[ "initializeAccount" := ∅ ]};
  Ok (mkInstruction keys data TOKEN_PROGRAM_ID).

Definition transferChecked (source mint destination : PublicKey) (amount decimals : Z)
    (owner programId : PublicKey) : Result TransactionInstruction :=
  let keys :=
    [ mkAccountMeta source false true;
      mkAccountMeta mint false false;
      mkAccountMeta destination false true;
      mkAccountMeta owner true false ] in
  data ← encodeTokenInstructionData
    {[ "transferChecked" := {[ "amount" := Big amount; "decimals" := Num decimals ]} ]};
  Ok (mkInstruction keys data programId).

Definition mintTo (mint destination : PublicKey) (amount : Z) (mintAuthority : PublicKey)
  : Result TransactionInstruction :=
  let keys :=
    [ mkAccountMeta mint false true;
      mkAccountMeta destination false true;
      mkAccountMeta mintAuthority true false ] in
  data ← encodeTokenInstructionData {[ "mintTo" := {[ "amount" := Big amount ]} ]};
  Ok (mkInstruction keys data TOKEN_PROGRAM_ID).

Definition closeAccount (source destination owner : PublicKey)
  : Result TransactionInstruction :=
  let keys :=
    [ mkAccountMeta source false true;
      mkAccountMeta destination false true;
      mkAccountMeta owner true false ] in
  data ← encodeTokenInstructionData {[ "closeAccount" := ∅ ]};
  Ok (mkInstruction keys data TOKEN_PROGRAM_ID).

Definition memoInstruction (memo : string) : TransactionInstruction :=
  mkInstruction [] (utf8 memo) MEMO_PROGRAM_ID.

(** [OWNER_VALIDATION_LAYOUT]: one [PublicKeyLayout], a 32-byte blob whose
    [encode] takes the key's [toBuffer()]. *)
Definition OWNER_VALIDATION_LAYOUT : Structure := [("account", blob 32)].

Definition encodeOwnerValidationInstruction (account : PublicKey) : Result Buffer :=
  let b := Buffer_alloc (Structure_span OWNER_VALIDATION_LAYOUT) in
  b ← Structure_encode OWNER_VALIDATION_LAYOUT
        {[ "account" := Bytes (toBuffer account) ]} b 0;
  Ok (Buffer_slice b 0 (Structure_span OWNER_VALIDATION_LAYOUT)).

Definition assertOwner (account owner : PublicKey) : Result TransactionInstruction :=
  let keys := [ mkAccountMeta account false false ] in
  data ← encodeOwnerValidationInstruction owner;
  Ok (mkInstruction keys data OWNER_VALIDATION_PROGRAM_ID).

Definition burn (account mint : PublicKey) (amount : Z) (owner : PublicKey)
  : Result TransactionInstruction :=
  let keys :=
    [ mkAccountMeta account false true;
      mkAccountMeta mint false true;
      mkAccountMeta owner true false ] in
  data ← encodeTokenInstructionData {[ "burn" := {[ "amount" := Big amount ]} ]};
  Ok (mkInstruction keys data TOKEN_PROGRAM_ID).

(** web3.js [SystemProgram.createAccount]: both accounts sign and are
    written; the payload is the instruction index 0 on 4 bytes, the lamports
    and the space on 8 bytes each, little-endian, and the owning program. *)
Definition SystemProgram_createAccount (fromPubkey newAccountPubkey : PublicKey)
    (lamports space : Z) (programId : PublicKey) : TransactionInstruction :=
  mkInstruction
    [ mkAccountMeta fromPubkey true true;
      mkAccountMeta newAccountPubkey true true ]
    (le_bytes 0 4 ++ le_bytes lamports 8 ++ le_bytes space 8 ++ toBuffer programId)
    SystemProgram_programId.

(** web3.js [SystemProgram.transfer]. *)
Definition SystemProgram_transfer (fromPubkey toPubkey : PublicKey) (lamports : Z)
  : TransactionInstruction :=
  mkInstruction
    [ mkAccountMeta fromPubkey true true;
      mkAccountMeta toPubkey false true ]
    (le_bytes 2 4 ++ le_bytes lamports 8)
    SystemProgram_programId.

(** ** Transactions (web3.js) *)

Record Keypair : Type := mkKeypair {
  publicKey : PublicKey;
  secretKey : Buffer;
}.

(** A wallet: its key; its [signTransaction] is a capability of the
    environment. *)
Record Wallet : Type := mkWallet { wallet_publicKey : PublicKey }.

(** A signature is represented by the key that made it: verifying it is
    comparing that key with the key of the slot it sits in. *)
Record SignaturePubkeyPair : Type := mkSigPair {
  signature : option PublicKey;
  signer_key : PublicKey;
}.

Record Transaction : Type := mkTransaction {
  instructions : list TransactionInstruction;
  recentBlockhash : option string;
  feePayer : option PublicKey;
  signatures : list SignaturePubkeyPair;
}.

#[global] Instance Keypair_eq_dec : EqDecision Keypair.
Proof. solve_decision. Defined.
#[global] Instance Wallet_eq_dec : EqDecision Wallet.
Proof. solve_decision. Defined.
#[global] Instance SignaturePubkeyPair_eq_dec : EqDecision SignaturePubkeyPair.
Proof. solve_decision. Defined.
#[global] Instance Transaction_eq_dec : EqDecision Transaction.
Proof. solve_decision. Defined.

(** [new Transaction()]. *)
Definition Transaction_new : Transaction := mkTransaction [] None None [].

(** What [Transaction.add] accepts. *)
Inductive TransactionItem : Type :=
| an_instruction (ix : TransactionInstruction)
| a_transaction (tx : Transaction).

(** [transaction.add(...items)]: an instruction is appended, a transaction
    contributes all its instructions. *)
Definition Transaction_add (tx : Transaction) (items : list TransactionItem)
  : Transaction :=
  foldl (fun t item =>
           match item with
           | an_instruction ix =>
               mkTransaction (instructions t ++ [ix])
                 (recentBlockhash t) (feePayer t) (signatures t)
           | a_transaction t' =>
               mkTransaction (instructions t ++ instructions t')
                 (recentBlockhash t) (feePayer t) (signatures t)
           end) tx items.

Definition set_recentBlockhash (tx : Transaction) (blockhash : string) : Transaction :=
  mkTransaction (instructions tx) (Some blockhash) (feePayer tx) (signatures tx).

Definition set_feePayer (tx : Transaction) (payer : PublicKey) : Transaction :=
  mkTransaction (instructions tx) (recentBlockhash tx) (Some payer) (signatures tx).

(** Keep the first occurrence of every key. *)
Fixpoint dedupe (seen keys : list PublicKey) : list PublicKey :=
  match keys with
  | [] => []
  | k :: rest =>
      if decide (k ∈ seen) then dedupe seen rest else k :: dedupe (k :: seen) rest
  end.

(** [transaction.setSigners(...signers)]. *)
Definition Transaction_setSigners (tx : Transaction) (signers : list PublicKey)
  : Result Transaction :=
  match signers with
  | [] => Err (Error "No signers")
  | _ =>
      Ok (mkTransaction (instructions tx) (recentBlockhash tx) (feePayer tx)
            (map (mkSigPair None) (dedupe [] signers)))
  end.

Fixpoint add_signature (slots : list SignaturePubkeyPair) (signer : PublicKey)
  : Result (list SignaturePubkeyPair) :=
  match slots with
  | [] => Err (Error "unknown signer")
  | slot :: rest =>
      if equals signer (signer_key slot)
      then Ok (mkSigPair (Some signer) (signer_key slot) :: rest)
      else rest' ← add_signature rest signer; Ok (slot :: rest')
  end.

Fixpoint add_signatures (slots : list SignaturePubkeyPair) (signers : list PublicKey)
  : Result (list SignaturePubkeyPair) :=
  match signers with
  | [] => Ok slots
  | k :: rest => slots' ← add_signature slots k; add_signatures slots' rest
  end.

(** [transaction.partialSign(...signers)], on the signature slots that
    [setSigners] laid out: every signer must own a slot. *)
Definition Transaction_partialSign (tx : Transaction) (signers : list Keypair)
  : Result Transaction :=
  match signers with
  | [] => Err (Error "No signers")
  | _ =>
      slots ← add_signatures (signatures tx) (map publicKey signers);
      Ok (mkTransaction (instructions tx) (recentBlockhash tx) (feePayer tx) slots)
  end.

(** [transaction.sign(...signers)]: lay out the slots anew and fill them. *)
Definition Transaction_sign (tx : Transaction) (signers : list Keypair)
  : Result Transaction :=
  tx ← Transaction_setSigners tx (map publicKey signers);
  Transaction_partialSign tx signers.

(** The bytes on the wire.  The wire format of web3.js is not modelled: a
    serialized transaction is represented by the transaction it carries. *)
Record RawTransaction : Type := mkRaw { carried : Transaction }.

#[global] Instance RawTransaction_eq_dec : EqDecision RawTransaction.
Proof. solve_decision. Defined.

(** [transaction.serialize()]: every slot must hold its key's signature. *)
Definition Transaction_serialize (tx : Transaction) : Result RawTransaction :=
  if forallb (fun slot => bool_decide (signature slot = Some (signer_key slot)))
       (signatures tx)
  then Ok (mkRaw tx)
  else Err (Error "Signature verification failed").

(** ** The environment: RPC connection, wallet, timers *)

Record AccountInfo : Type := mkAccountInfo {
  account_data : Buffer;
  executable : bool;
  owner_of : PublicKey;
  lamports_of : Z;
}.

Record Blockhash : Type := mkBlockhash {
  blockhash : string;
  lamportsPerSignature : Z;
}.

(** A value the RPC client has parsed from the JSON text of a reply.  A
    string stands for its UTF-8 text; a number is an integer ([JSON_safe]
    restricts it to the safe integers, where the digits below are the ones
    JavaScript prints); an object lists its properties in the order
    JavaScript enumerates them. *)
#[local] Set Warnings "-register-all".
Inductive JSONValue : Type :=
| JSON_null
| JSON_boolean (b : bool)
| JSON_number (n : Z)
| JSON_string (s : string)
| JSON_array (elements : list JSONValue)
| JSON_object (properties : list (string * JSONValue)).

(** The test [if (v)]: [null], [false], [0] and the empty string are falsy,
    every array and object is truthy. *)
Definition ToBoolean (v : JSONValue) : bool :=
  match v with
  | JSON_null => false
  | JSON_boolean b => b
  | JSON_number n => negb (n =? 0)
  | JSON_string s => negb (String.eqb s "")
  | JSON_array _ | JSON_object _ => true
  end.

(** A lower-case hexadecimal digit. *)
Definition hex_digit (n : N) : ascii :=
  ascii_of_N (if (n <? 10)%N then 48 + n else 87 + n)%N.

(** The escape of a control character, a backslash, [u] and four
    hexadecimal digits. *)
Definition UnicodeEscape (c : ascii) : string :=
  "\u00" ++ String (hex_digit (N_of_ascii c / 16))
              (String (hex_digit (N_of_ascii c mod 16)) "").

(** What [JSON.stringify] writes for one character of a string: the
    two-character escapes of backspace, tab, line feed, form feed, carriage
    return, the quotation mark and the backslash, the [u]-escape of the
    other characters below the space, and every other character as it is. *)
Definition quote_code_unit (c : ascii) : string :=
  let n := N_of_ascii c in
  if (n =? 8)%N then "\b"
  else if (n =? 9)%N then "\t"
  else if (n =? 10)%N then "\n"
  else if (n =? 12)%N then "\f"
  else if (n =? 13)%N then "\r"
  else if (n =? 34)%N then String "\" (String c "")
  else if (n =? 92)%N then "\\"
  else if (n <? 32)%N then UnicodeEscape c
  else String c "".

Fixpoint quote_code_units (s : string) : string :=
  match s with
  | EmptyString => ""
  | String c rest => quote_code_unit c ++ quote_code_units rest
  end.

(** The string between quotation marks (the character 34). *)
Definition QuoteJSONString (s : string) : string :=
  String "034" (quote_code_units s ++ String "034" "").

(** [JSON.stringify(v)], without replacer and without indentation. *)
Fixpoint JSON_stringify (v : JSONValue) : string :=
  match v with
  | JSON_null => "null"
  | JSON_boolean b => if b then "true" else "false"
  | JSON_number n => pretty n
  | JSON_string s => QuoteJSONString s
  | JSON_array elements =>
      "[" ++ String.concat "," (List.map JSON_stringify elements) ++ "]"
  | JSON_object properties =>
      "{" ++ String.concat ","
               (List.map (fun p : string * JSONValue =>
                            (QuoteJSONString p.1 ++ ":" ++ JSON_stringify p.2)%string)
                  properties) ++ "}"
  end.

(** Every number of the value is a safe integer: at most 2^53 - 1 in
    absolute value. *)
Fixpoint JSON_safe (v : JSONValue) : bool :=
  match v with
  | JSON_number n => bool_decide (- (2 ^ 53 - 1) <= n <= 2 ^ 53 - 1)
  | JSON_array elements => forallb JSON_safe elements
  | JSON_object properties =>
      forallb (fun p : string * JSONValue => JSON_safe p.2) properties
  | _ => true
  end.

#[global] Instance JSONValue_eq_dec : EqDecision JSONValue.
Proof.
  refine (fix go (x y : JSONValue) {struct x} : Decision (x = y) :=
    match x, y with
    | JSON_null, JSON_null => left _
    | JSON_boolean a, JSON_boolean b => cast_if (decide (a = b))
    | JSON_number a, JSON_number b => cast_if (decide (a = b))
    | JSON_string a, JSON_string b => cast_if (decide (a = b))
    | JSON_array a, JSON_array b => cast_if (@list_eq_dec _ go a b)
    | JSON_object a, JSON_object b =>
        cast_if (@list_eq_dec _ (@prod_eq_dec _ _ _ go) a b)
    | _, _ => right _
    end); clear go; congruence.
Defined.

(** The [value] of the response of [connection.confirmTransaction]: [err] is
    the on-chain error (web3.js [TransactionError]: a string or an object),
    or [null]. *)
Record SignatureResult : Type := mkSignatureResult { err : JSONValue }.

(** The decoded token account (data.js). *)
Record TokenAccountState : Type := mkTokenAccountState {
  state_mint : PublicKey;
  state_owner : PublicKey;
  state_amount : Z;
}.

#[global] Instance AccountInfo_eq_dec : EqDecision AccountInfo.
Proof. solve_decision. Defined.
#[global] Instance SignatureResult_eq_dec : EqDecision SignatureResult.
Proof. solve_decision. Defined.

(** The calls the code awaits. *)
Inductive Call : Type :=
| getAccountInfo (address : PublicKey)
| getMinimumBalanceForRentExemption (dataLength : Z)
| getRecentBlockhash (commitment : string)
| sendRawTransaction (rawTransaction : RawTransaction) (skipPreflight : bool)
                     (preflightCommitment : string)
| rpc_confirmTransaction (txid : string) (commitment : string)
| signTransaction (wallet : Wallet) (transaction : Transaction)
| Keypair_generate
| setTimeout (ms : Z).

#[global] Instance Call_eq_dec : EqDecision Call.
Proof. solve_decision. Defined.

Definition Reply (c : Call) : Type :=
  match c with
  | getAccountInfo _ => option AccountInfo
  | getMinimumBalanceForRentExemption _ => Z
  | getRecentBlockhash _ => Blockhash
  | sendRawTransaction _ _ _ => string
  | rpc_confirmTransaction _ _ => SignatureResult
  | signTransaction _ _ => Transaction
  | Keypair_generate => Keypair
  | setTimeout _ => unit
  end.

(** How an awaited promise settles. *)
Inductive Settled (R : Type) : Type :=
| Fulfilled (r : R)
| Rejected (detail : string).
Arguments Fulfilled {R} r.
Arguments Rejected {R} detail.

(** An async function: it returns, throws, or awaits a call and goes on with
    the way the call settles. *)
Inductive Prog (A : Type) : Type :=
| Ret (a : A)
| Throw (e : error)
| Await (c : Call) (k : Settled (Reply c) -> Prog A).
Arguments Ret {A} a.
Arguments Throw {A} e.
Arguments Await {A} c k.

Fixpoint Prog_bind {A B} (f : A -> Prog B) (p : Prog A) : Prog B :=
  match p with
  | Ret a => f a
  | Throw e => Throw e
  | Await c k => Await c (fun r => Prog_bind f (k r))
  end.

#[global] Instance Prog_ret : MRet Prog := fun A a => Ret a.
#[global] Instance Prog_mbind : MBind Prog := fun A B f p => Prog_bind f p.

(** [await call]: a rejection is thrown. *)
Definition await (c : Call) : Prog (Reply c) :=
  Await c (fun r =>
             match r with
             | Fulfilled v => Ret v
             | Rejected detail => Throw (ExternalError detail)
             end).

(** A synchronous computation inside an async function. *)
Definition lift {A} (r : Result A) : Prog A :=
  match r with
  | Ok a => Ret a
  | Err e => Throw e
  end.

(** [try { p } catch (error) { handler error }]. *)
Fixpoint try_catch {A} (p : Prog A) (handler : error -> Prog A) : Prog A :=
  match p with
  | Ret a => Ret a
  | Throw e => handler e
  | Await c k => Await c (fun r => try_catch (k r) handler)
  end.

(** Running an async function against an environment with state [W]: the
    result, the final state, and the calls made, in order. *)
Section Run.

Context {W : Type}.
Variable handle : forall c : Call, W -> Settled (Reply c) * W.

Fixpoint run {A} (p : Prog A) (w : W) : Result A * W * list Call :=
  match p with
  | Ret a => (Ok a, w, [])
  | Throw e => (Err e, w, [])
  | Await c k =>
      let '(r, w1) := handle c w in
      let '(res, w2, calls) := run (k r) w1 in
      (res, w2, c :: calls)
  end.

End Run.

(** instructions.js, [signAndSendTransaction]. *)
Definition signAndSendTransaction (transaction : Transaction) (wallet : Wallet)
    (signers : list Keypair) (skipPreflight : bool) : Prog string :=
  recent ← await (getRecentBlockhash "max");
  let transaction := set_recentBlockhash transaction (blockhash recent) in
  transaction ← lift (Transaction_setSigners transaction
                        (wallet_publicKey wallet :: map publicKey signers));
  transaction ← (if decide (0 < length signers)%nat
                 then lift (Transaction_partialSign transaction signers)
                 else Ret transaction);
  transaction ← await (signTransaction wallet transaction);
  rawTransaction ← lift (Transaction_serialize transaction);
  await (sendRawTransaction rawTransaction skipPreflight "single").

(** ** data.js *)

(** data.js is not among the sources at hand.  Its exports used by the code
    below are taken as an interface: the spans of the two state layouts and
    the token-account parser. *)
Class DataJs : Type := mkDataJs {
  ACCOUNT_LAYOUT_span : Z;
  MINT_LAYOUT_span : Z;
  parseTokenAccountData : Buffer -> Result TokenAccountState;
}.

(** Modelled from the spec: data.js's [parseTokenAccountData] is missing; the
    token-account state layout is 32 bytes of mint, 32 bytes of owner and the
    amount on 8 bytes, little-endian, followed by fields that are not
    interpreted. *)
Definition parseTokenAccountData_layout (data : Buffer) : Result TokenAccountState :=
  mint ← PublicKey_of_bytes (Buffer_slice data 0 32);
  owner ← PublicKey_of_bytes (Buffer_slice data 32 64);
  Ok (mkTokenAccountState mint owner (toBigIntLE (Buffer_slice data 64 72))).

(** An instance of the interface, with the spans of the token program's
    account (165 bytes) and mint (82 bytes) records. *)
Definition data_js_layout : DataJs :=
  mkDataJs 165 82 parseTokenAccountData_layout.

(** ** Composers *)

(** [if (memo)]: a memo that is present and not the empty string. *)
Definition truthy (memo : option string) : bool :=
  match memo with
  | Some text => negb (String.eqb text "")
  | None => false
  end.

(** [!!info && info.owner.equals(programId)]. *)
Definition owned_by (info : option AccountInfo) (programId : PublicKey) : bool :=
  match info with
  | Some i => equals (owner_of i) programId
  | None => false
  end.

(** [!info || info.lamports === 0]. *)
Definition unfunded (info : option AccountInfo) : bool :=
  match info with
  | Some i => bool_decide (lamports_of i = 0)
  | None => true
  end.

(** The names bound at the top level of mint.js: its imports and its own
    functions. *)
Definition mint_js_scope : list string :=
  [ "closeAccount"; "initializeAccount"; "initializeMint"; "memoInstruction";
    "mintTo"; "TOKEN_PROGRAM_ID"; "TOKEN_METADATA_PROGRAM_ID";
    "signAndSendTransaction"; "transferChecked";
    "PublicKey"; "SystemProgram"; "SYSVAR_RENT_PUBKEY"; "Transaction";
    "TransactionInstruction";
    "ACCOUNT_LAYOUT"; "MINT_LAYOUT";
    "createAndInitializeMint"; "mintMoreTokens"; "mintMoreTokensWithNewAccount" ].

(** Evaluating an identifier of a module: an unbound name throws. *)
Definition identifier {A} (scope : list string) (name : string) (bound : Prog A)
  : Prog A :=
  if decide (name ∈ scope) then bound
  else Throw (ReferenceError (name ++ " is not defined")).

(** A timer: the promise resolves, it never rejects. *)
Definition sleep {A} (ms : Z) (next : Prog A) : Prog A :=
  Await (setTimeout ms) (fun _ => next).

Section Composers.

Context {data_js : DataJs}.

(** mint.js *)

Definition createAndInitializeMint (owner : Wallet) (mint : Keypair)
    (amount decimals : Z) (initialAccount : Keypair) : Prog string :=
  let transaction := Transaction_new in
  lamports ← await (getMinimumBalanceForRentExemption MINT_LAYOUT_span);
  let transaction :=
    Transaction_add transaction
      [ an_instruction
          (SystemProgram_createAccount (wallet_publicKey owner) (publicKey mint)
             lamports MINT_LAYOUT_span TOKEN_PROGRAM_ID) ] in
  ix ← lift (initializeMint (publicKey mint) decimals (wallet_publicKey owner) None);
  let transaction := Transaction_add transaction [ an_instruction ix ] in
  let signers := [ mint ] in
  '(transaction, signers) ←
    (if decide (amount > 0) then
       lamports ← await (getMinimumBalanceForRentExemption ACCOUNT_LAYOUT_span);
       let transaction :=
         Transaction_add transaction
           [ an_instruction
               (SystemProgram_createAccount (wallet_publicKey owner)
                  (publicKey initialAccount) lamports ACCOUNT_LAYOUT_span
                  TOKEN_PROGRAM_ID) ] in
       let signers := signers ++ [ initialAccount ] in
       ix ← lift (initializeAccount (publicKey initialAccount) (publicKey mint)
                    (wallet_publicKey owner));
       let transaction := Transaction_add transaction [ an_instruction ix ] in
       ix ← lift (mintTo (publicKey mint) (publicKey initialAccount) amount
                    (wallet_publicKey owner));
       let transaction := Transaction_add transaction [ an_instruction ix ] in
       Ret (transaction, signers)
     else Ret (transaction, signers));
  signAndSendTransaction transaction owner signers false.

Definition mintMoreTokens (mintAuthority : Wallet) (mint destination : PublicKey)
    (amount : Z) : Prog string :=
  let transaction := Transaction_new in
  ix ← lift (mintTo mint destination amount (wallet_publicKey mintAuthority));
  let transaction := Transaction_add transaction [ an_instruction ix ] in
  signAndSendTransaction transaction mintAuthority [] false.

Definition mintMoreTokensWithNewAccount (mintAuthority : Wallet)
    (mint destinationOwner : PublicKey) (amount : Z) : Prog string :=
  newTokenAccount ← identifier mint_js_scope "Keypair" (await Keypair_generate);
  let transaction := Transaction_new in
  lamports ← await (getMinimumBalanceForRentExemption ACCOUNT_LAYOUT_span);
  let transaction :=
    Transaction_add transaction
      [ an_instruction
          (SystemProgram_createAccount (wallet_publicKey mintAuthority)
             (publicKey newTokenAccount) lamports ACCOUNT_LAYOUT_span
             TOKEN_PROGRAM_ID) ] in
  ix ← lift (initializeAccount (publicKey newTokenAccount) mint destinationOwner);
  let transaction := Transaction_add transaction [ an_instruction ix ] in
  ix ← lift (mintTo mint (publicKey newTokenAccount) amount
               (wallet_publicKey mintAuthority));
  let transaction := Transaction_add transaction [ an_instruction ix ] in
  signAndSendTransaction transaction mintAuthority [ newTokenAccount ] false.

(** burn.js *)

Definition burnTokens (owner : Wallet) (tokenAccount mint : PublicKey) (amount : Z)
  : Prog string :=
  let transaction := Transaction_new in
  ix ← lift (burn tokenAccount mint amount (wallet_publicKey owner));
  let transaction := Transaction_add transaction [ an_instruction ix ] in
  signAndSendTransaction transaction owner [] false.

Definition burnTokensAndClose (owner : Wallet) (tokenAccount mint : PublicKey)
    (amount : Z) (closeIfEmpty : bool) : Prog string :=
  let transaction := Transaction_new in
  ix ← lift (burn tokenAccount mint amount (wallet_publicKey owner));
  let transaction := Transaction_add transaction [ an_instruction ix ] in
  transaction ←
    (if closeIfEmpty then
       ix ← lift (closeAccount tokenAccount (wallet_publicKey owner)
                    (wallet_publicKey owner));
       Ret (Transaction_add transaction [ an_instruction ix ])
     else Ret transaction);
  signAndSendTransaction transaction owner [] false.

Definition burnAllTokens (owner : Wallet) (tokenAccount mint : PublicKey)
    (shouldClose : bool) : Prog string :=
  accountInfo ← await (getAccountInfo tokenAccount);
  match accountInfo with
  | None => Throw (Error "Token account not found")
  | Some accountInfo =>
      tokenData ← lift (parseTokenAccountData (account_data accountInfo));
      let amount := state_amount tokenData in
      if decide (amount = 0)
      then Throw (Error "Token account has zero balance")
      else burnTokensAndClose owner tokenAccount mint amount shouldClose
  end.

(** transfer.js *)

Definition nativeTransfer (wallet : Wallet) (destination : PublicKey) (amount : Z)
  : Prog string :=
  let tx :=
    Transaction_add Transaction_new
      [ an_instruction
          (SystemProgram_transfer (wallet_publicKey wallet) destination amount) ] in
  signAndSendTransaction tx wallet [] false.

Definition createAssociatedTokenAccountIx
    (fundingAddress walletAddress dplTokenMintAddress programId : PublicKey)
  : Result (TransactionInstruction * PublicKey) :=
  associatedTokenAddress ←
    findAssociatedTokenAddress walletAddress dplTokenMintAddress programId;
  let keys :=
    [ mkAccountMeta fundingAddress true true;
      mkAccountMeta associatedTokenAddress false true;
      mkAccountMeta walletAddress false false;
      mkAccountMeta dplTokenMintAddress false false;
      mkAccountMeta SystemProgram_programId false false;
      mkAccountMeta programId false false;
      mkAccountMeta SYSVAR_RENT_PUBKEY false false ] in
  let ix := mkInstruction keys [] ASSOCIATED_TOKEN_PROGRAM_ID in
  Ok (ix, associatedTokenAddress).

Definition createTransferBetweenSplTokenAccountsInstruction
    (ownerPublicKey mint : PublicKey) (decimals : Z)
    (sourcePublicKey destinationPublicKey : PublicKey) (amount : Z)
    (memo : option string) (programId : PublicKey) : Result Transaction :=
  ix ← transferChecked sourcePublicKey mint destinationPublicKey amount decimals
         ownerPublicKey programId;
  let transaction := Transaction_add Transaction_new [ an_instruction ix ] in
  Ok (if truthy memo
      then Transaction_add transaction
             [ an_instruction (memoInstruction (default "" memo)) ]
      else transaction).

Definition createAndTransferToAccount (owner : Wallet)
    (sourcePublicKey destinationPublicKey : PublicKey) (amount : Z)
    (memo : option string) (mint : PublicKey) (decimals : Z)
    (programId : PublicKey) : Prog Transaction :=
  '(createAccountInstruction, newAddress) ←
    lift (createAssociatedTokenAccountIx (wallet_publicKey owner)
            destinationPublicKey mint programId);
  transfer ←
    lift (createTransferBetweenSplTokenAccountsInstruction
            (wallet_publicKey owner) mint decimals sourcePublicKey newAddress
            amount memo programId);
  Ret (Transaction_add Transaction_new
         [ an_instruction createAccountInstruction; a_transaction transfer ]).

Definition transferBetweenSplTokenAccounts (owner : Wallet) (mint : PublicKey)
    (decimals : Z) (sourcePublicKey destinationPublicKey : PublicKey)
    (amount : Z) (memo : option string) (programId : PublicKey)
  : Prog Transaction :=
  lift (createTransferBetweenSplTokenAccountsInstruction
          (wallet_publicKey owner) mint decimals sourcePublicKey
          destinationPublicKey amount memo programId).

Definition transferTokens (owner : Wallet)
    (sourcePublicKey destinationPublicKey : PublicKey) (amount : Z)
    (memo : option string) (mint : PublicKey) (decimals : Z)
    (overrideDestinationCheck : bool) (programId : option PublicKey)
  : Prog Transaction :=
  let programId := default TOKEN_PROGRAM_ID programId in
  destinationAccountInfo ← await (getAccountInfo destinationPublicKey);
  if owned_by destinationAccountInfo programId then
    transferBetweenSplTokenAccounts owner mint decimals sourcePublicKey
      destinationPublicKey amount memo programId
  else if unfunded destinationAccountInfo && negb overrideDestinationCheck then
    Throw (Error "Cannot send to address with zero DOMI balances")
  else
    destinationAssociatedTokenAddress ←
      lift (findAssociatedTokenAddress destinationPublicKey mint programId);
    destinationAccountInfo ←
      await (getAccountInfo destinationAssociatedTokenAddress);
    if owned_by destinationAccountInfo programId then
      transferBetweenSplTokenAccounts owner mint decimals sourcePublicKey
        destinationAssociatedTokenAddress amount memo programId
    else
      createAndTransferToAccount owner sourcePublicKey destinationPublicKey
        amount memo mint decimals programId.

Definition createAndInitializeTokenAccount (payer : Wallet)
    (mintPublicKey : PublicKey) (newAccount : Keypair) : Prog string :=
  let transaction := Transaction_new in
  lamports ← await (getMinimumBalanceForRentExemption ACCOUNT_LAYOUT_span);
  let transaction :=
    Transaction_add transaction
      [ an_instruction
          (SystemProgram_createAccount (wallet_publicKey payer)
             (publicKey newAccount) lamports ACCOUNT_LAYOUT_span
             TOKEN_PROGRAM_ID) ] in
  ix ← lift (initializeAccount (publicKey newAccount) mintPublicKey
               (wallet_publicKey payer));
  let transaction := Transaction_add transaction [ an_instruction ix ] in
  let signers := [ newAccount ] in
  signAndSendTransaction transaction payer signers false.

Definition closeTokenAccount (owner : Wallet) (sourcePublicKey : PublicKey)
    (skipPreflight : bool) : Prog string :=
  ix ← lift (closeAccount sourcePublicKey (wallet_publicKey owner)
               (wallet_publicKey owner));
  let transaction := Transaction_add Transaction_new [ an_instruction ix ] in
  let signers := [] in
  signAndSendTransaction transaction owner signers skipPreflight.

End Composers.

(** ** Confirmation (production_test.js) *)

(** The loop of [confirmTransaction], with [remaining = maxRetries - i]
    iterations to go.  Leaving the loop returns [undefined], here [None]. *)
Fixpoint confirmTransaction_loop (txid : string) (remaining : nat)
  : Prog (option SignatureResult) :=
  match remaining with
  | O => Ret None
  | S n =>
      try_catch
        (result ← await (rpc_confirmTransaction txid "confirmed");
         if ToBoolean (err result)
         then Throw (Error ("Transaction failed: " ++ JSON_stringify (err result)))
         else Ret (Some result))
        (fun error =>
           match n with
           | O => Throw error
           | S _ => sleep 2000 (confirmTransaction_loop txid n)
           end)
  end.

Definition confirmTransaction (txid : string) (maxRetries : nat)
  : Prog (option SignatureResult) :=
  confirmTransaction_loop txid maxRetries.


(** ** The mock connection of full_test.js *)

(** [MockConnection], together with the keypairs the test's mock wallet
    closes over. *)
Record MockConnection : Type := mkMock {
  accounts : gmap PublicKey AccountInfo;
  balances : gmap PublicKey Z;
  transactions : list (string * RawTransaction);
  wallet_signers : list Keypair;
}.

Definition mock_handle (c : Call) (w : MockConnection)
  : Settled (Reply c) * MockConnection :=
  match c as c0 return Settled (Reply c0) * MockConnection with
  | getAccountInfo address => (Fulfilled (accounts w !! address), w)
  | getMinimumBalanceForRentExemption size => (Fulfilled (size * 10), w)
  | getRecentBlockhash _ =>
      (Fulfilled (mkBlockhash "4uQeVj5tqViQh7yWWGStvkEG1Zmhx6uasJtWCJziofM" 5000), w)
  | sendRawTransaction rawTx _ _ =>
      (* the mock's identifier also carries the time and a random suffix *)
      let sig := "mock_tx" in
      (Fulfilled sig,
       mkMock (accounts w) (balances w) (transactions w ++ [(sig, rawTx)])
         (wallet_signers w))
  | rpc_confirmTransaction _ _ => (Fulfilled (mkSignatureResult JSON_null), w)
  | signTransaction _ tx =>
      match Transaction_sign tx (wallet_signers w) with
      | Ok tx' => (Fulfilled tx', w)
      | Err _ => (Rejected "signing failed", w)
      end
  | Keypair_generate => (Rejected "no entropy", w)
  | setTimeout _ => (Fulfilled (), w)
  end.

(** A connection whose confirmation polls settle as a given script says,
    one entry per poll; past the script the poll times out. *)
Definition scripted_handle (c : Call) (w : list (Settled SignatureResult))
  : Settled (Reply c) * list (Settled SignatureResult) :=
  match c as c0 return Settled (Reply c0) * list (Settled SignatureResult) with
  | rpc_confirmTransaction _ _ =>
      match w with
      | outcome :: rest => (outcome, rest)
      | [] => (Rejected "Transaction was not confirmed", [])
      end
  | setTimeout _ => (Fulfilled (), w)
  | getAccountInfo _ => (Rejected "not scripted", w)
  | getMinimumBalanceForRentExemption _ => (Rejected "not scripted", w)
  | getRecentBlockhash _ => (Rejected "not scripted", w)
  | sendRawTransaction _ _ _ => (Rejected "not scripted", w)
  | signTransaction _ _ => (Rejected "not scripted", w)
  | Keypair_generate => (Rejected "not scripted", w)
  end.

(** Keys and a mock state for running the composers. *)
Definition test_owner_keypair : Keypair := mkKeypair (mkPublicKey 1001) [1].
Definition test_owner : Wallet := mkWallet (publicKey test_owner_keypair).
Definition test_mint : Keypair := mkKeypair (mkPublicKey 1002) [2].
Definition test_account : Keypair := mkKeypair (mkPublicKey 1003) [3].
Definition test_recipient : PublicKey := mkPublicKey 1004.

Definition test_world : MockConnection :=
  mkMock ∅ ∅ [] [test_owner_keypair; test_mint; test_account].

(** A state in which the recipient is a funded system account without any
    token account. *)
Definition test_world_funded : MockConnection :=
  mkMock {[ test_recipient := mkAccountInfo [] false SystemProgram_programId 1000000 ]}
    ∅ [] [test_owner_keypair].

(** States in which the test account is a token account holding nothing,
    and holding 5 units. *)
Definition test_world_empty_balance : MockConnection :=
  mkMock {[ publicKey test_account :=
              mkAccountInfo (replicate 165 0) false TOKEN_PROGRAM_ID 2039280 ]}
    ∅ [] [test_owner_keypair].

Definition test_world_balance : MockConnection :=
  mkMock {[ publicKey test_account :=
              mkAccountInfo (replicate 64 0 ++ [5] ++ replicate 100 0) false
                TOKEN_PROGRAM_ID 2039280 ]}
    ∅ [] [test_owner_keypair].

(** The associated token address of the recipient for the test mint. *)
Definition test_associated : PublicKey :=
  mkPublicKey
    40332696305785289996055877155284474506476949966224946401497854679756787416186.

(** ** Vocabulary of the statements *)

(** A value a field layout can encode. *)
Definition encodable (l : Layout) (v : Value) : Prop :=
  match l, v with
  | u8, Num n => 0 <= n <= 255
  | u8, Bool _ => True
  | blob len, Bytes b => length b = len
  | bigInt len, Big n => 0 <= n < 256 ^ Z.of_nat len
  | _, _ => False
  end.

(** A value of the type a field layout declares: a number in [0, 255] for
    [u8], [len] bytes for [blob len], a big integer below [256^len] for
    [bigInt len]. *)
Definition fits (l : Layout) (v : Value) : Prop :=
  match l, v with
  | u8, Num n => 0 <= n <= 255
  | blob len, Bytes b => length b = len
  | bigInt len, Big n => 0 <= n < 256 ^ Z.of_nat len
  | _, _ => False
  end.

(** The bytes a field value is encoded as. *)
Definition field_bytes (l : Layout) (v : Value) : Buffer :=
  match l, v with
  | u8, Num n => [n]
  | u8, Bool x => [Z.b2z x]
  | blob _, Bytes b => b
  | bigInt len, Big n => le_bytes n len
  | _, _ => []
  end.

Fixpoint struct_bytes (fields : Structure) (src : gmap string Value) : Buffer :=
  match fields with
  | [] => []
  | (property, fd) :: rest =>
      default [] (field_bytes fd <$> src !! property) ++ struct_bytes rest src
  end.

(** A source object that assigns every field of the struct, and nothing
    else, a value of the field's type. *)
Definition well_typed (fields : Structure) (src : gmap string Value) : Prop :=
  Forall (fun fd => exists v, src !! fd.1 = Some v /\ fits fd.2 v) fields
  /\ forall k, is_Some (src !! k) -> k ∈ fields.*1.

(** A transaction nobody has touched for submission: no blockhash, no fee
    payer, no signature slot. *)
Definition unsigned (tx : Transaction) : Prop :=
  recentBlockhash tx = None /\ feePayer tx = None /\ signatures tx = [].

(** The outcome of a run that starts with the call [c]. *)
Definition after {A W} (c : Call) (r : Result A * W * list Call)
  : Result A * W * list Call :=
  (r.1.1, r.1.2, c :: r.2).

(** [polls handle txid outcomes w]: from the state [w] on, the successive
    confirmation polls of [txid], two seconds apart, settle as [outcomes]. *)
Fixpoint polls {W} (handle : forall c : Call, W -> Settled (Reply c) * W)
    (txid : string) (outcomes : list (Settled SignatureResult)) (w : W) : Prop :=
  match outcomes with
  | [] => True
  | outcome :: rest =>
      (handle (rpc_confirmTransaction txid "confirmed") w).1 = outcome
      /\ polls handle txid rest
           (handle (setTimeout 2000)
              (handle (rpc_confirmTransaction txid "confirmed") w).2).2
  end.

(** The state the environment is in after [n] polls, each followed by the
    two-second pause, and the calls made on the way. *)
Fixpoint after_polls {W} (handle : forall c : Call, W -> Settled (Reply c) * W)
    (txid : string) (n : nat) (w : W) : W :=
  match n with
  | O => w
  | S n' =>
      after_polls handle txid n'
        (handle (setTimeout 2000)
           (handle (rpc_confirmTransaction txid "confirmed") w).2).2
  end.

Fixpoint poll_calls (txid : string) (n : nat) : list Call :=
  match n with
  | O => []
  | S n' => rpc_confirmTransaction txid "confirmed" :: setTimeout 2000
              :: poll_calls txid n'
  end.

(** The outcome of a run, with the calls [calls] made before it. *)
Definition preceded_by {A W} (calls : list Call) (r : Result A * W * list Call)
  : Result A * W * list Call :=
  (r.1.1, r.1.2, calls ++ r.2).

Definition is_send (c : Call) : bool :=
  match c with
  | sendRawTransaction _ _ _ => true
  | _ => false
  end.


(** ** The public-key layout (instructions.js) *)

(** [PublicKeyLayout]: a 32-byte blob whose [decode] makes a [PublicKey] of
    the bytes and whose [encode] writes the key's [toBuffer()]. *)
Definition PublicKeyLayout_decode (b : Buffer) (offset : nat) : Result PublicKey :=
  PublicKey_of_bytes (Blob_decode 32 b offset).

Definition PublicKeyLayout_encode (src : PublicKey) (b : Buffer) (offset : nat)
  : Result Buffer :=
  Blob_encode 32 (toBuffer src) b offset.

(** ** Balance queries (balance.js) *)

(** The decoded mint (data.js): the fields balance.js reads. *)
Record MintState : Type := mkMintState {
  state_mintAuthority : option PublicKey;
  state_supply : Z;
  state_decimals : Z;
  state_freezeAuthority : option PublicKey;
}.

(** [parseMintData] belongs to data.js, which is not among the sources at
    hand: it is taken as an interface, like the token-account parser. *)
Class MintDataJs : Type := mkMintDataJs {
  parseMintData : Buffer -> Result MintState;
}.

(** Modelled from the spec: data.js's [parseMintData] is missing; the mint
    state keeps its decimals in the byte at offset 44 (where full_test.js
    writes them and production_test.js reads them).  The supply is read from
    the 8 bytes before the decimals, little-endian; the authorities are left
    undecoded.  A record too short to hold the decimals is rejected. *)
Definition parseMintData_layout (data : Buffer) : Result MintState :=
  match data !! 44%nat with
  | Some decimals =>
      Ok (mkMintState None (toBigIntLE (Buffer_slice data 36 44)) decimals None)
  | None => Err (RangeError "offset is out of range")
  end.

Definition mint_data_js_layout : MintDataJs := mkMintDataJs parseMintData_layout.

(** The double-precision arithmetic of
    [Number(amount) / Math.pow(10, decimals)]: the conversion of a BigInt,
    [Math.pow] (whose precision the language leaves to the implementation)
    and the division, as an interface. *)
Class JsNumber : Type := mkJsNumber {
  number : Type;
  Number_of_BigInt : Z -> number;
  Math_pow : Z -> Z -> number;
  divide : number -> number -> number;
}.

(** An instance that computes nothing: a number is the expression that
    denotes it. *)
Inductive number_expr : Type :=
| Number_expr (n : Z)
| pow_expr (base exponent : Z)
| divide_expr (x y : number_expr).

Definition symbolic_numbers : JsNumber :=
  mkJsNumber number_expr Number_expr pow_expr divide_expr.

(** [Number(amount) / Math.pow(10, decimals)]. *)
Definition uiAmount_of {js_number : JsNumber} (amount decimals : Z) : number :=
  divide (Number_of_BigInt amount) (Math_pow 10 decimals).

(** [info.data], for an account info that may be [null]. *)
Definition data_of (info : option AccountInfo) : Result Buffer :=
  match info with
  | Some i => Ok (account_data i)
  | None => Err (TypeError "Cannot read properties of null (reading 'data')")
  end.

(** The objects the balance queries return. *)
Module TokenAccountBalance.
Record t {js_number : JsNumber} : Type := make {
  amount : Z;
  decimals : Z;
  uiAmount : number;
  mint : PublicKey;
}.
Arguments make {js_number}.
End TokenAccountBalance.

Module WalletTokenBalance.
Record t {js_number : JsNumber} : Type := make {
  publicKey : PublicKey;
  mint : PublicKey;
  amount : Z;
  decimals : Z;
  uiAmount : number;
}.
Arguments make {js_number}.
End WalletTokenBalance.

Module AssociatedTokenBalance.
Record t {js_number : JsNumber} : Type := make {
  tokenAccount : PublicKey;
  amount : Z;
  decimals : Z;
  uiAmount : number;
}.
Arguments make {js_number}.
End AssociatedTokenBalance.

Module MintSupply.
Record t {js_number : JsNumber} : Type := make {
  supply : Z;
  decimals : Z;
  uiSupply : number;
  mintAuthority : option PublicKey;
  freezeAuthority : option PublicKey;
}.
Arguments make {js_number}.
End MintSupply.

Section Balances.

Context {data_js : DataJs} {mint_data_js : MintDataJs} {js_number : JsNumber}.

Definition getTokenAccountBalance (tokenAccountPublicKey : PublicKey)
  : Prog TokenAccountBalance.t :=
  accountInfo ← await (getAccountInfo tokenAccountPublicKey);
  match accountInfo with
  | None => Throw (Error "Token account not found")
  | Some accountInfo =>
      tokenData ← lift (parseTokenAccountData (account_data accountInfo));
      mintInfo ← await (getAccountInfo (state_mint tokenData));
      mintData ← lift (data ← data_of mintInfo; parseMintData data);
      let amount := state_amount tokenData in
      let decimals := state_decimals mintData in
      let uiAmount := uiAmount_of amount decimals in
      Ret (TokenAccountBalance.make amount decimals uiAmount (state_mint tokenData))
  end.

(** The loop of [getAllTokenBalances] over the accounts that
    [connection.getProgramAccounts] returned, with the balances collected so
    far. *)
Fixpoint getAllTokenBalances_loop (tokenAccounts : list (PublicKey * AccountInfo))
    (balances : list WalletTokenBalance.t) : Prog (list WalletTokenBalance.t) :=
  match tokenAccounts with
  | [] => Ret balances
  | (pubkey, account) :: rest =>
      tokenData ← lift (parseTokenAccountData (account_data account));
      if decide (state_amount tokenData = 0)
      then getAllTokenBalances_loop rest balances
      else
        mintInfo ← await (getAccountInfo (state_mint tokenData));
        mintData ← lift (data ← data_of mintInfo; parseMintData data);
        getAllTokenBalances_loop rest
          (balances
             ++ [ WalletTokenBalance.make pubkey (state_mint tokenData)
                    (state_amount tokenData) (state_decimals mintData)
                    (uiAmount_of (state_amount tokenData)
                       (state_decimals mintData)) ])
  end.

(** [getAssociatedTokenBalance]: [None] is the [null] it returns when the
    associated account does not exist. *)
Definition getAssociatedTokenBalance (walletPublicKey mintPublicKey : PublicKey)
  : Prog (option AssociatedTokenBalance.t) :=
  associatedTokenAddress ←
    lift (let seeds :=
            [ toBuffer walletPublicKey; toBuffer TOKEN_PROGRAM_ID;
              toBuffer mintPublicKey ] in
          programId ←
            PublicKey_of_base58 "Dt8fRCpjeV6JDemhPmtcTKijgKdPxXHn9Wo9cXY5agtG";
          fst <$> findProgramAddressSync seeds programId);
  accountInfo ← await (getAccountInfo associatedTokenAddress);
  match accountInfo with
  | None => Ret None
  | Some accountInfo =>
      tokenData ← lift (parseTokenAccountData (account_data accountInfo));
      mintInfo ← await (getAccountInfo mintPublicKey);
      mintData ← lift (data ← data_of mintInfo; parseMintData data);
      Ret (Some (AssociatedTokenBalance.make associatedTokenAddress
                   (state_amount tokenData) (state_decimals mintData)
                   (uiAmount_of (state_amount tokenData)
                      (state_decimals mintData))))
  end.

Definition getMintSupply (mintPublicKey : PublicKey) : Prog MintSupply.t :=
  mintInfo ← await (getAccountInfo mintPublicKey);
  match mintInfo with
  | None => Throw (Error "Mint not found")
  | Some mintInfo =>
      mintData ← lift (parseMintData (account_data mintInfo));
      Ret (MintSupply.make (state_supply mintData) (state_decimals mintData)
             (uiAmount_of (state_supply mintData) (state_decimals mintData))
             (state_mintAuthority mintData) (state_freezeAuthority mintData))
  end.

End Balances.

(** ** The state helpers of the mock connection (full_test.js) *)

(** [Buffer.alloc(size)] for a size that is a number of the program. *)
Definition Buffer_alloc_size (size : Z) : Result Buffer :=
  if decide (0 <= size) then Ok (Buffer_alloc (Z.to_nat size))
  else Err (RangeError "The value of size is out of range").

(** [source.copy(target, targetStart)]: as many bytes of [source] as fit
    into [target] from [targetStart] on. *)
Definition Buffer_copy (source target : Buffer) (targetStart : nat) : Buffer :=
  let n := (length source `min` (length target - targetStart))%nat in
  take targetStart target ++ take n source ++ drop (targetStart + n) target.

(** [buf.writeBigUInt64LE(value)], at offset 0. *)
Definition writeBigUInt64LE (value : Z) (buf : Buffer) : Result Buffer :=
  if decide (0 <= value < 2 ^ 64) then
    if decide (8 <= length buf)%nat
    then Ok (Buffer_write (le_bytes value 8) buf 0)
    else Err (RangeError "offset is out of range")
  else Err (RangeError "value is out of range").

Section MockState.

Context {data_js : DataJs}.

(** [accounts.set(pubkey.toBase58(), info)]. *)
Definition set_account (connection : MockConnection) (pubkey : PublicKey)
    (info : AccountInfo) : MockConnection :=
  mkMock (<[pubkey := info]> (accounts connection)) (balances connection)
    (transactions connection) (wallet_signers connection).

Definition simulateTokenAccount (connection : MockConnection)
    (pubkey mint owner : PublicKey) (amount : Z) : Result MockConnection :=
  data ← Buffer_alloc_size ACCOUNT_LAYOUT_span;
  let data := Buffer_copy (toBuffer mint) data 0 in
  let data := Buffer_copy (toBuffer owner) data 32 in
  amountBuffer ← writeBigUInt64LE amount (Buffer_alloc 8);
  let data := Buffer_copy amountBuffer data 64 in
  Ok (set_account connection pubkey
        (mkAccountInfo data false TOKEN_PROGRAM_ID 2039280)).

Definition simulateMint (connection : MockConnection) (pubkey : PublicKey)
    (decimals : Z) : Result MockConnection :=
  data ← Buffer_alloc_size MINT_LAYOUT_span;
  data ← u8_encode decimals data 44;
  Ok (set_account connection pubkey
        (mkAccountInfo data false TOKEN_PROGRAM_ID 1461600)).

End MockState.

(** ** Vocabulary of the further statements *)

(** A byte sequence: every element in [0, 256). *)
Definition byte_sequence (b : Buffer) : Prop := Forall (fun x => 0 <= x < 256) b.

(** A key the [PublicKey] constructor can produce: a 256-bit number. *)
Definition valid_key (k : PublicKey) : Prop := 0 <= _bn k < 2 ^ 256.

(** The error the [try] block of [confirmTransaction] ends with on a
    poll: the rejection of the call, or the error thrown for a result whose
    [err] is truthy; none when the poll gives a result to return. *)
Definition poll_failure (outcome : Settled SignatureResult) : option error :=
  match outcome with
  | Rejected detail => Some (ExternalError detail)
  | Fulfilled result =>
      if ToBoolean (err result)
      then Some (Error ("Transaction failed: " ++ JSON_stringify (err result)))
      else None
  end.

(** The error value a poll reports, if any, has only safe integers. *)
Definition safe_outcome (outcome : Settled SignatureResult) : bool :=
  match outcome with
  | Rejected _ => true
  | Fulfilled result => JSON_safe (err result)
  end.

(** The bytes whose hash is the program address for [seeds] with the bump
    seed [bump]. *)
Definition address_preimage (seeds : list Buffer) (bump : Z) (programId : PublicKey)
  : Buffer :=
  concat (seeds ++ [[bump]]) ++ toBuffer programId ++ utf8 "ProgramDerivedAddress".

(** Whether a token account of a [getProgramAccounts] reply decodes to a
    balance that is not zero. *)
Definition holds_tokens {data_js : DataJs} (entry : PublicKey * AccountInfo) : bool :=
  match parseTokenAccountData (account_data entry.2) with
  | Ok tokenData => bool_decide (state_amount tokenData <> 0)
  | Err _ => false
  end.

(** The transaction [signAndSendTransaction] hands to the wallet, once the
    recent blockhash is known: the blockhash is set, the signature slots are
    laid out for the wallet and the signers, and the signers have signed. *)
Definition signing_request (transaction : Transaction) (wallet : Wallet)
    (signers : list Keypair) (recent : Blockhash) : Result Transaction :=
  tx ← Transaction_setSigners (set_recentBlockhash transaction (blockhash recent))
         (wallet_publicKey wallet :: map publicKey signers);
  if decide (0 < length signers)%nat
  then Transaction_partialSign tx signers
  else Ok tx.

(** A transaction in which every signature slot holds the signature of its
    key. *)
Definition fully_signed (tx : Transaction) : Prop :=
  Forall (fun slot => signature slot = Some (signer_key slot)) (signatures tx).

(** States of the mock connection for running the transfer routes: the
    recipient is itself a token account without lamports; the recipient is
    a funded system account whose associated address holds a token
    account. *)
Definition test_world_token_recipient : MockConnection :=
  mkMock {[ test_recipient := mkAccountInfo [] false TOKEN_PROGRAM_ID 0 ]}
    ∅ [] [test_owner_keypair].

Definition test_world_associated : MockConnection :=
  mkMock {[ test_recipient := mkAccountInfo [] false SystemProgram_programId 1000000;
            test_associated :=
              mkAccountInfo (replicate 165 0) false TOKEN_PROGRAM_ID 2039280 ]}
    ∅ [] [test_owner_keypair].

(** A state for running the balance queries: the test account is a token
    account holding 5 units of the mint at the all-zero address, and that
    address holds a mint with 9 decimals. *)
Definition test_world_mint : MockConnection :=
  mkMock {[ publicKey test_account :=
              mkAccountInfo (replicate 64 0 ++ [5] ++ replicate 100 0) false
                TOKEN_PROGRAM_ID 2039280;
            PublicKey_default :=
              mkAccountInfo (replicate 44 0 ++ [9] ++ replicate 37 0) false
                TOKEN_PROGRAM_ID 1461600 ]}
    ∅ [] [test_owner_keypair].

(** A reply of [getProgramAccounts] for running the loop of
    [getAllTokenBalances]: a token account holding 5 units and one holding
    nothing, both of the mint at the all-zero address. *)
Definition test_token_accounts : list (PublicKey * AccountInfo) :=
  [ (publicKey test_account,
     mkAccountInfo (replicate 64 0 ++ [5] ++ replicate 100 0) false
       TOKEN_PROGRAM_ID 2039280);
    (test_recipient,
     mkAccountInfo (replicate 165 0) false TOKEN_PROGRAM_ID 2039280) ].

(** The bytes of a struct whose source object may lack fields: a field
    that is absent leaves the zero bytes of the fresh buffer. *)
Fixpoint struct_bytes_or_zero (fields : Structure) (src : gmap string Value)
  : Buffer :=
  match fields with
  | [] => []
  | (property, fd) :: rest =>
      match src !! property with
      | Some v => field_bytes fd v
      | None => replicate (Layout_span fd) 0
      end ++ struct_bytes_or_zero rest src
  end.

(** The transactions the mock connection records for the submissions among
    the calls. *)
Definition recorded (calls : list Call) : list (string * RawTransaction) :=
  omap (fun c =>
          match c with
          | sendRawTransaction rawTx _ _ => Some ("mock_tx", rawTx)
          | _ => None
          end) calls.

(** * Properties *)

(** ** The codec *)

Lemma le_bytes_length n w : length (le_bytes n w) = w.
Proof. revert n. induction w as [|w IH]; intros n; simpl; [done|]. by rewrite IH. Qed.

Lemma toBigIntLE_le_bytes w : forall n,
  0 <= n < 256 ^ Z.of_nat w -> toBigIntLE (le_bytes n w) = n.
Proof.
  induction w as [|w IH]; intros n Hn.
  - simpl in *. lia.
  - cbn [le_bytes toBigIntLE foldr].
    change (foldr (fun x acc => x + 256 * acc) 0 (le_bytes (n `div` 256) w))
      with (toBigIntLE (le_bytes (n `div` 256) w)).
    rewrite IH.
    + pose proof (Z.div_mod n 256). lia.
    + rewrite Nat2Z.inj_succ, Z.pow_succ_r in Hn by lia.
      split; [apply Z.div_pos; lia|].
      apply Z.div_lt_upper_bound; lia.
Qed.

Lemma toBufferLE_ok n w :
  0 <= n < 256 ^ Z.of_nat w -> toBufferLE n w = Ok (le_bytes n w).
Proof. intros Hn. unfold toBufferLE. by rewrite decide_True. Qed.

Lemma Buffer_write_nil b off : Buffer_write [] b off = b.
Proof. unfold Buffer_write. simpl. rewrite Nat.add_0_r. apply take_drop. Qed.

Lemma Buffer_write_length src b off :
  (off + length src <= length b)%nat -> length (Buffer_write src b off) = length b.
Proof.
  intros H. unfold Buffer_write.
  rewrite !length_app, length_take, length_drop. lia.
Qed.

Lemma Buffer_write_write x y b off :
  (off + length x <= length b)%nat ->
  Buffer_write y (Buffer_write x b off) (off + length x) = Buffer_write (x ++ y) b off.
Proof.
  intros H. unfold Buffer_write.
  assert (Hoff : length (take off b) = off) by (rewrite length_take; lia).
  rewrite (assoc_L (++) (take off b) x).
  rewrite take_app_length' by (rewrite length_app; lia).
  rewrite drop_app_ge by (rewrite length_app; lia).
  rewrite length_app, Hoff.
  rewrite drop_drop, length_app.
  rewrite <- !(assoc_L (++)).
  do 3 f_equal. f_equal. lia.
Qed.

Lemma Layout_encode_spec l v b off :
  encodable l v -> (off + Layout_span l <= length b)%nat ->
  Layout_encode l v b off = Ok (Buffer_write (field_bytes l v) b off)
  /\ length (field_bytes l v) = Layout_span l.
Proof.
  intros Henc Hlen.
  destruct l, v; simpl in *; try done.
  - unfold u8_encode. rewrite decide_True by done. by rewrite decide_True by lia.
  - unfold u8_encode. rewrite decide_True by (destruct b0; simpl; lia).
    by rewrite decide_True by lia.
  - unfold Blob_encode. rewrite decide_True by done. by rewrite decide_True by lia.
  - unfold bigInt_encode. rewrite toBufferLE_ok by done. simpl.
    unfold Blob_encode. rewrite le_bytes_length.
    rewrite decide_True by done. by rewrite decide_True by lia.
Qed.

Lemma fits_encodable l v : fits l v -> encodable l v.
Proof. by destruct l, v. Qed.

Lemma Structure_encode_spec fields src : forall b off,
  Forall (fun fd => exists v, src !! fd.1 = Some v /\ encodable fd.2 v) fields ->
  (off + Structure_span fields <= length b)%nat ->
  Structure_encode fields src b off = Ok (Buffer_write (struct_bytes fields src) b off)
  /\ length (struct_bytes fields src) = Structure_span fields.
Proof.
  induction fields as [|[p l] rest IH]; intros b off Hall Hlen.
  - simpl. by rewrite Buffer_write_nil.
  - apply Forall_cons in Hall as [(v & Hv & Henc) Hall].
    simpl in *. rewrite Hv. simpl.
    destruct (Layout_encode_spec l v b off Henc) as [-> Hfb]; [lia|].
    simpl.
    destruct (IH (Buffer_write (field_bytes l v) b off) (off + Layout_span l)%nat Hall)
      as [-> Hsb].
    { rewrite Buffer_write_length by lia. lia. }
    split; [|rewrite length_app; lia].
    rewrite <- Hfb. by rewrite Buffer_write_write by lia.
Qed.

Lemma Layout_decode_spec l v pre post :
  fits l v -> Layout_decode l (pre ++ field_bytes l v ++ post) (length pre) = Ok v.
Proof.
  intros Hfit. destruct l as [|len|len], v as [n|x|n|bs]; simpl in *; try done.
  - unfold u8_decode. rewrite lookup_app_r by lia. by rewrite Nat.sub_diag.
  - unfold Blob_decode, Buffer_slice. rewrite drop_app_length.
    replace (length pre + len - length pre)%nat with len by lia.
    by rewrite take_app_length' by done.
  - unfold Blob_decode, Buffer_slice. rewrite drop_app_length.
    replace (length pre + len - length pre)%nat with len by lia.
    rewrite take_app_length' by (symmetry; apply le_bytes_length).
    by rewrite toBigIntLE_le_bytes.
Qed.

Lemma field_bytes_length l v : fits l v -> length (field_bytes l v) = Layout_span l.
Proof.
  destruct l, v; simpl; try done. intros _. apply le_bytes_length.
Qed.

Lemma Structure_decode_spec fields src : forall pre post dest,
  Forall (fun fd => exists v, src !! fd.1 = Some v /\ fits fd.2 v) fields ->
  Structure_decode fields (pre ++ struct_bytes fields src ++ post) (length pre) dest
  = Ok (foldl (fun d fd => match src !! fd.1 with
                           | Some v => <[fd.1 := v]> d
                           | None => d
                           end) dest fields).
Proof.
  induction fields as [|[p l] rest IH]; intros pre post dest Hall; [done|].
  apply Forall_cons in Hall as [(v & Hv & Hfit) Hall].
  simpl in *. rewrite Hv. simpl.
  rewrite <- (assoc_L (++)).
  rewrite Layout_decode_spec by done. simpl.
  rewrite <- (field_bytes_length l v Hfit), <- length_app.
  rewrite (assoc_L (++) pre).
  by rewrite IH.
Qed.

Lemma lookup_decoded fields (src : gmap string Value) :
  forall (dest : gmap string Value) (k : string),
  Forall (fun fd => exists v, src !! fd.1 = Some v /\ fits fd.2 v) fields ->
  foldl (fun d fd => match src !! fd.1 with
                     | Some v => <[fd.1 := v]> d
                     | None => d
                     end) dest fields !! k
  = if decide (k ∈ fields.*1) then src !! k else dest !! k.
Proof.
  induction fields as [|[p l] rest IH]; intros dest k Hall.
  - case_decide as Hk; [by apply elem_of_nil in Hk|done].
  - apply Forall_cons in Hall as [(v & Hv & Hfit) Hall].
    simpl in Hv. cbn [foldl fst]. rewrite Hv. rewrite IH by done.
    change (((p, l) :: rest).*1) with (p :: rest.*1).
    destruct (decide (k ∈ rest.*1)) as [Hin|Hnin].
    + rewrite decide_True; [done|]. apply elem_of_cons. by right.
    + destruct (decide (k = p)) as [->|Hne].
      * rewrite lookup_insert_eq. rewrite decide_True; [done|]. apply elem_of_cons. by left.
      * rewrite lookup_insert_ne by done.
        rewrite decide_False; [done|].
        intros [?|?]%elem_of_cons; done.
Qed.

Lemma decoded_well_typed fields (src : gmap string Value) :
  well_typed fields src ->
  foldl (fun d fd => match src !! fd.1 with
                     | Some v => <[fd.1 := v]> d
                     | None => d
                     end) ∅ fields = src.
Proof.
  intros [Hall Hdom]. apply map_eq. intros k.
  rewrite lookup_decoded by done.
  destruct (decide (k ∈ fields.*1)) as [|Hnin]; [done|].
  rewrite lookup_empty. symmetry. apply eq_None_not_Some. intros Hk. by apply Hnin, Hdom.
Qed.

Ltac each_variant H :=
  repeat (apply elem_of_cons in H as [->|H]); [..|by apply elem_of_nil in H].

Lemma getSourceVariant_singleton vlo (fields : gmap string Value) :
  vlo ∈ LAYOUT -> getSourceVariant LAYOUT {[ property vlo := fields ]} = Ok vlo.
Proof.
  intros H. each_variant H; reflexivity.
Qed.

Lemma find_variant vlo :
  vlo ∈ LAYOUT ->
  List.find (fun v => bool_decide (variant v = variant vlo)) LAYOUT = Some vlo.
Proof.
  intros H. each_variant H; reflexivity.
Qed.

Lemma variant_span_le_max vlo :
  vlo ∈ LAYOUT -> (VariantLayout_span vlo <= instructionMaxSpan)%nat.
Proof.
  intros H. each_variant H; vm_compute; lia.
Qed.

Lemma variant_is_byte vlo : vlo ∈ LAYOUT -> 0 <= variant vlo <= 255.
Proof.
  intros H. each_variant H; simpl; lia.
Qed.

(** What [encodeTokenInstructionData] returns for a variant whose fields can
    all be encoded: the tag byte and the bytes of the fields, nothing more. *)
Lemma encodeTokenInstructionData_spec vlo (fields : gmap string Value) :
  vlo ∈ LAYOUT ->
  Forall (fun fd => exists v, fields !! fd.1 = Some v /\ encodable fd.2 v) (layout vlo) ->
  encodeTokenInstructionData {[ property vlo := fields ]}
  = Ok (variant vlo :: struct_bytes (layout vlo) fields)
  /\ length (struct_bytes (layout vlo) fields) = Structure_span (layout vlo).
Proof.
  intros Hin Hall.
  pose proof (variant_span_le_max vlo Hin) as Hmax.
  pose proof (variant_is_byte vlo Hin) as Hbyte.
  unfold VariantLayout_span in Hmax.
  assert (Halloc : length (Buffer_alloc instructionMaxSpan) = instructionMaxSpan)
    by apply length_replicate.
  unfold encodeTokenInstructionData, Union_encode.
  rewrite getSourceVariant_singleton by done. simpl.
  unfold VariantLayout_encode. rewrite lookup_singleton_eq.
  unfold u8_encode. rewrite decide_True by done. rewrite decide_True by lia. simpl.
  destruct (Structure_encode_spec (layout vlo) fields
              (Buffer_write [variant vlo] (Buffer_alloc instructionMaxSpan) 0) 1 Hall)
    as [-> Hlen].
  { rewrite Buffer_write_length; cbn [length]; lia. }
  split; [|done]. cbn [mbind Result_bind]. f_equal.
  change 1%nat with (0 + length [variant vlo])%nat.
  rewrite Buffer_write_write by (cbn [length]; lia).
  unfold Buffer_write, Buffer_slice, VariantLayout_span.
  rewrite Nat.sub_0_r. cbn [Nat.add]. rewrite drop_0, take_0, app_nil_l.
  by rewrite take_app_length' by (rewrite length_app; cbn [length]; lia).
Qed.

(** C1. Round trip of the instruction codec: for every variant of the
    instruction union and every assignment of its fields with values of the
    declared types (a u64 amount anywhere in [0, 2^64 - 1]),
    [encodeTokenInstructionData] returns bytes that [LAYOUT.decode] turns
    back into the same fields; the bytes start with the variant's tag and
    their number is the tag byte plus the span of the variant's struct, so
    nothing of the rest of the maximum-span buffer is returned. *)
Theorem encode_decode_roundtrip vlo (fields : gmap string Value) :
  vlo ∈ LAYOUT ->
  well_typed (layout vlo) fields ->
  exists bytes,
    encodeTokenInstructionData {[ property vlo := fields ]} = Ok bytes
    /\ Union_decode LAYOUT bytes = Ok {[ property vlo := fields ]}
    /\ bytes !! 0%nat = Some (variant vlo)
    /\ length bytes = (1 + Structure_span (layout vlo))%nat.
Proof.
  intros Hin [Hall Hdom].
  assert (Henc : Forall (fun fd => exists v, fields !! fd.1 = Some v /\ encodable fd.2 v)
                   (layout vlo)).
  { eapply Forall_impl; [exact Hall|]. intros fd (v & Hv & Hfit).
    exists v. split; [done|]. by apply fits_encodable. }
  destruct (encodeTokenInstructionData_spec vlo fields Hin Henc) as [Hbytes Hlen].
  exists (variant vlo :: struct_bytes (layout vlo) fields).
  split; [done|]. split; [|split; [done|simpl; by rewrite Hlen]].
  unfold Union_decode.
  replace (u8_decode (variant vlo :: struct_bytes (layout vlo) fields) 0)
    with (Ok (variant vlo)) by reflexivity.
  cbn [mbind Result_bind]. rewrite find_variant by done.
  pose proof (Structure_decode_spec (layout vlo) fields [variant vlo] [] ∅ Hall) as Hdec.
  rewrite app_nil_r in Hdec. cbn [app length] in Hdec. rewrite Hdec.
  cbn [mbind Result_bind].
  by rewrite decoded_well_typed.
Qed.

Ltac solve_well_typed :=
  split;
  [ repeat (apply Forall_cons; split;
            [eexists; split; [reflexivity | simpl; lia || done]|]);
    apply Forall_nil_2
  | let k := fresh "k" in
    intros k; rewrite <- elem_of_dom;
    repeat rewrite dom_insert_L; try rewrite dom_singleton_L;
    try rewrite dom_empty_L;
    simpl;
    rewrite ?elem_of_union, ?elem_of_singleton, ?elem_of_empty, ?elem_of_cons,
      ?elem_of_nil;
    tauto ].

Ltac solve_variant :=
  unfold LAYOUT; repeat first [apply list_elem_of_here | apply list_elem_of_further].

Lemma encode_decode_roundtrip_witness :
  exists bytes,
    encodeTokenInstructionData
      {[ "transferChecked" :=
           {[ "amount" := Big (2 ^ 64 - 1); "decimals" := Num 255 ]} ]} = Ok bytes
    /\ Union_decode LAYOUT bytes
       = Ok {[ "transferChecked" :=
                 {[ "amount" := Big (2 ^ 64 - 1); "decimals" := Num 255 ]} ]}
    /\ bytes !! 0%nat = Some 12
    /\ length bytes = 10%nat.
Proof.
  apply (encode_decode_roundtrip
           (mkVariant 12 [("amount", u64); ("decimals", u8)] "transferChecked")
           {[ "amount" := Big (2 ^ 64 - 1); "decimals" := Num 255 ]}).
  - solve_variant.
  - solve_well_typed.
Defined.

Example encode_mintTo_zero :
  encodeTokenInstructionData {[ "mintTo" := {[ "amount" := Big 0 ]} ]}
  = Ok [7; 0; 0; 0; 0; 0; 0; 0; 0].
Proof. reflexivity. Qed.

Example encode_burn_max :
  encodeTokenInstructionData {[ "burn" := {[ "amount" := Big (2 ^ 64 - 1) ]} ]}
  = Ok [8; 255; 255; 255; 255; 255; 255; 255; 255].
Proof. reflexivity. Qed.

Example encode_closeAccount :
  encodeTokenInstructionData {[ "closeAccount" := ∅ ]} = Ok [9].
Proof. reflexivity. Qed.

(** ** The instruction builders *)

Ltac each_field :=
  repeat (apply Forall_cons; split;
          [eexists; split; [reflexivity | simpl; try done; try lia]|]);
  try apply Forall_nil_2.

(** Rewrite the payload a builder encodes into the tag and the field bytes. *)
Ltac encode_as vlo :=
  let H := fresh "Henc" in
  edestruct (encodeTokenInstructionData_spec vlo) as [H _];
  [ solve_variant
  |
  | cbn [property variant layout] in H; rewrite H; clear H; reflexivity ];
  each_field.

Lemma toBuffer_length k : length (toBuffer k) = 32%nat.
Proof. unfold toBuffer. rewrite length_reverse. apply le_bytes_length. Qed.

Lemma initializeMint_ok mint decimals mintAuthority freezeAuthority :
  0 <= decimals <= 255 ->
  initializeMint mint decimals mintAuthority freezeAuthority
  = Ok (mkInstruction
          [ mkAccountMeta mint false true;
            mkAccountMeta SYSVAR_RENT_PUBKEY false false ]
          (0 :: decimals :: toBuffer mintAuthority
             ++ Z.b2z (bool_decide (is_Some freezeAuthority))
             :: toBuffer (default PublicKey_default freezeAuthority))
          TOKEN_PROGRAM_ID).
Proof.
  intros Hd. unfold initializeMint.
  encode_as (mkVariant 0
               [("decimals", u8); ("mintAuthority", blob 32);
                ("freezeAuthorityOption", u8); ("freezeAuthority", blob 32)]
               "initializeMint");
    apply toBuffer_length.
Qed.

Lemma initializeAccount_ok account mint owner :
  initializeAccount account mint owner
  = Ok (mkInstruction
          [ mkAccountMeta account false true;
            mkAccountMeta mint false false;
            mkAccountMeta owner false false;
            mkAccountMeta SYSVAR_RENT_PUBKEY false false ]
          [1] TOKEN_PROGRAM_ID).
Proof. reflexivity. Qed.

Lemma transferChecked_ok source mint destination amount decimals owner programId :
  0 <= amount < 2 ^ 64 -> 0 <= decimals <= 255 ->
  transferChecked source mint destination amount decimals owner programId
  = Ok (mkInstruction
          [ mkAccountMeta source false true;
            mkAccountMeta mint false false;
            mkAccountMeta destination false true;
            mkAccountMeta owner true false ]
          (12 :: le_bytes amount 8 ++ [decimals]) programId).
Proof.
  intros Ha Hd. unfold transferChecked.
  encode_as (mkVariant 12 [("amount", u64); ("decimals", u8)] "transferChecked").
Qed.

Lemma mintTo_ok mint destination amount mintAuthority :
  0 <= amount < 2 ^ 64 ->
  mintTo mint destination amount mintAuthority
  = Ok (mkInstruction
          [ mkAccountMeta mint false true;
            mkAccountMeta destination false true;
            mkAccountMeta mintAuthority true false ]
          (7 :: le_bytes amount 8) TOKEN_PROGRAM_ID).
Proof.
  intros Ha. unfold mintTo.
  encode_as (mkVariant 7 [("amount", u64)] "mintTo").
Qed.

Lemma burn_ok account mint amount owner :
  0 <= amount < 2 ^ 64 ->
  burn account mint amount owner
  = Ok (mkInstruction
          [ mkAccountMeta account false true;
            mkAccountMeta mint false true;
            mkAccountMeta owner true false ]
          (8 :: le_bytes amount 8) TOKEN_PROGRAM_ID).
Proof.
  intros Ha. unfold burn.
  encode_as (mkVariant 8 [("amount", u64)] "burn").
Qed.

Lemma closeAccount_ok source destination owner :
  closeAccount source destination owner
  = Ok (mkInstruction
          [ mkAccountMeta source false true;
            mkAccountMeta destination false true;
            mkAccountMeta owner true false ]
          [9] TOKEN_PROGRAM_ID).
Proof. reflexivity. Qed.

Lemma assertOwner_ok account owner :
  assertOwner account owner
  = Ok (mkInstruction [ mkAccountMeta account false false ] (toBuffer owner)
          OWNER_VALIDATION_PROGRAM_ID).
Proof.
  reflexivity.
Qed.

(** C2. Every instruction builder is a function of its arguments alone (it
    takes no connection and makes no call) and returns an instruction whose
    account list is the one of the builder table, in that order and with
    those signer and writable flags: for arguments of the declared types
    (decimals a byte, amounts unsigned 64-bit), [initializeMint] lists
    mint (writable) and the rent sysvar; [initializeAccount] account
    (writable), mint, owner and the rent sysvar; [mintTo] mint (writable),
    destination (writable), mint authority (signer); [burn] account
    (writable), mint (writable), owner (signer); [closeAccount] source
    (writable), destination (writable), owner (signer); [transferChecked]
    source (writable), mint, destination (writable), owner (signer);
    [memoInstruction] no account; [assertOwner] the account, read-only. *)
Theorem builders_account_lists :
  (forall mint decimals mintAuthority freezeAuthority,
     0 <= decimals <= 255 ->
     keys <$> initializeMint mint decimals mintAuthority freezeAuthority
     = Ok [ mkAccountMeta mint false true;
            mkAccountMeta SYSVAR_RENT_PUBKEY false false ])
  /\ (forall account mint owner,
        keys <$> initializeAccount account mint owner
        = Ok [ mkAccountMeta account false true;
               mkAccountMeta mint false false;
               mkAccountMeta owner false false;
               mkAccountMeta SYSVAR_RENT_PUBKEY false false ])
  /\ (forall mint destination amount mintAuthority,
        0 <= amount < 2 ^ 64 ->
        keys <$> mintTo mint destination amount mintAuthority
        = Ok [ mkAccountMeta mint false true;
               mkAccountMeta destination false true;
               mkAccountMeta mintAuthority true false ])
  /\ (forall account mint amount owner,
        0 <= amount < 2 ^ 64 ->
        keys <$> burn account mint amount owner
        = Ok [ mkAccountMeta account false true;
               mkAccountMeta mint false true;
               mkAccountMeta owner true false ])
  /\ (forall source destination owner,
        keys <$> closeAccount source destination owner
        = Ok [ mkAccountMeta source false true;
               mkAccountMeta destination false true;
               mkAccountMeta owner true false ])
  /\ (forall source mint destination amount decimals owner programId,
        0 <= amount < 2 ^ 64 -> 0 <= decimals <= 255 ->
        keys <$> transferChecked source mint destination amount decimals owner programId
        = Ok [ mkAccountMeta source false true;
               mkAccountMeta mint false false;
               mkAccountMeta destination false true;
               mkAccountMeta owner true false ])
  /\ (forall memo, keys (memoInstruction memo) = [])
  /\ (forall account owner,
        keys <$> assertOwner account owner
        = Ok [ mkAccountMeta account false false ]).
Proof.
  repeat apply conj; intros.
  - by rewrite initializeMint_ok.
  - by rewrite initializeAccount_ok.
  - by rewrite mintTo_ok.
  - by rewrite burn_ok.
  - by rewrite closeAccount_ok.
  - by rewrite transferChecked_ok.
  - done.
  - by rewrite assertOwner_ok.
Qed.

Lemma builders_account_lists_witness :
  keys <$> transferChecked TOKEN_PROGRAM_ID WRAPPED_DOMI_MINT MEMO_PROGRAM_ID
             (2 ^ 64 - 1) 9 SYSVAR_RENT_PUBKEY TOKEN_PROGRAM_ID
  = Ok [ mkAccountMeta TOKEN_PROGRAM_ID false true;
         mkAccountMeta WRAPPED_DOMI_MINT false false;
         mkAccountMeta MEMO_PROGRAM_ID false true;
         mkAccountMeta SYSVAR_RENT_PUBKEY true false ]
  /\ keys <$> burn TOKEN_PROGRAM_ID WRAPPED_DOMI_MINT 0 MEMO_PROGRAM_ID
     = Ok [ mkAccountMeta TOKEN_PROGRAM_ID false true;
            mkAccountMeta WRAPPED_DOMI_MINT false true;
            mkAccountMeta MEMO_PROGRAM_ID true false ]
  /\ keys <$> mintTo TOKEN_PROGRAM_ID WRAPPED_DOMI_MINT 1 MEMO_PROGRAM_ID
     = Ok [ mkAccountMeta TOKEN_PROGRAM_ID false true;
            mkAccountMeta WRAPPED_DOMI_MINT false true;
            mkAccountMeta MEMO_PROGRAM_ID true false ]
  /\ keys <$> initializeMint WRAPPED_DOMI_MINT 255 MEMO_PROGRAM_ID None
     = Ok [ mkAccountMeta WRAPPED_DOMI_MINT false true;
            mkAccountMeta SYSVAR_RENT_PUBKEY false false ].
Proof.
  destruct builders_account_lists as (Hmint & _ & HmintTo & Hburn & _ & Htransfer & _).
  split; [apply Htransfer; lia|].
  split; [apply Hburn; lia|].
  split; [apply HmintTo; lia|].
  apply Hmint; lia.
Defined.

(** ** Running async functions *)

Section RunLemmas.

Context {W : Type} (handle : forall c : Call, W -> Settled (Reply c) * W).

Lemma run_lift {A} (r : Result A) (w : W) : run handle (lift r) w = (r, w, []).
Proof. by destruct r. Qed.

Lemma run_await_bind {A} (c : Call) (f : Reply c -> Prog A) (w : W) :
  run handle (await c ≫= f) w
  = match handle c w with
    | (Fulfilled v, w1) => after c (run handle (f v) w1)
    | (Rejected detail, w1) => (Err (ExternalError detail), w1, [c])
    end.
Proof.
  unfold await, after. cbn [mbind Prog_mbind Prog_bind run].
  destruct (handle c w) as [[v|detail] w1]; cbn [Prog_bind run]; [|done].
  by destruct (run handle (f v) w1) as [[res w2] calls].
Qed.

Lemma run_await_bind_bind {A B} (c : Call) (g : Reply c -> Prog A)
    (f : A -> Prog B) (w : W) :
  run handle ((await c ≫= g) ≫= f) w
  = match handle c w with
    | (Fulfilled v, w1) => after c (run handle (g v ≫= f) w1)
    | (Rejected detail, w1) => (Err (ExternalError detail), w1, [c])
    end.
Proof.
  unfold await, after. cbn [mbind Prog_mbind Prog_bind run].
  destruct (handle c w) as [[v|detail] w1]; cbn [Prog_bind run]; [|done].
  unfold mbind, Prog_mbind.
  by destruct (run handle (Prog_bind f (g v)) w1) as [[res w2] calls].
Qed.

Lemma run_await (c : Call) (w : W) :
  run handle (await c) w
  = match handle c w with
    | (Fulfilled v, w1) => (Ok v, w1, [c])
    | (Rejected detail, w1) => (Err (ExternalError detail), w1, [c])
    end.
Proof.
  unfold await. cbn [run].
  by destruct (handle c w) as [[v|detail] w1].
Qed.

Lemma run_bind {A B} (p : Prog A) (f : A -> Prog B) (w : W) :
  run handle (p ≫= f) w
  = match run handle p w with
    | (Ok a, w1, calls) =>
        let '(res, w2, calls') := run handle (f a) w1 in (res, w2, calls ++ calls')
    | (Err e, w1, calls) => (Err e, w1, calls)
    end.
Proof.
  unfold mbind, Prog_mbind.
  revert w. induction p as [a|e|c k IH]; intros w; cbn [Prog_bind run].
  - by destruct (run handle (f a) w) as [[res w2] calls'].
  - done.
  - destruct (handle c w) as [r w1]. rewrite IH.
    destruct (run handle (k r) w1) as [[[a|e] w2] calls]; [|done].
    by destruct (run handle (f a) w2) as [[res w3] calls'].
Qed.

Lemma run_lift_bind {A B} (r : Result A) (f : A -> Prog B) (w : W) :
  run handle (lift r ≫= f) w
  = match r with
    | Ok a => run handle (f a) w
    | Err e => (Err e, w, [])
    end.
Proof. by destruct r. Qed.

Lemma run_sleep {A} (ms : Z) (next : Prog A) (w : W) :
  run handle (sleep ms next) w
  = after (setTimeout ms) (run handle next (handle (setTimeout ms) w).2).
Proof.
  unfold sleep, after. cbn [run].
  destruct (handle (setTimeout ms) w) as [r w1]. cbn [snd].
  by destruct (run handle next w1) as [[res w2] calls].
Qed.

End RunLemmas.

(** ** Mint creation *)

Section MintCreation.

Context {data_js : DataJs} {W : Type}.
Variable handle : forall c : Call, W -> Settled (Reply c) * W.

(** C3. The create-and-initialize-mint composer, once the rent query for
    the mint is answered: with amount 0 it hands to the submission step a
    transaction of exactly two instructions, createAccount(mint) then
    initializeMint, and the mint key as the only signer besides the
    wallet; with an amount above 0 (and a second rent query answered) it
    hands over exactly five instructions, createAccount(mint),
    initializeMint, createAccount(initialAccount), initializeAccount,
    mintTo, in that order, with the mint key and the initial account key
    as signers. *)
Theorem createAndInitializeMint_composition
    (owner : Wallet) (mint : Keypair) (amount decimals : Z)
    (initialAccount : Keypair) (lamports : Z) (w w1 : W) :
  0 <= decimals <= 255 ->
  handle (getMinimumBalanceForRentExemption MINT_LAYOUT_span) w
    = (Fulfilled lamports, w1) ->
  exists createMint initMint,
    createMint = SystemProgram_createAccount (wallet_publicKey owner)
                   (publicKey mint) lamports MINT_LAYOUT_span TOKEN_PROGRAM_ID
    /\ initializeMint (publicKey mint) decimals (wallet_publicKey owner) None
       = Ok initMint
    /\ (amount = 0 ->
        run handle (createAndInitializeMint owner mint amount decimals initialAccount) w
        = after (getMinimumBalanceForRentExemption MINT_LAYOUT_span)
            (run handle
               (signAndSendTransaction
                  (mkTransaction [createMint; initMint] None None [])
                  owner [mint] false) w1))
    /\ (0 < amount < 2 ^ 64 ->
        forall lamports' w2,
          handle (getMinimumBalanceForRentExemption ACCOUNT_LAYOUT_span) w1
            = (Fulfilled lamports', w2) ->
          exists createAccount initAccount mintTokens,
            createAccount
            = SystemProgram_createAccount (wallet_publicKey owner)
                (publicKey initialAccount) lamports' ACCOUNT_LAYOUT_span
                TOKEN_PROGRAM_ID
            /\ initializeAccount (publicKey initialAccount) (publicKey mint)
                 (wallet_publicKey owner) = Ok initAccount
            /\ mintTo (publicKey mint) (publicKey initialAccount) amount
                 (wallet_publicKey owner) = Ok mintTokens
            /\ run handle
                 (createAndInitializeMint owner mint amount decimals initialAccount) w
               = after (getMinimumBalanceForRentExemption MINT_LAYOUT_span)
                   (after (getMinimumBalanceForRentExemption ACCOUNT_LAYOUT_span)
                      (run handle
                         (signAndSendTransaction
                            (mkTransaction
                               [createMint; initMint; createAccount; initAccount;
                                mintTokens]
                               None None [])
                            owner [mint; initialAccount] false) w2))).
Proof.
  intros Hd Hrent.
  eexists _, _. split; [reflexivity|].
  split; [by apply initializeMint_ok|].
  split.
  - intros ->. unfold createAndInitializeMint. cbv zeta.
    rewrite (run_await_bind handle (getMinimumBalanceForRentExemption MINT_LAYOUT_span)), Hrent.
    f_equal.
    rewrite initializeMint_ok by done.
    cbn [lift mbind Prog_mbind Prog_bind].
    case_decide; [lia|]. reflexivity.
  - intros Ha lamports' w2 Hrent'.
    eexists _, _, _. split; [reflexivity|].
    split; [by apply initializeAccount_ok|].
    split; [apply mintTo_ok; lia|].
    unfold createAndInitializeMint. cbv zeta.
    rewrite (run_await_bind handle (getMinimumBalanceForRentExemption MINT_LAYOUT_span)), Hrent.
    f_equal.
    rewrite initializeMint_ok by done.
    cbn [lift mbind Prog_mbind Prog_bind].
    case_decide; [|lia].
    rewrite (run_await_bind_bind handle
               (getMinimumBalanceForRentExemption ACCOUNT_LAYOUT_span)), Hrent'.
    f_equal.
    rewrite mintTo_ok by lia. reflexivity.
Qed.

End MintCreation.


Lemma createAndInitializeMint_composition_witness :
  (exists initMint,
      initializeMint (publicKey test_mint) 9 (wallet_publicKey test_owner) None
      = Ok initMint
      /\ run mock_handle
           (createAndInitializeMint (data_js := data_js_layout)
              test_owner test_mint 0 9 test_account) test_world
         = after (getMinimumBalanceForRentExemption 82)
             (run mock_handle
                (signAndSendTransaction
                   (mkTransaction
                      [ SystemProgram_createAccount (wallet_publicKey test_owner)
                          (publicKey test_mint) 820 82 TOKEN_PROGRAM_ID;
                        initMint ] None None [])
                   test_owner [test_mint] false) test_world))
  /\ (exists initMint initAccount mintTokens,
        run mock_handle
          (createAndInitializeMint (data_js := data_js_layout)
             test_owner test_mint 5 9 test_account) test_world
        = after (getMinimumBalanceForRentExemption 82)
            (after (getMinimumBalanceForRentExemption 165)
               (run mock_handle
                  (signAndSendTransaction
                     (mkTransaction
                        [ SystemProgram_createAccount (wallet_publicKey test_owner)
                            (publicKey test_mint) 820 82 TOKEN_PROGRAM_ID;
                          initMint;
                          SystemProgram_createAccount (wallet_publicKey test_owner)
                            (publicKey test_account) 1650 165 TOKEN_PROGRAM_ID;
                          initAccount;
                          mintTokens ] None None [])
                     test_owner [test_mint; test_account] false) test_world))).
Proof.
  split.
  - destruct (createAndInitializeMint_composition (data_js := data_js_layout)
                mock_handle test_owner test_mint 0 9 test_account 820
                test_world test_world)
      as (createMint & initMint & -> & Hinit & Hzero & _);
      [lia | reflexivity |].
    exists initMint. split; [exact Hinit|]. by apply Hzero.
  - destruct (createAndInitializeMint_composition (data_js := data_js_layout)
                mock_handle test_owner test_mint 5 9 test_account 820
                test_world test_world)
      as (createMint & initMint & -> & _ & _ & Hpos);
      [lia | reflexivity |].
    destruct (Hpos ltac:(lia) 1650 test_world eq_refl)
      as (createAccount & initAccount & mintTokens & -> & _ & _ & Hrun).
    by exists initMint, initAccount, mintTokens.
Defined.

Example createAndInitializeMint_mock_run :
  let r := run mock_handle
             (createAndInitializeMint (data_js := data_js_layout)
                test_owner test_mint 1000000000000 9 test_account) test_world in
  r.1.1 = Ok "mock_tx"
  /\ map (fun sent => length (instructions (carried sent.2))) (transactions r.1.2) = [5%nat]
  /\ length r.2 = 5%nat.
Proof. vm_compute. done. Qed.

(** ** Transfer routing *)

Lemma Transaction_add_unsigned tx items :
  unsigned tx -> unsigned (Transaction_add tx items).
Proof.
  unfold Transaction_add. revert tx.
  induction items as [|item items IH]; intros tx Htx; [done|].
  cbn [foldl]. apply IH. by destruct item.
Qed.

Lemma createTransfer_unsigned ownerPublicKey mint decimals source destination
    amount memo programId tx :
  createTransferBetweenSplTokenAccountsInstruction ownerPublicKey mint decimals
    source destination amount memo programId = Ok tx ->
  unsigned tx.
Proof.
  unfold createTransferBetweenSplTokenAccountsInstruction.
  destruct (transferChecked _ _ _ _ _ _ _) as [ix|e]; [|done].
  cbn [mbind Result_bind]. intros [= <-].
  destruct (truthy memo); repeat apply Transaction_add_unsigned; done.
Qed.

(** [createAndTransferToAccount] awaits nothing: it is a synchronous
    computation. *)
Lemma createAndTransferToAccount_lift owner source destination amount memo mint
    decimals programId :
  createAndTransferToAccount owner source destination amount memo mint decimals
    programId
  = lift ('(createAccountInstruction, newAddress) ←
            createAssociatedTokenAccountIx (wallet_publicKey owner) destination
              mint programId;
          transfer ←
            createTransferBetweenSplTokenAccountsInstruction
              (wallet_publicKey owner) mint decimals source newAddress amount
              memo programId;
          Ok (Transaction_add Transaction_new
                [ an_instruction createAccountInstruction;
                  a_transaction transfer ])).
Proof.
  unfold createAndTransferToAccount.
  destruct (createAssociatedTokenAccountIx _ _ _ _) as [[ix address]|e]; [|done].
  cbn [lift mbind Prog_mbind Prog_bind Result_bind].
  by destruct (createTransferBetweenSplTokenAccountsInstruction _ _ _ _ _ _ _ _).
Qed.

Section TransferRouting.

Context {W : Type}.
Variable handle : forall c : Call, W -> Settled (Reply c) * W.

(** The routing of [transferTokens], call by call. *)
Lemma transferTokens_run owner source destination amount memo mint decimals
    overrideDestinationCheck programId (w : W) :
  let pid := default TOKEN_PROGRAM_ID programId in
  run handle
    (transferTokens owner source destination amount memo mint decimals
       overrideDestinationCheck programId) w
  = match handle (getAccountInfo destination) w with
    | (Rejected detail, w1) =>
        (Err (ExternalError detail), w1, [getAccountInfo destination])
    | (Fulfilled info, w1) =>
        if owned_by info pid then
          (createTransferBetweenSplTokenAccountsInstruction
             (wallet_publicKey owner) mint decimals source destination amount
             memo pid,
           w1, [getAccountInfo destination])
        else if unfunded info && negb overrideDestinationCheck then
          (Err (Error "Cannot send to address with zero DOMI balances"),
           w1, [getAccountInfo destination])
        else
          match findAssociatedTokenAddress destination mint pid with
          | Err e => (Err e, w1, [getAccountInfo destination])
          | Ok associated =>
              match handle (getAccountInfo associated) w1 with
              | (Rejected detail, w2) =>
                  (Err (ExternalError detail), w2,
                   [getAccountInfo destination; getAccountInfo associated])
              | (Fulfilled info2, w2) =>
                  (if owned_by info2 pid then
                     createTransferBetweenSplTokenAccountsInstruction
                       (wallet_publicKey owner) mint decimals source associated
                       amount memo pid
                   else
                     '(createAccountInstruction, newAddress) ←
                       createAssociatedTokenAccountIx (wallet_publicKey owner)
                         destination mint pid;
                     transfer ←
                       createTransferBetweenSplTokenAccountsInstruction
                         (wallet_publicKey owner) mint decimals source
                         newAddress amount memo pid;
                     Ok (Transaction_add Transaction_new
                           [ an_instruction createAccountInstruction;
                             a_transaction transfer ]),
                   w2,
                   [getAccountInfo destination; getAccountInfo associated])
              end
          end
    end.
Proof.
  intros pid. unfold transferTokens. cbv zeta. fold pid.
  rewrite (run_await_bind handle (getAccountInfo destination)).
  destruct (handle (getAccountInfo destination) w) as [[info|detail] w1]; [|done].
  unfold after.
  destruct (owned_by info pid).
  { unfold transferBetweenSplTokenAccounts. by rewrite run_lift. }
  destruct (unfunded info && negb overrideDestinationCheck); [done|].
  destruct (findAssociatedTokenAddress destination mint pid) as [associated|e];
    [|done].
  cbn [lift mbind Prog_mbind Prog_bind].
  change (Prog_bind ?f (await ?c)) with (await c ≫= f).
  rewrite (run_await_bind handle (getAccountInfo associated)).
  destruct (handle (getAccountInfo associated) w1) as [[info2|detail] w2]; [|done].
  unfold after.
  destruct (owned_by info2 pid).
  { unfold transferBetweenSplTokenAccounts. by rewrite run_lift. }
  rewrite createAndTransferToAccount_lift. by rewrite run_lift.
Qed.

End TransferRouting.

(** C4 (amended). When the destination has no ledger account, or has an
    account that is not owned by the token program and holds zero lamports,
    and the override flag is unset, [transferTokens] throws the
    destination-unfunded error ('Cannot send to address with zero DOMI
    balances') right after the destination query: that query is the only
    call made, and no transaction is returned. *)
Theorem transferTokens_destination_unfunded {W : Type}
    (handle : forall c : Call, W -> Settled (Reply c) * W)
    owner source destination amount memo mint decimals programId
    (info : option AccountInfo) (w w1 : W) :
  handle (getAccountInfo destination) w = (Fulfilled info, w1) ->
  (info = None
   \/ exists account,
        info = Some account
        /\ lamports_of account = 0
        /\ equals (owner_of account) (default TOKEN_PROGRAM_ID programId) = false) ->
  run handle
    (transferTokens owner source destination amount memo mint decimals false
       programId) w
  = (Err (Error "Cannot send to address with zero DOMI balances"), w1,
     [getAccountInfo destination]).
Proof.
  intros Hquery Hinfo. rewrite transferTokens_run, Hquery.
  destruct Hinfo as [->|(account & -> & Hzero & Hother)]; [done|].
  cbn [owned_by unfunded]. rewrite Hother.
  by rewrite bool_decide_eq_true_2.
Qed.

Lemma transferTokens_destination_unfunded_witness :
  run mock_handle
    (transferTokens test_owner (publicKey test_account) test_recipient 1 None
       (publicKey test_mint) 9 false None) test_world
  = (Err (Error "Cannot send to address with zero DOMI balances"), test_world,
     [getAccountInfo test_recipient]).
Proof.
  apply (transferTokens_destination_unfunded mock_handle _ _ _ _ _ _ _ _ None).
  - reflexivity.
  - by left.
Defined.

(** A destination that holds zero lamports but is owned by the token program
    is not rejected: the ownership test comes first, and the transfer is
    composed. *)
Lemma transferTokens_unfunded_token_account_accepted :
  let info := mkAccountInfo [] false TOKEN_PROGRAM_ID 0 in
  let world := mkMock {[ test_recipient := info ]} ∅ [] [test_owner_keypair] in
  accounts world !! test_recipient = Some info
  /\ lamports_of info = 0
  /\ exists tx,
       run mock_handle
         (transferTokens test_owner (publicKey test_account) test_recipient 1 None
            (publicKey test_mint) 9 false None) world
       = (Ok tx, world, [getAccountInfo test_recipient])
       /\ length (instructions tx) = 1%nat.
Proof.
  cbv zeta. split; [reflexivity|]. split; [reflexivity|].
  eexists. split; [vm_compute; reflexivity|reflexivity].
Qed.

(** C5 (amended). When the destination exists, is not owned by the token
    program, is funded or the override flag is set, and its associated
    address holds no account owned by the token program, [transferTokens]
    returns one transaction whose instructions are the
    create-associated-account instruction, then [transferChecked] to the
    derived associated address, then a memo instruction exactly when a
    non-empty memo was supplied: two instructions without a memo. *)
Theorem transferTokens_creates_associated_account {W : Type}
    (handle : forall c : Call, W -> Settled (Reply c) * W)
    owner source destination amount memo mint decimals
    overrideDestinationCheck programId
    (account : AccountInfo) (associated : PublicKey)
    (info2 : option AccountInfo) (w w1 w2 : W) :
  let pid := default TOKEN_PROGRAM_ID programId in
  0 <= amount < 2 ^ 64 -> 0 <= decimals <= 255 ->
  handle (getAccountInfo destination) w = (Fulfilled (Some account), w1) ->
  equals (owner_of account) pid = false ->
  (lamports_of account <> 0 \/ overrideDestinationCheck = true) ->
  findAssociatedTokenAddress destination mint pid = Ok associated ->
  handle (getAccountInfo associated) w1 = (Fulfilled info2, w2) ->
  owned_by info2 pid = false ->
  exists create transfer,
    createAssociatedTokenAccountIx (wallet_publicKey owner) destination mint pid
    = Ok (create, associated)
    /\ transferChecked source mint associated amount decimals
         (wallet_publicKey owner) pid = Ok transfer
    /\ run handle
         (transferTokens owner source destination amount memo mint decimals
            overrideDestinationCheck programId) w
       = (Ok (mkTransaction
                ([create; transfer]
                   ++ (if truthy memo then [memoInstruction (default "" memo)]
                       else []))
                None None []),
          w2, [getAccountInfo destination; getAccountInfo associated]).
Proof.
  intros pid Ha Hd Hquery Hother Hfunded Hderive Hquery2 Hother2.
  eexists _, _.
  split; [unfold createAssociatedTokenAccountIx; rewrite Hderive; reflexivity|].
  split; [by apply transferChecked_ok|].
  rewrite transferTokens_run. fold pid. rewrite Hquery.
  cbn [owned_by unfunded]. rewrite Hother.
  replace (bool_decide (lamports_of account = 0) && negb overrideDestinationCheck)
    with false.
  2: { destruct Hfunded as [Hne| ->].
       - by rewrite bool_decide_eq_false_2.
       - by rewrite andb_false_r. }
  rewrite Hderive, Hquery2, Hother2.
  unfold createAssociatedTokenAccountIx. rewrite Hderive.
  cbn [mbind Result_bind].
  unfold createTransferBetweenSplTokenAccountsInstruction.
  rewrite transferChecked_ok by done.
  cbn [mbind Result_bind].
  by destruct (truthy memo).
Qed.

Lemma transferTokens_creates_associated_account_witness :
  exists create transfer,
    createAssociatedTokenAccountIx (wallet_publicKey test_owner) test_recipient
      (publicKey test_mint) (default TOKEN_PROGRAM_ID None)
    = Ok (create, test_associated)
    /\ transferChecked (publicKey test_account) (publicKey test_mint) test_associated
         (2 ^ 64 - 1) 9 (wallet_publicKey test_owner) (default TOKEN_PROGRAM_ID None)
       = Ok transfer
    /\ run mock_handle
         (transferTokens test_owner (publicKey test_account) test_recipient
            (2 ^ 64 - 1) None (publicKey test_mint) 9 false None) test_world_funded
       = (Ok (mkTransaction
                ([create; transfer]
                   ++ (if truthy None then [memoInstruction (default "" None)]
                       else []))
                None None []),
          test_world_funded,
          [getAccountInfo test_recipient; getAccountInfo test_associated]).
Proof.
  apply (transferTokens_creates_associated_account mock_handle
           test_owner (publicKey test_account) test_recipient (2 ^ 64 - 1) None
           (publicKey test_mint) 9 false None
           (mkAccountInfo [] false SystemProgram_programId 1000000)
           test_associated None test_world_funded test_world_funded
           test_world_funded).
  - lia.
  - lia.
  - vm_compute; reflexivity.
  - vm_compute; reflexivity.
  - left; vm_compute; discriminate.
  - vm_compute; reflexivity.
  - vm_compute; reflexivity.
  - vm_compute; reflexivity.
Defined.

(** With a memo the transaction of the create-and-transfer path carries
    three instructions, the memo last. *)
Lemma transferTokens_with_memo_three_instructions :
  exists info tx,
    accounts test_world_funded !! test_recipient = Some info
    /\ findAssociatedTokenAddress test_recipient (publicKey test_mint)
         TOKEN_PROGRAM_ID = Ok test_associated
    /\ accounts test_world_funded !! test_associated = None
    /\ run mock_handle
         (transferTokens test_owner (publicKey test_account) test_recipient 1
            (Some "hi") (publicKey test_mint) 9 false None) test_world_funded
       = (Ok tx, test_world_funded,
          [getAccountInfo test_recipient; getAccountInfo test_associated])
    /\ length (instructions tx) = 3%nat
    /\ instructions tx !! 2%nat = Some (memoInstruction "hi").
Proof.
  eexists _, _.
  split; [vm_compute; reflexivity|].
  split; [vm_compute; reflexivity|].
  split; [vm_compute; reflexivity|].
  split; [vm_compute; reflexivity|].
  split; vm_compute; reflexivity.
Qed.

(** C7. Whatever the environment answers, [transferTokens] only queries
    accounts, at most twice: it fetches no blockhash, asks nobody to sign and
    sends nothing.  What it returns is the composed transaction itself, with
    no blockhash, fee payer or signature on it; and if account queries leave
    the environment as it was, so does the whole call. *)
Theorem transferTokens_does_not_submit {W : Type}
    (handle : forall c : Call, W -> Settled (Reply c) * W)
    owner source destination amount memo mint decimals
    overrideDestinationCheck programId (w : W) :
  let r := run handle
             (transferTokens owner source destination amount memo mint decimals
                overrideDestinationCheck programId) w in
  (length r.2 <= 2)%nat
  /\ Forall (fun c => exists address, c = getAccountInfo address) r.2
  /\ (forall tx, r.1.1 = Ok tx -> unsigned tx)
  /\ ((forall address w0, (handle (getAccountInfo address) w0).2 = w0) ->
      r.1.2 = w).
Proof.
  cbv zeta. rewrite transferTokens_run.
  set (pid := default TOKEN_PROGRAM_ID programId).
  assert (Hlist1 : Forall (fun c => exists address, c = getAccountInfo address)
                     [getAccountInfo destination]).
  { repeat constructor. by eexists. }
  destruct (handle (getAccountInfo destination) w) as [[info|detail] w1] eqn:Hq1.
  2: { cbn. split; [lia|]. split; [done|]. split; [done|].
       intros Hro. specialize (Hro destination w). by rewrite Hq1 in Hro. }
  assert (Hw1 : (forall address w0, (handle (getAccountInfo address) w0).2 = w0) ->
                w1 = w).
  { intros Hro. specialize (Hro destination w). by rewrite Hq1 in Hro. }
  destruct (owned_by info pid).
  { cbn. split; [lia|]. split; [done|]. split; [|done].
    intros tx Htx. by eapply createTransfer_unsigned. }
  destruct (unfunded info && negb overrideDestinationCheck).
  { cbn. split; [lia|]. split; [done|]. split; done. }
  destruct (findAssociatedTokenAddress destination mint pid) as [associated|e].
  2: { cbn. split; [lia|]. split; [done|]. split; done. }
  assert (Hlist2 : Forall (fun c => exists address, c = getAccountInfo address)
                     [getAccountInfo destination; getAccountInfo associated]).
  { repeat constructor; by eexists. }
  destruct (handle (getAccountInfo associated) w1) as [[info2|detail] w2] eqn:Hq2.
  2: { cbn. split; [lia|]. split; [done|]. split; [done|].
       intros Hro. rewrite <- (Hw1 Hro).
       specialize (Hro associated w1). by rewrite Hq2 in Hro. }
  cbn [fst snd length].
  split; [lia|]. split; [done|]. split.
  - intros tx. destruct (owned_by info2 pid).
    { intros Htx. by eapply createTransfer_unsigned. }
    destruct (createAssociatedTokenAccountIx _ _ _ _) as [[ix address]|e]; [|done].
    cbn [mbind Result_bind].
    destruct (createTransferBetweenSplTokenAccountsInstruction _ _ _ _ _ _ _ _)
      as [transfer|e]; [|done].
    cbn [mbind Result_bind]. intros [= <-]. done.
  - intros Hro. rewrite <- (Hw1 Hro).
    specialize (Hro associated w1). by rewrite Hq2 in Hro.
Qed.

Lemma transferTokens_does_not_submit_witness :
  (run mock_handle
     (transferTokens test_owner (publicKey test_account) test_recipient 1
        (Some "hi") (publicKey test_mint) 9 false None) test_world_funded).1.2
  = test_world_funded.
Proof.
  apply (transferTokens_does_not_submit mock_handle).
  intros address w0. reflexivity.
Defined.

(** ** Burning *)

(** C6. [burnAllTokens], once the account query is answered: a missing
    account fails with 'Token account not found'; an account whose decoded
    balance is 0 fails with 'Token account has zero balance'; in both cases
    the query is the only call made and nothing is built.  Otherwise the
    operation continues as [burnTokensAndClose] with the decoded balance as
    the amount and the caller's close flag. *)
Theorem burnAllTokens_guards {data_js : DataJs} {W : Type}
    (handle : forall c : Call, W -> Settled (Reply c) * W)
    owner tokenAccount mint shouldClose (info : option AccountInfo) (w w1 : W) :
  handle (getAccountInfo tokenAccount) w = (Fulfilled info, w1) ->
  (info = None ->
   run handle (burnAllTokens owner tokenAccount mint shouldClose) w
   = (Err (Error "Token account not found"), w1, [getAccountInfo tokenAccount]))
  /\ (forall account tokenData,
        info = Some account ->
        parseTokenAccountData (account_data account) = Ok tokenData ->
        (state_amount tokenData = 0 ->
         run handle (burnAllTokens owner tokenAccount mint shouldClose) w
         = (Err (Error "Token account has zero balance"), w1,
            [getAccountInfo tokenAccount]))
        /\ (state_amount tokenData <> 0 ->
            run handle (burnAllTokens owner tokenAccount mint shouldClose) w
            = after (getAccountInfo tokenAccount)
                (run handle
                   (burnTokensAndClose owner tokenAccount mint
                      (state_amount tokenData) shouldClose) w1))).
Proof.
  intros Hquery.
  assert (Hrun : run handle (burnAllTokens owner tokenAccount mint shouldClose) w
                 = after (getAccountInfo tokenAccount)
                     (run handle
                        (match info with
                         | None => Throw (Error "Token account not found")
                         | Some accountInfo =>
                             tokenData ← lift (parseTokenAccountData
                                                 (account_data accountInfo));
                             if decide (state_amount tokenData = 0)
                             then Throw (Error "Token account has zero balance")
                             else burnTokensAndClose owner tokenAccount mint
                                    (state_amount tokenData) shouldClose
                         end) w1)).
  { unfold burnAllTokens.
    by rewrite (run_await_bind handle (getAccountInfo tokenAccount)), Hquery. }
  rewrite Hrun. split.
  - by intros ->.
  - intros account tokenData -> Hparse. rewrite Hparse.
    cbn [lift mbind Prog_mbind Prog_bind].
    split; intros Hamount; case_decide; done.
Qed.

Lemma burnAllTokens_guards_witness :
  run mock_handle
    (burnAllTokens (data_js := data_js_layout) test_owner (publicKey test_account)
       (publicKey test_mint) true) test_world
  = (Err (Error "Token account not found"), test_world,
     [getAccountInfo (publicKey test_account)])
  /\ run mock_handle
       (burnAllTokens (data_js := data_js_layout) test_owner
          (publicKey test_account) (publicKey test_mint) true)
       test_world_empty_balance
     = (Err (Error "Token account has zero balance"), test_world_empty_balance,
        [getAccountInfo (publicKey test_account)])
  /\ run mock_handle
       (burnAllTokens (data_js := data_js_layout) test_owner
          (publicKey test_account) (publicKey test_mint) true) test_world_balance
     = after (getAccountInfo (publicKey test_account))
         (run mock_handle
            (burnTokensAndClose test_owner (publicKey test_account)
               (publicKey test_mint) 5 true) test_world_balance).
Proof.
  split; [|split].
  - by apply (burnAllTokens_guards (data_js := data_js_layout) mock_handle
                _ _ _ _ None test_world test_world).
  - eapply (burnAllTokens_guards (data_js := data_js_layout) mock_handle
              _ _ _ _ _ test_world_empty_balance test_world_empty_balance);
      reflexivity.
  - eapply (proj2 (proj2 (burnAllTokens_guards (data_js := data_js_layout)
                            mock_handle test_owner (publicKey test_account)
                            (publicKey test_mint) true _
                            test_world_balance test_world_balance eq_refl)
                     _ (mkTokenAccountState PublicKey_default PublicKey_default 5)
                     eq_refl eq_refl)).
    cbn. lia.
Defined.

(** ** The import that is missing from mint.js *)

Lemma Keypair_not_in_scope : "Keypair" ∉ mint_js_scope.
Proof.
  unfold mint_js_scope. intros H.
  repeat (apply elem_of_cons in H as [H|H]; [discriminate H|]).
  by apply elem_of_nil in H.
Qed.

(** C10. [mintMoreTokensWithNewAccount] fails on every input and in every
    environment with the reference error for [Keypair], which mint.js never
    imports: no call is made, nothing is composed, the environment is left
    as it was. *)
Theorem mintMoreTokensWithNewAccount_always_fails {data_js : DataJs} {W : Type}
    (handle : forall c : Call, W -> Settled (Reply c) * W)
    mintAuthority mint destinationOwner amount (w : W) :
  run handle (mintMoreTokensWithNewAccount mintAuthority mint destinationOwner amount) w
  = (Err (ReferenceError "Keypair is not defined"), w, []).
Proof.
  unfold mintMoreTokensWithNewAccount, identifier.
  rewrite decide_False by apply Keypair_not_in_scope.
  reflexivity.
Qed.

(** ** Address derivation *)

(** The folding reduction of the field arithmetic is the residue modulo the
    prime. *)
Lemma Ed25519_fold19 x :
  0 <= x ->
  Ed25519.fold19 x = x - (x `div` 2 ^ 255) * Ed25519.P
  /\ 0 <= Ed25519.fold19 x.
Proof.
  intros Hx. unfold Ed25519.fold19, Ed25519.P.
  rewrite Z.land_ones, Z.shiftr_div_pow2 by lia.
  pose proof (Z.div_mod x (2 ^ 255) ltac:(lia)) as Hdm.
  pose proof (Z.mod_pos_bound x (2 ^ 255) ltac:(lia)) as Hr.
  assert (0 <= x `div` 2 ^ 255) by (apply Z.div_pos; lia).
  lia.
Qed.

Lemma Ed25519_reduce_mod x :
  0 <= x < 2 ^ 510 -> Ed25519.reduce x = x `mod` Ed25519.P.
Proof.
  intros [Hx Hlt]. unfold Ed25519.reduce.
  destruct (Ed25519_fold19 x Hx) as [E1 P1].
  destruct (Ed25519_fold19 (Ed25519.fold19 x) P1) as [E2 P2].
  set (q1 := x `div` 2 ^ 255) in *.
  set (y1 := Ed25519.fold19 x) in *.
  set (q2 := y1 `div` 2 ^ 255) in *.
  set (y2 := Ed25519.fold19 y1) in *.
  assert (Hq1 : 0 <= q1 < 2 ^ 255).
  { subst q1. split; [apply Z.div_pos; lia|].
    apply Z.div_lt_upper_bound; [lia|].
    replace (2 ^ 510) with (2 ^ 255 * 2 ^ 255) in Hlt
      by (rewrite <- Z.pow_add_r; [reflexivity|lia|lia]).
    exact Hlt. }
  assert (Hy1 : 0 <= y1 < 20 * 2 ^ 255).
  { pose proof (Z.div_mod x (2 ^ 255) ltac:(lia)) as Hdm.
    pose proof (Z.mod_pos_bound x (2 ^ 255) ltac:(lia)) as Hr.
    fold q1 in Hdm. unfold Ed25519.P in E1. lia. }
  assert (Hq2 : 0 <= q2 < 20).
  { subst q2. split; [apply Z.div_pos; lia|].
    apply Z.div_lt_upper_bound; lia. }
  assert (Hy2 : 0 <= y2 < 2 ^ 255 + 400).
  { pose proof (Z.div_mod y1 (2 ^ 255) ltac:(lia)) as Hdm.
    pose proof (Z.mod_pos_bound y1 (2 ^ 255) ltac:(lia)) as Hr.
    fold q2 in Hdm. unfold Ed25519.P in E2. lia. }
  assert (HP : Ed25519.P = 2 ^ 255 - 19) by reflexivity.
  assert (Hbig : 1000 < 2 ^ 255) by (apply Z.ltb_lt; reflexivity).
  clearbody q1 y1 q2 y2.
  repeat case_decide.
  - apply (Z.mod_unique_pos x Ed25519.P (q1 + q2 + 2)); lia.
  - apply (Z.mod_unique_pos x Ed25519.P (q1 + q2 + 1)); lia.
  - apply (Z.mod_unique_pos x Ed25519.P (q1 + q2 + 1)); lia.
  - apply (Z.mod_unique_pos x Ed25519.P (q1 + q2)); lia.
Qed.

Example sha256_abc :
  SHA256.sha256 (utf8 "abc")
  = [ 0xba; 0x78; 0x16; 0xbf; 0x8f; 0x01; 0xcf; 0xea; 0x41; 0x41; 0x40; 0xde;
      0x5d; 0xae; 0x22; 0x23; 0xb0; 0x03; 0x61; 0xa3; 0x96; 0x17; 0x7a; 0x9c;
      0xb4; 0x10; 0xff; 0x61; 0xf2; 0x00; 0x15; 0xad ].
Proof. vm_compute. reflexivity. Qed.

Example sha256_constants :
  take 2 SHA256.K = [0x428a2f98; 0x71374491]
  /\ SHA256.K !! 63%nat = Some 0xc67178f2
  /\ SHA256.a SHA256.initial = 0x6a09e667
  /\ SHA256.h SHA256.initial = 0x5be0cd19.
Proof. repeat apply conj; vm_compute; reflexivity. Qed.

Example sha256_empty :
  take 4 (SHA256.sha256 []) = [0xe3; 0xb0; 0xc4; 0x42].
Proof. vm_compute. reflexivity. Qed.

(** The module-level keys are the ones their base-58 strings denote. *)
Example program_ids :
  PublicKey_of_base58 "TokenAAGbeQq5tGW2r5RoR3oauzN2EkNFiHNPw9q34s"
  = Ok TOKEN_PROGRAM_ID
  /\ PublicKey_of_base58 "Dt8fRCpjeV6JDemhPmtcTKijgKdPxXHn9Wo9cXY5agtG"
     = Ok ASSOCIATED_TOKEN_PROGRAM_ID
  /\ PublicKey_of_base58 "So11111111111111111111111111111111111111112"
     = Ok WRAPPED_DOMI_MINT
  /\ PublicKey_of_base58 "Memo1UhkJRfHyvLMcVucJwxXeuD728EqVDDwQDxFMNo"
     = Ok MEMO_PROGRAM_ID
  /\ PublicKey_of_base58 "11111111111111111111111111111111"
     = Ok SystemProgram_programId
  /\ PublicKey_of_base58 "SysvarRent111111111111111111111111111111111"
     = Ok SYSVAR_RENT_PUBKEY
  /\ toBase58 TOKEN_PROGRAM_ID = "TokenAAGbeQq5tGW2r5RoR3oauzN2EkNFiHNPw9q34s".
Proof. repeat apply conj; vm_compute; reflexivity. Qed.

(** The vectors of web3.js's own test of [createProgramAddress]. *)
Example createProgramAddress_vectors :
  toBase58 <$> createProgramAddressSync [utf8 ""; [1]]
                 (PublicKey_new "BPFLoader1111111111111111111111111111111111")
  = Ok "3gF2KMe9KiC6FNVBmfg9i267aMPvK37FewCip4eGBFcT"
  /\ toBase58 <$> createProgramAddressSync [utf8 "Talking"; utf8 "Squirrels"]
                    (PublicKey_new "BPFLoader1111111111111111111111111111111111")
     = Ok "HwRVBufQ4haG5XSgpspwKtNd3PC9GM9m1196uJW36vds"
  /\ toBase58 <$> createProgramAddressSync
                    [toBuffer (PublicKey_new "SeedPubey1111111111111111111111111111111111")]
                    (PublicKey_new "BPFLoader1111111111111111111111111111111111")
     = Ok "GUs5qLUfsEHkcMB9T38vjr18ypEhRuNWiePW2LoK4E3K".
Proof. repeat apply conj; vm_compute; reflexivity. Qed.

(** C8. [findAssociatedTokenAddress] is a function of the three seeds alone:
    it takes no environment, it is the first component of
    [findProgramAddressSync] on the seed list (owner, token program, mint)
    under the associated-token program id, and arguments with the same seed
    bytes give the same result.  On the fixture triples (system program,
    wrapped-DOMI mint, token program) and (memo program, wrapped-DOMI mint,
    token program) it returns the pinned addresses, the second one with bump
    254 because bump 255 lands on the curve. *)
Theorem findAssociatedTokenAddress_deterministic :
  (forall owner mint programId owner' mint' programId',
     toBuffer owner = toBuffer owner' ->
     toBuffer mint = toBuffer mint' ->
     toBuffer programId = toBuffer programId' ->
     findAssociatedTokenAddress owner mint programId
     = findAssociatedTokenAddress owner' mint' programId')
  /\ (forall owner mint programId,
        findAssociatedTokenAddress owner mint programId
        = fst <$> findProgramAddressSync
                    [toBuffer owner; toBuffer programId; toBuffer mint]
                    ASSOCIATED_TOKEN_PROGRAM_ID)
  /\ toBase58 <$> findAssociatedTokenAddress SystemProgram_programId
                    WRAPPED_DOMI_MINT TOKEN_PROGRAM_ID
     = Ok "e63q1oDUWxHx1SFHGEQWxqDNFVXAyG5WGwZ4oTaSbRM"
  /\ toBase58 <$> findAssociatedTokenAddress MEMO_PROGRAM_ID WRAPPED_DOMI_MINT
                    TOKEN_PROGRAM_ID
     = Ok "8d2b474UYAg81VxbEzAw5cx51ZyDxw6tZzLiu6vb71QW"
  /\ snd <$> findProgramAddressSync
               [toBuffer MEMO_PROGRAM_ID; toBuffer TOKEN_PROGRAM_ID;
                toBuffer WRAPPED_DOMI_MINT] ASSOCIATED_TOKEN_PROGRAM_ID
     = Ok 254.
Proof.
  split; [|split; [|split; [|split]]].
  - intros owner mint programId owner' mint' programId' Ho Hm Hp.
    unfold findAssociatedTokenAddress. rewrite Ho, Hm, Hp. reflexivity.
  - intros owner mint programId. unfold findAssociatedTokenAddress. reflexivity.
  - vm_compute. reflexivity.
  - vm_compute. reflexivity.
  - vm_compute. reflexivity.
Qed.

Lemma findAssociatedTokenAddress_deterministic_witness :
  findAssociatedTokenAddress test_recipient (publicKey test_mint) TOKEN_PROGRAM_ID
  = findAssociatedTokenAddress (mkPublicKey 1004) (mkPublicKey 1002)
      (PublicKey_new "TokenAAGbeQq5tGW2r5RoR3oauzN2EkNFiHNPw9q34s").
Proof.
  apply (proj1 findAssociatedTokenAddress_deterministic);
    vm_compute; reflexivity.
Defined.

(** ** Confirmation polling *)

Section Confirmation.

Context {W : Type}.
Variable handle : forall c : Call, W -> Settled (Reply c) * W.
Variable txid : string.

(** One iteration of the loop of [confirmTransaction]. *)
Lemma confirmTransaction_loop_step (n : nat) (w : W) :
  run handle (confirmTransaction_loop txid (S n)) w
  = let caught (error : error) (w1 : W) :=
      match n with
      | O => (Err error, w1, [rpc_confirmTransaction txid "confirmed"])
      | S _ =>
          after (rpc_confirmTransaction txid "confirmed")
            (after (setTimeout 2000)
               (run handle (confirmTransaction_loop txid n)
                  (handle (setTimeout 2000) w1).2))
      end in
    match handle (rpc_confirmTransaction txid "confirmed") w with
    | (Fulfilled result, w1) =>
        if ToBoolean (err result)
        then caught (Error ("Transaction failed: " ++ JSON_stringify (err result))) w1
        else (Ok (Some result), w1, [rpc_confirmTransaction txid "confirmed"])
    | (Rejected detail, w1) => caught (ExternalError detail) w1
    end.
Proof.
  cbn [confirmTransaction_loop].
  unfold await. cbn [mbind Prog_mbind Prog_bind try_catch run].
  destruct (handle (rpc_confirmTransaction txid "confirmed") w) as [[result|detail] w1].
  - cbn [Prog_bind]. destruct (ToBoolean (err result)); cbn [try_catch run]; [|done].
    destruct n as [|n]; [done|]. by rewrite run_sleep.
  - cbn [Prog_bind try_catch].
    destruct n as [|n]; [done|]. by rewrite run_sleep.
Qed.

Lemma polls_app (first rest : list (Settled SignatureResult)) : forall w : W,
  polls handle txid (first ++ rest) w
  <-> polls handle txid first w
      /\ polls handle txid rest (after_polls handle txid (length first) w).
Proof.
  induction first as [|outcome first IH]; intros w; cbn [app polls length after_polls].
  - tauto.
  - rewrite IH. tauto.
Qed.


End Confirmation.





(** The text of an error object, as the message carries it. *)
Example JSON_stringify_instruction_error :
  JSON_stringify
    (JSON_object
       [ ("InstructionError",
          JSON_array [ JSON_number 0; JSON_object [ ("Custom", JSON_number 1) ] ]) ])
  = ("{" ++ String "034" "InstructionError" ++ String "034" ":[0,{"
         ++ String "034" "Custom" ++ String "034" ":1}]}")%string.
Proof. reflexivity. Qed.

(** Line feed, tab, backslash and the control character 1, escaped. *)
Example quote_code_units_escapes :
  quote_code_units (String "010" (String "009" (String "092" (String "001" "a"))))
  = "\n\t\\\u0001a".
Proof. reflexivity. Qed.

(** A falsy error value, the empty string as much as [null], is no error:
    the result is returned at once. *)
Example confirmTransaction_falsy_error :
  run scripted_handle (confirmTransaction "txid" 3)
    [ Fulfilled (mkSignatureResult (JSON_string "")) ]
  = (Ok (Some (mkSignatureResult (JSON_string ""))), [],
     [ rpc_confirmTransaction "txid" "confirmed" ]).
Proof. reflexivity. Qed.

Example confirmTransaction_on_chain_error_is_retried :
  run scripted_handle (confirmTransaction "txid" 3)
    [ Fulfilled (mkSignatureResult (JSON_string "AccountInUse"));
      Fulfilled (mkSignatureResult JSON_null) ]
  = (Ok (Some (mkSignatureResult JSON_null)), [],
     [ rpc_confirmTransaction "txid" "confirmed"; setTimeout 2000;
       rpc_confirmTransaction "txid" "confirmed" ]).
Proof. reflexivity. Qed.

Example confirmTransaction_no_attempt :
  run scripted_handle (confirmTransaction "txid" 0) [] = (Ok None, [], []).
Proof. reflexivity. Qed.

(** * Further properties of the code *)

(** ** Bytes and keys *)

Lemma le_bytes_bytes n w : byte_sequence (le_bytes n w).
Proof.
  revert n. induction w as [|w IH]; intros n; [constructor|].
  cbn [le_bytes]. constructor; [|apply IH].
  apply Z.mod_pos_bound. lia.
Qed.

Lemma toBigIntLE_bound b :
  byte_sequence b -> 0 <= toBigIntLE b < 256 ^ Z.of_nat (length b).
Proof.
  induction 1 as [|x b Hx Hb IH]; [cbn; lia|].
  cbn [length toBigIntLE foldr].
  change (foldr (fun x acc => x + 256 * acc) 0 b) with (toBigIntLE b).
  rewrite Nat2Z.inj_succ, Z.pow_succ_r by lia. nia.
Qed.

Lemma le_bytes_toBigIntLE b :
  byte_sequence b -> le_bytes (toBigIntLE b) (length b) = b.
Proof.
  induction 1 as [|x b Hx Hb IH]; [done|].
  cbn [length toBigIntLE foldr le_bytes].
  change (foldr (fun x acc => x + 256 * acc) 0 b) with (toBigIntLE b).
  replace ((x + 256 * toBigIntLE b) `mod` 256) with x.
  2: { apply (Z.mod_unique_pos _ 256 (toBigIntLE b) x); lia. }
  replace ((x + 256 * toBigIntLE b) `div` 256) with (toBigIntLE b).
  2: { apply (Z.div_unique_pos _ 256 (toBigIntLE b) x); lia. }
  by rewrite IH.
Qed.

Lemma byte_sequence_reverse b : byte_sequence b -> byte_sequence (reverse b).
Proof. unfold byte_sequence. by rewrite Forall_reverse. Qed.

Lemma toBuffer_bytes k : byte_sequence (toBuffer k).
Proof. apply byte_sequence_reverse, le_bytes_bytes. Qed.

(** A key is made of its own 32 bytes again. *)
Lemma PublicKey_of_bytes_toBuffer k :
  valid_key k -> PublicKey_of_bytes (toBuffer k) = Ok k.
Proof.
  intros Hk. destruct k as [n]. unfold valid_key in Hk. cbn [_bn] in Hk.
  unfold PublicKey_of_bytes, toBigIntBE, toBuffer. cbn [_bn].
  rewrite reverse_involutive.
  rewrite toBigIntLE_le_bytes
    by (change (256 ^ Z.of_nat PUBLIC_KEY_LENGTH) with (2 ^ 256); done).
  by rewrite decide_True by lia.
Qed.

(** The key made of 32 bytes has these bytes. *)
Lemma toBuffer_PublicKey_of_bytes b k :
  byte_sequence b -> length b = 32%nat ->
  PublicKey_of_bytes b = Ok k -> toBuffer k = b.
Proof.
  intros Hb Hlen. unfold PublicKey_of_bytes.
  case_decide; [|done]. intros [= <-].
  unfold toBuffer, toBigIntBE. cbn [_bn].
  change PUBLIC_KEY_LENGTH with 32%nat.
  rewrite <- Hlen, <- length_reverse.
  rewrite le_bytes_toBigIntLE by by apply byte_sequence_reverse.
  apply reverse_involutive.
Qed.

Lemma PublicKey_of_bytes_ok b :
  byte_sequence b -> length b = 32%nat ->
  exists k, PublicKey_of_bytes b = Ok k /\ valid_key k.
Proof.
  intros Hb Hlen.
  pose proof (toBigIntLE_bound (reverse b) (byte_sequence_reverse b Hb)) as Hbound.
  rewrite length_reverse, Hlen in Hbound.
  change (256 ^ Z.of_nat 32) with (2 ^ 256) in Hbound.
  exists (mkPublicKey (toBigIntBE b)).
  unfold PublicKey_of_bytes, valid_key, toBigIntBE. cbn [_bn].
  by rewrite decide_True by lia.
Qed.

(** ** Payloads of the instruction builders *)

Lemma amount_read_back tag amount rest :
  0 <= amount < 2 ^ 64 ->
  toBigIntLE (Buffer_slice (tag :: le_bytes amount 8 ++ rest) 1 9) = amount.
Proof.
  intros Ha. unfold Buffer_slice.
  change (drop 1 (tag :: le_bytes amount 8 ++ rest)) with (le_bytes amount 8 ++ rest).
  rewrite take_app_length' by (rewrite le_bytes_length; reflexivity).
  by apply toBigIntLE_le_bytes.
Qed.

(** X1. The payloads of the three instructions that carry an amount, for an
    amount of 64 bits: [mintTo] is the tag 7 and [burn] the tag 8 followed by
    the amount on 8 bytes, [transferChecked] the tag 12, the amount on 8
    bytes and the decimals; reading the bytes 1 to 8 back as a little-endian
    number gives the amount.  [mintTo] and [burn] always address the token
    program, [transferChecked] the program it is given. *)
Theorem token_amount_payloads (amount : Z) :
  0 <= amount < 2 ^ 64 ->
  (forall mint destination mintAuthority,
     exists ix,
       mintTo mint destination amount mintAuthority = Ok ix
       /\ data ix = 7 :: le_bytes amount 8
       /\ length (data ix) = 9%nat
       /\ toBigIntLE (Buffer_slice (data ix) 1 9) = amount
       /\ programId ix = TOKEN_PROGRAM_ID)
  /\ (forall account mint owner,
        exists ix,
          burn account mint amount owner = Ok ix
          /\ data ix = 8 :: le_bytes amount 8
          /\ length (data ix) = 9%nat
          /\ toBigIntLE (Buffer_slice (data ix) 1 9) = amount
          /\ programId ix = TOKEN_PROGRAM_ID)
  /\ (forall source mint destination decimals owner program,
        0 <= decimals <= 255 ->
        exists ix,
          transferChecked source mint destination amount decimals owner program
          = Ok ix
          /\ data ix = 12 :: le_bytes amount 8 ++ [decimals]
          /\ length (data ix) = 10%nat
          /\ toBigIntLE (Buffer_slice (data ix) 1 9) = amount
          /\ data ix !! 9%nat = Some decimals
          /\ programId ix = program).
Proof.
  intros Ha. split; [|split].
  - intros mint destination mintAuthority. eexists.
    split; [by apply mintTo_ok|]. cbn [data programId].
    split; [done|]. split; [by rewrite length_cons, le_bytes_length|].
    split; [|done].
    rewrite <- (app_nil_r (le_bytes amount 8)). by apply amount_read_back.
  - intros account mint owner. eexists.
    split; [by apply burn_ok|]. cbn [data programId].
    split; [done|]. split; [by rewrite length_cons, le_bytes_length|].
    split; [|done].
    rewrite <- (app_nil_r (le_bytes amount 8)). by apply amount_read_back.
  - intros source mint destination decimals owner program Hd. eexists.
    split; [by apply transferChecked_ok|]. cbn [data programId].
    split; [done|].
    split; [by rewrite length_cons, length_app, le_bytes_length|].
    split; [by apply amount_read_back|].
    split; [|done].
    rewrite lookup_cons_ne_0 by done. cbn [Nat.pred].
    rewrite lookup_app_r by (rewrite le_bytes_length; lia).
    by rewrite le_bytes_length.
Qed.

Lemma token_amount_payloads_witness :
  exists ix,
    transferChecked test_recipient (publicKey test_mint) test_associated
      (2 ^ 64 - 1) 9 (wallet_publicKey test_owner) TOKEN_PROGRAM_ID = Ok ix
    /\ data ix = 12 :: le_bytes (2 ^ 64 - 1) 8 ++ [9]
    /\ length (data ix) = 10%nat
    /\ toBigIntLE (Buffer_slice (data ix) 1 9) = 2 ^ 64 - 1
    /\ data ix !! 9%nat = Some 9
    /\ programId ix = TOKEN_PROGRAM_ID.
Proof.
  destruct (token_amount_payloads (2 ^ 64 - 1)) as (_ & _ & Htransfer); [lia|].
  apply Htransfer. lia.
Defined.

(** X2. The payload of [initializeMint] has 67 bytes: the tag 0, the
    decimals, the 32 bytes of the mint authority, the freeze-authority flag
    and 32 more bytes.  Without a freeze authority the flag is 0 and the 32
    bytes are zero; with one the flag is 1 and the bytes are the key's. *)
Theorem initializeMint_payload mint decimals mintAuthority :
  0 <= decimals <= 255 ->
  (exists ix,
     initializeMint mint decimals mintAuthority None = Ok ix
     /\ data ix = [0; decimals] ++ toBuffer mintAuthority ++ [0] ++ replicate 32 0
     /\ length (data ix) = 67%nat
     /\ programId ix = TOKEN_PROGRAM_ID)
  /\ (forall freezeAuthority,
        exists ix,
          initializeMint mint decimals mintAuthority (Some freezeAuthority) = Ok ix
          /\ data ix = [0; decimals] ++ toBuffer mintAuthority ++ [1]
                         ++ toBuffer freezeAuthority
          /\ length (data ix) = 67%nat
          /\ programId ix = TOKEN_PROGRAM_ID).
Proof.
  intros Hd. split.
  - eexists. split; [by apply initializeMint_ok|]. cbn [data programId].
    split; [reflexivity|]. split; [|done].
    rewrite !length_cons, length_app, toBuffer_length. reflexivity.
  - intros freezeAuthority. eexists.
    split; [by apply initializeMint_ok|]. cbn [data programId].
    split; [reflexivity|]. split; [|done].
    rewrite !length_cons, length_app, length_cons, !toBuffer_length. reflexivity.
Qed.

Lemma initializeMint_payload_witness :
  exists ix,
    initializeMint (publicKey test_mint) 9 (wallet_publicKey test_owner) None = Ok ix
    /\ data ix = [0; 9] ++ toBuffer (wallet_publicKey test_owner) ++ [0]
                   ++ replicate 32 0
    /\ length (data ix) = 67%nat
    /\ programId ix = TOKEN_PROGRAM_ID.
Proof.
  apply (proj1 (initializeMint_payload (publicKey test_mint) 9
                  (wallet_publicKey test_owner) ltac:(lia))).
Defined.

(** ** Values the codec rejects *)

(** A struct whose fields up to a [u8] can be encoded, and whose value for
    that [u8] is not a byte, is rejected at that field. *)
Lemma Structure_encode_rejects before p after (src : gmap string Value) n :
  forall b off,
  Forall (fun fd => exists v, src !! fd.1 = Some v /\ encodable fd.2 v) before ->
  src !! p = Some (Num n) -> ~ 0 <= n <= 255 ->
  (off + Structure_span before <= length b)%nat ->
  Structure_encode (before ++ (p, u8) :: after) src b off
  = Err (RangeError "value is out of range").
Proof.
  induction before as [|[q l] before IH]; intros b off Hall Hp Hn Hlen.
  - cbn [app Structure_encode]. rewrite Hp. cbn [Layout_encode].
    unfold u8_encode. by rewrite decide_False.
  - apply Forall_cons in Hall as [(v & Hv & Henc) Hall].
    cbn [app Structure_encode]. cbn [fst snd] in Hv, Henc. rewrite Hv.
    cbn [Structure_span foldr snd] in Hlen.
    destruct (Layout_encode_spec l v b off Henc) as [-> Hfb]; [lia|].
    cbn [mbind Result_bind].
    apply IH; [done..|].
    rewrite Buffer_write_length by lia.
    change (foldr (fun fd acc => (Layout_span fd.2 + acc)%nat) 0%nat before)
      with (Structure_span before) in Hlen. lia.
Qed.

Lemma encodeTokenInstructionData_rejects vlo before p after
    (fields : gmap string Value) n :
  vlo ∈ LAYOUT -> layout vlo = before ++ (p, u8) :: after ->
  Forall (fun fd => exists v, fields !! fd.1 = Some v /\ encodable fd.2 v) before ->
  fields !! p = Some (Num n) -> ~ 0 <= n <= 255 ->
  encodeTokenInstructionData {[ property vlo := fields ]}
  = Err (RangeError "value is out of range").
Proof.
  intros Hin Hlayout Hall Hp Hn.
  pose proof (variant_span_le_max vlo Hin) as Hmax.
  pose proof (variant_is_byte vlo Hin) as Hbyte.
  unfold VariantLayout_span in Hmax. rewrite Hlayout in Hmax.
  assert (Hspan : (Structure_span before
                   <= Structure_span (before ++ (p, u8) :: after))%nat).
  { clear. induction before as [|fd before IH]; cbn; [lia|].
    unfold Structure_span in IH. lia. }
  assert (Halloc : length (Buffer_alloc instructionMaxSpan) = instructionMaxSpan)
    by apply length_replicate.
  unfold encodeTokenInstructionData, Union_encode.
  rewrite getSourceVariant_singleton by done. cbn [mbind Result_bind].
  unfold VariantLayout_encode. rewrite lookup_singleton_eq.
  unfold u8_encode at 1. rewrite decide_True by done.
  rewrite decide_True by lia. cbn [mbind Result_bind].
  rewrite Hlayout.
  rewrite (Structure_encode_rejects before p after fields n); [done..|].
  rewrite Buffer_write_length; cbn [length]; lia.
Qed.

(** X3. Decimals that are not a byte are rejected by the two builders that
    encode them: [initializeMint] and [transferChecked] (whose amount is
    encoded first) throw a range error instead of returning an
    instruction. *)
Theorem builders_reject_decimals_out_of_byte (decimals : Z) :
  ~ 0 <= decimals <= 255 ->
  (forall mint mintAuthority freezeAuthority,
     exists msg,
       initializeMint mint decimals mintAuthority freezeAuthority
       = Err (RangeError msg))
  /\ (forall source mint destination amount owner program,
        0 <= amount < 2 ^ 64 ->
        exists msg,
          transferChecked source mint destination amount decimals owner program
          = Err (RangeError msg)).
Proof.
  intros Hd. split.
  - intros mint mintAuthority freezeAuthority. eexists.
    unfold initializeMint.
    rewrite (encodeTokenInstructionData_rejects
               (mkVariant 0
                  [("decimals", u8); ("mintAuthority", blob 32);
                   ("freezeAuthorityOption", u8); ("freezeAuthority", blob 32)]
                  "initializeMint")
               [] "decimals"
               [("mintAuthority", blob 32); ("freezeAuthorityOption", u8);
                ("freezeAuthority", blob 32)] _ decimals);
      [reflexivity|solve_variant|reflexivity|constructor|reflexivity|done].
  - intros source mint destination amount owner program Ha. eexists.
    unfold transferChecked.
    rewrite (encodeTokenInstructionData_rejects
               (mkVariant 12 [("amount", u64); ("decimals", u8)] "transferChecked")
               [("amount", u64)] "decimals" [] _ decimals);
      [reflexivity|solve_variant|reflexivity| |reflexivity|done].
    repeat constructor. eexists. split; [reflexivity|]. cbn. lia.
Qed.

Lemma builders_reject_decimals_out_of_byte_witness :
  exists msg,
    initializeMint (publicKey test_mint) 256 (wallet_publicKey test_owner) None
    = Err (RangeError msg).
Proof.
  apply (proj1 (builders_reject_decimals_out_of_byte 256 ltac:(lia))).
Defined.

(** ** The public-key layout *)

(** X4. The public-key layout round trip: for a key the [PublicKey]
    constructor can produce and a buffer with 32 bytes of room at the
    offset, [encode] writes the key's 32 bytes there and nowhere else, and
    [decode] at the same offset gives the key back.  The payload of
    [assertOwner] is this encoding of the expected owner: 32 bytes that
    decode to it. *)
Theorem PublicKeyLayout_roundtrip (key : PublicKey) :
  valid_key key ->
  (forall (b : Buffer) (offset : nat),
     (offset + 32 <= length b)%nat ->
     exists b',
       PublicKeyLayout_encode key b offset = Ok b'
       /\ length b' = length b
       /\ take offset b' = take offset b
       /\ drop (offset + 32) b' = drop (offset + 32) b
       /\ PublicKeyLayout_decode b' offset = Ok key)
  /\ (forall account,
        exists ix,
          assertOwner account key = Ok ix
          /\ length (data ix) = 32%nat
          /\ PublicKeyLayout_decode (data ix) 0 = Ok key
          /\ programId ix = OWNER_VALIDATION_PROGRAM_ID).
Proof.
  intros Hkey. split.
  - intros b offset Hroom.
    pose proof (toBuffer_length key) as Hlen.
    exists (Buffer_write (toBuffer key) b offset).
    unfold PublicKeyLayout_encode, Blob_encode.
    rewrite decide_True by done. rewrite decide_True by done.
    split; [done|].
    split; [by rewrite Buffer_write_length by lia|].
    unfold Buffer_write. rewrite Hlen.
    assert (Hoff : length (take offset b) = offset) by (rewrite length_take; lia).
    split; [by rewrite take_app_length' by done|].
    split.
    { rewrite (assoc_L (++)).
      by rewrite drop_app_length' by (rewrite length_app; lia). }
    unfold PublicKeyLayout_decode, Blob_decode, Buffer_slice.
    rewrite drop_app_length' by done.
    replace (offset + 32 - offset)%nat with 32%nat by lia.
    rewrite take_app_length' by done.
    by apply PublicKey_of_bytes_toBuffer.
  - intros account. eexists. split; [apply assertOwner_ok|].
    cbn [data programId]. split; [apply toBuffer_length|]. split; [|done].
    unfold PublicKeyLayout_decode, Blob_decode, Buffer_slice.
    rewrite drop_0. cbn [Nat.add Nat.sub].
    rewrite take_ge by (rewrite toBuffer_length; lia).
    by apply PublicKey_of_bytes_toBuffer.
Qed.

Lemma PublicKeyLayout_roundtrip_witness :
  exists ix,
    assertOwner test_recipient SystemProgram_programId = Ok ix
    /\ length (data ix) = 32%nat
    /\ PublicKeyLayout_decode (data ix) 0 = Ok SystemProgram_programId
    /\ programId ix = OWNER_VALIDATION_PROGRAM_ID.
Proof.
  apply (proj2 (PublicKeyLayout_roundtrip SystemProgram_programId
                  ltac:(vm_compute; split; [discriminate|reflexivity]))).
Defined.

(** ** Fields the source object lacks *)

Lemma struct_bytes_or_zero_length fields (src : gmap string Value) :
  Forall (fun fd => forall v, src !! fd.1 = Some v -> encodable fd.2 v) fields ->
  length (struct_bytes_or_zero fields src) = Structure_span fields.
Proof.
  induction 1 as [|[p l] rest Hfd Hrest IH]; [done|].
  cbn [struct_bytes_or_zero Structure_span foldr snd]. rewrite length_app, IH.
  change (foldr (fun fd acc => (Layout_span fd.2 + acc)%nat) 0%nat rest)
    with (Structure_span rest).
  f_equal. cbn [fst snd] in Hfd.
  destruct (src !! p) as [v|].
  - destruct (Layout_encode_spec l v (replicate (Layout_span l) 0) 0 (Hfd v eq_refl))
      as [_ Hlen]; [rewrite length_replicate; lia|done].
  - apply length_replicate.
Qed.

(** [Structure.encode] into a region of zeros writes the fields that are
    present and leaves the zeros of the others. *)
Lemma Structure_encode_partial fields (src : gmap string Value) : forall pre post,
  Forall (fun fd => forall v, src !! fd.1 = Some v -> encodable fd.2 v) fields ->
  Structure_encode fields src
    (pre ++ replicate (Structure_span fields) 0 ++ post) (length pre)
  = Ok (pre ++ struct_bytes_or_zero fields src ++ post).
Proof.
  induction fields as [|[p l] rest IH]; intros pre post Hall; [done|].
  apply Forall_cons in Hall as [Hfd Hall]. cbn [fst snd] in Hfd.
  cbn [Structure_encode struct_bytes_or_zero Structure_span foldr snd].
  change (foldr (fun fd acc => (Layout_span fd.2 + acc)%nat) 0%nat rest)
    with (Structure_span rest).
  rewrite replicate_add, <- !(assoc_L (++)).
  destruct (src !! p) as [v|].
  - destruct (Layout_encode_spec l v
                (pre ++ replicate (Layout_span l) 0
                   ++ replicate (Structure_span rest) 0 ++ post)
                (length pre) (Hfd v eq_refl)) as [-> Hlen].
    { rewrite !length_app, length_replicate. lia. }
    cbn [mbind Result_bind].
    assert (Hwritten : Buffer_write (field_bytes l v)
                         (pre ++ replicate (Layout_span l) 0
                            ++ replicate (Structure_span rest) 0 ++ post)
                         (length pre)
                       = (pre ++ field_bytes l v)
                           ++ replicate (Structure_span rest) 0 ++ post).
    { unfold Buffer_write.
      rewrite take_app_length, drop_app_add', Hlen by done.
      rewrite drop_app_length' by (symmetry; apply length_replicate).
      by rewrite <- (assoc_L (++)). }
    rewrite Hwritten.
    replace (length pre + Layout_span l)%nat with (length (pre ++ field_bytes l v))
      by (rewrite length_app; lia).
    rewrite IH by done. by rewrite <- !(assoc_L (++)).
  - cbn [mbind Result_bind].
    rewrite (assoc_L (++) pre).
    replace (length pre + Layout_span l)%nat
      with (length (pre ++ replicate (Layout_span l) 0))
      by (rewrite length_app, length_replicate; lia).
    rewrite IH by done. by rewrite <- !(assoc_L (++)).
Qed.

(** X5. [encodeTokenInstructionData] does not insist on the fields of a
    variant: for an instruction object whose fields, where present, can be
    encoded, every field that is absent is encoded as zero bytes, the
    untouched bytes of the fresh buffer, and the length is the full length
    of the variant.  An instruction built without its amount or decimals
    is thus encoded with amount or decimals 0, not rejected. *)
Theorem encodeTokenInstructionData_missing_fields vlo (fields : gmap string Value) :
  vlo ∈ LAYOUT ->
  Forall (fun fd => forall v, fields !! fd.1 = Some v -> encodable fd.2 v)
    (layout vlo) ->
  encodeTokenInstructionData {[ property vlo := fields ]}
  = Ok (variant vlo :: struct_bytes_or_zero (layout vlo) fields)
  /\ length (struct_bytes_or_zero (layout vlo) fields) = Structure_span (layout vlo).
Proof.
  intros Hin Hall.
  pose proof (variant_span_le_max vlo Hin) as Hmax.
  pose proof (variant_is_byte vlo Hin) as Hbyte.
  pose proof (struct_bytes_or_zero_length _ _ Hall) as Hlen.
  split; [|exact Hlen].
  unfold VariantLayout_span in Hmax.
  unfold encodeTokenInstructionData, Union_encode.
  rewrite getSourceVariant_singleton by done. cbn [mbind Result_bind].
  unfold VariantLayout_encode. rewrite lookup_singleton_eq.
  assert (Halloc : Buffer_alloc instructionMaxSpan
                   = [0] ++ replicate (Structure_span (layout vlo)) 0
                       ++ replicate (instructionMaxSpan - 1
                                     - Structure_span (layout vlo)) 0).
  { unfold Buffer_alloc.
    replace instructionMaxSpan
      with (1 + (Structure_span (layout vlo)
                 + (instructionMaxSpan - 1 - Structure_span (layout vlo))))%nat
      at 1 by lia.
    by rewrite replicate_add, replicate_add. }
  rewrite Halloc. unfold u8_encode. rewrite decide_True by done.
  rewrite decide_True by (cbn [app length]; lia).
  cbn [mbind Result_bind].
  change (Buffer_write [variant vlo]
            ([0] ++ replicate (Structure_span (layout vlo)) 0
               ++ replicate (instructionMaxSpan - 1 - Structure_span (layout vlo)) 0)
            0)
    with ([variant vlo] ++ replicate (Structure_span (layout vlo)) 0
            ++ replicate (instructionMaxSpan - 1 - Structure_span (layout vlo)) 0).
  change 1%nat with (length [variant vlo]) at 1.
  rewrite Structure_encode_partial by done. cbn [mbind Result_bind].
  unfold Buffer_slice, VariantLayout_span. rewrite drop_0, Nat.sub_0_r.
  f_equal. cbn [app]. rewrite <- Hlen. cbn [Nat.add take].
  f_equal. by rewrite take_app_length.
Qed.

Lemma encodeTokenInstructionData_missing_fields_witness :
  encodeTokenInstructionData
    {[ "transferChecked" := {[ "amount" := Big 258 ]} ]}
  = Ok [12; 2; 1; 0; 0; 0; 0; 0; 0; 0]
  /\ length (struct_bytes_or_zero [("amount", u64); ("decimals", u8)]
               {[ "amount" := Big 258 ]})
     = Structure_span [("amount", u64); ("decimals", u8)].
Proof.
  destruct (encodeTokenInstructionData_missing_fields
              (mkVariant 12 [("amount", u64); ("decimals", u8)] "transferChecked")
              {[ "amount" := Big 258 ]}) as [Hbytes Hlength].
  - solve_variant.
  - repeat constructor; cbn [fst snd]; intros v Hv.
    + rewrite lookup_singleton_eq in Hv. injection Hv as <-. cbn. lia.
    + by rewrite lookup_singleton_ne in Hv.
  - cbn [property variant layout] in Hbytes, Hlength.
    split; [|exact Hlength].
    rewrite Hbytes. vm_compute. reflexivity.
Defined.

(** ** The submission step *)




Lemma Transaction_serialize_spec tx raw :
  Transaction_serialize tx = Ok raw -> carried raw = tx /\ fully_signed tx.
Proof.
  unfold Transaction_serialize, fully_signed.
  destruct (forallb _ _) eqn:Hall; [|done]. intros [= <-]. split; [done|].
  apply Forall_forall. intros slot Hslot.
  rewrite forallb_forall in Hall.
  specialize (Hall slot ltac:(by apply list_elem_of_In)).
  by apply bool_decide_eq_true in Hall.
Qed.

Section Submission.

Context {W : Type} (handle : forall c : Call, W -> Settled (Reply c) * W).

(** [signAndSendTransaction], call by call. *)
Lemma signAndSendTransaction_run transaction wallet signers skipPreflight (w : W) :
  run handle (signAndSendTransaction transaction wallet signers skipPreflight) w
  = let ask := getRecentBlockhash "max" in
    match handle ask w with
    | (Rejected detail, w1) => (Err (ExternalError detail), w1, [ask])
    | (Fulfilled recent, w1) =>
        match signing_request transaction wallet signers recent with
        | Err e => (Err e, w1, [ask])
        | Ok request =>
            let sign := signTransaction wallet request in
            match handle sign w1 with
            | (Rejected detail, w2) => (Err (ExternalError detail), w2, [ask; sign])
            | (Fulfilled signed, w2) =>
                match Transaction_serialize signed with
                | Err e => (Err e, w2, [ask; sign])
                | Ok raw =>
                    let send := sendRawTransaction raw skipPreflight "single" in
                    match handle send w2 with
                    | (Fulfilled sig, w3) => (Ok sig, w3, [ask; sign; send])
                    | (Rejected detail, w3) =>
                        (Err (ExternalError detail), w3, [ask; sign; send])
                    end
                end
            end
        end
    end.
Proof.
  cbv zeta. unfold signAndSendTransaction.
  rewrite (run_await_bind handle (getRecentBlockhash "max")).
  destruct (handle (getRecentBlockhash "max") w) as [[recent|detail] w1]; [|done].
  unfold signing_request.
  rewrite run_lift_bind.
  destruct (Transaction_setSigners _ _) as [tx1|e]; [|done].
  cbn [mbind Result_bind].
  assert (Hrest : forall request : Transaction,
            after (getRecentBlockhash "max")
              (run handle
                 (transaction ← await (signTransaction wallet request);
                  rawTransaction ← lift (Transaction_serialize transaction);
                  await (sendRawTransaction rawTransaction skipPreflight "single"))
                 w1)
            = match handle (signTransaction wallet request) w1 with
              | (Rejected detail, w2) =>
                  (Err (ExternalError detail), w2,
                   [getRecentBlockhash "max"; signTransaction wallet request])
              | (Fulfilled signed, w2) =>
                  match Transaction_serialize signed with
                  | Err e =>
                      (Err e, w2,
                       [getRecentBlockhash "max"; signTransaction wallet request])
                  | Ok raw =>
                      match handle (sendRawTransaction raw skipPreflight "single")
                              w2 with
                      | (Fulfilled sig, w3) =>
                          (Ok sig, w3,
                           [getRecentBlockhash "max";
                            signTransaction wallet request;
                            sendRawTransaction raw skipPreflight "single"])
                      | (Rejected detail, w3) =>
                          (Err (ExternalError detail), w3,
                           [getRecentBlockhash "max";
                            signTransaction wallet request;
                            sendRawTransaction raw skipPreflight "single"])
                      end
                  end
              end).
  { intros request.
    rewrite (run_await_bind handle (signTransaction wallet request)).
    destruct (handle (signTransaction wallet request) w1) as [[signed|detail] w2];
      [|done].
    rewrite run_lift_bind.
    destruct (Transaction_serialize signed) as [raw|e]; [|done].
    rewrite (run_await handle (sendRawTransaction raw skipPreflight "single")).
    by destruct (handle (sendRawTransaction raw skipPreflight "single") w2)
      as [[sig|detail] w3]. }
  case_decide.
  - rewrite run_bind, run_lift.
    destruct (Transaction_partialSign tx1 signers) as [request|e]; [|done].
    rewrite <- Hrest. unfold after. cbn [app].
    by destruct (run handle _ w1) as [[res w2] calls].
  - apply Hrest.
Qed.


(** A submission, if there is one, is the last of three calls and carries
    what the wallet returned. *)
Lemma signAndSendTransaction_send_last
    transaction wallet signers skipPreflight (w : W) (c : Call) :
  let r := run handle
             (signAndSendTransaction transaction wallet signers skipPreflight) w in
  c ∈ r.2 -> is_send c = true ->
  exists request signed w1 w2,
    handle (signTransaction wallet request) w1 = (Fulfilled signed, w2)
    /\ fully_signed signed
    /\ c = sendRawTransaction (mkRaw signed) skipPreflight "single"
    /\ r.2 = [ getRecentBlockhash "max"; signTransaction wallet request; c ].
Proof.
  cbv zeta. rewrite signAndSendTransaction_run. cbv zeta.
  destruct (handle (getRecentBlockhash "max") w) as [[recent|detail] w1] eqn:Hask.
  2: { cbn [snd]. intros Hc%list_elem_of_singleton. by subst c. }
  destruct (signing_request transaction wallet signers recent) as [request|e]
    eqn:Hrequest.
  2: { cbn [snd]. intros Hc%list_elem_of_singleton. by subst c. }
  destruct (handle (signTransaction wallet request) w1) as [[signed|detail] w2]
    eqn:Hsign.
  2: { cbn [snd]. intros [->|Hc%list_elem_of_singleton]%elem_of_cons; [done|].
       by subst c. }
  destruct (Transaction_serialize signed) as [raw|e] eqn:Hraw.
  2: { cbn [snd]. intros [->|Hc%list_elem_of_singleton]%elem_of_cons; [done|].
       by subst c. }
  apply Transaction_serialize_spec in Hraw as [Hcarried Hsigned].
  destruct raw as [tx]. cbn [carried] in Hcarried. subst tx.
  assert (Hcalls : forall calls,
            calls = [ getRecentBlockhash "max"; signTransaction wallet request;
                      sendRawTransaction (mkRaw signed) skipPreflight "single" ] ->
            c ∈ calls -> is_send c = true ->
            exists request signed w1 w2,
              handle (signTransaction wallet request) w1 = (Fulfilled signed, w2)
              /\ fully_signed signed
              /\ c = sendRawTransaction (mkRaw signed) skipPreflight "single"
              /\ calls = [ getRecentBlockhash "max";
                           signTransaction wallet request; c ]).
  { intros calls -> Hc Hsend.
    apply elem_of_cons in Hc as [->|Hc]; [done|].
    apply elem_of_cons in Hc as [->|Hc]; [done|].
    apply list_elem_of_singleton in Hc as ->.
    by exists request, signed, w1, w2. }
  destruct (handle (sendRawTransaction (mkRaw signed) skipPreflight "single") w2)
    as [[sig|detail] w3]; cbn [snd]; by apply Hcalls.
Qed.

(** X7. Nothing is sent that the wallet has not signed: whatever the
    environment answers, a [sendRawTransaction] call among the calls of
    [signAndSendTransaction] is its last call, it follows a signing request
    that the wallet fulfilled, and it carries the transaction the wallet
    returned, with every signature slot filled, the caller's preflight flag
    and the commitment 'single'.  In particular a rejected blockhash query
    or a wallet that refuses ends the operation without a submission. *)
Theorem signAndSendTransaction_sends_what_the_wallet_signed
    transaction wallet signers skipPreflight (w : W) (c : Call) :
  let r := run handle
             (signAndSendTransaction transaction wallet signers skipPreflight) w in
  c ∈ r.2 -> is_send c = true ->
  exists request signed w1 w2,
    handle (signTransaction wallet request) w1 = (Fulfilled signed, w2)
    /\ fully_signed signed
    /\ c = sendRawTransaction (mkRaw signed) skipPreflight "single"
    /\ r.2 = [ getRecentBlockhash "max"; signTransaction wallet request; c ].
Proof.
  apply signAndSendTransaction_send_last.
Qed.

(** The submission step only fetches the blockhash, asks the wallet and
    sends: it queries no account. *)
Lemma signAndSendTransaction_queries_nothing transaction wallet signers
    skipPreflight (w : W) :
  Forall (fun c => forall address, c <> getAccountInfo address)
    (run handle (signAndSendTransaction transaction wallet signers skipPreflight)
       w).2.
Proof.
  rewrite signAndSendTransaction_run. cbv zeta.
  destruct (handle (getRecentBlockhash "max") w) as [[recent|detail] w1];
    [|by repeat constructor].
  destruct (signing_request transaction wallet signers recent) as [request|e];
    [|by repeat constructor].
  destruct (handle (signTransaction wallet request) w1) as [[signed|detail] w2];
    [|by repeat constructor].
  destruct (Transaction_serialize signed) as [raw|e]; [|by repeat constructor].
  destruct (handle (sendRawTransaction raw skipPreflight "single") w2)
    as [[sig|detail] w3]; by repeat constructor.
Qed.

End Submission.


Lemma signAndSendTransaction_sends_what_the_wallet_signed_witness :
  let transaction := mkTransaction [memoInstruction "hi"] None None [] in
  let r := run mock_handle
             (signAndSendTransaction transaction test_owner [] true)
             test_world_funded in
  exists request signed w1 w2,
    mock_handle (signTransaction test_owner request) w1 = (Fulfilled signed, w2)
    /\ fully_signed signed
    /\ default (setTimeout 0) (r.2 !! 2%nat)
       = sendRawTransaction (mkRaw signed) true "single"
    /\ r.2 = [ getRecentBlockhash "max"; signTransaction test_owner request;
               default (setTimeout 0) (r.2 !! 2%nat) ].
Proof.
  cbv zeta.
  apply (signAndSendTransaction_sends_what_the_wallet_signed mock_handle
           _ test_owner [] true test_world_funded).
  - vm_compute. do 2 apply list_elem_of_further. apply list_elem_of_here.
  - vm_compute. reflexivity.
Defined.

(** ** Composers that submit one transaction *)

(** X8. [mintMoreTokens], for an amount of 64 bits, is the submission of a
    transaction that consists of one [mintTo] instruction (mint writable,
    destination writable, the wallet's key as the signing mint authority,
    payload tag 7 and the amount), with the mint-authority wallet as fee
    payer and only signer and the preflight check on.  It awaits nothing
    else: the destination is not looked up. *)
Theorem mintMoreTokens_composition (mintAuthority : Wallet)
    (mint destination : PublicKey) (amount : Z) :
  0 <= amount < 2 ^ 64 ->
  mintMoreTokens mintAuthority mint destination amount
  = signAndSendTransaction
      (mkTransaction
         [ mkInstruction
             [ mkAccountMeta mint false true;
               mkAccountMeta destination false true;
               mkAccountMeta (wallet_publicKey mintAuthority) true false ]
             (7 :: le_bytes amount 8) TOKEN_PROGRAM_ID ]
         None None [])
      mintAuthority [] false.
Proof.
  intros Ha. unfold mintMoreTokens. by rewrite mintTo_ok.
Qed.

Lemma mintMoreTokens_composition_witness :
  mintMoreTokens test_owner (publicKey test_mint) (publicKey test_account)
    500000000000
  = signAndSendTransaction
      (mkTransaction
         [ mkInstruction
             [ mkAccountMeta (publicKey test_mint) false true;
               mkAccountMeta (publicKey test_account) false true;
               mkAccountMeta (wallet_publicKey test_owner) true false ]
             (7 :: le_bytes 500000000000 8) TOKEN_PROGRAM_ID ]
         None None [])
      test_owner [] false.
Proof.
  apply mintMoreTokens_composition. lia.
Defined.

(** X9. [burnTokensAndClose], for an amount of 64 bits, is the submission,
    signed by the owner wallet alone, of a transaction with the [burn]
    instruction (account writable, mint writable, owner signing, payload tag
    8 and the amount), followed, exactly when [closeIfEmpty] is set, by a
    [closeAccount] that sends the account's rent to the owner.  The balance
    is not read: the close instruction is added whether or not the burn
    empties the account.  [burnTokens] is [burnTokensAndClose] without the
    close. *)
Theorem burnTokensAndClose_composition (owner : Wallet)
    (tokenAccount mint : PublicKey) (amount : Z) (closeIfEmpty : bool) :
  0 <= amount < 2 ^ 64 ->
  let burnInstruction :=
    mkInstruction
      [ mkAccountMeta tokenAccount false true;
        mkAccountMeta mint false true;
        mkAccountMeta (wallet_publicKey owner) true false ]
      (8 :: le_bytes amount 8) TOKEN_PROGRAM_ID in
  let closeInstruction :=
    mkInstruction
      [ mkAccountMeta tokenAccount false true;
        mkAccountMeta (wallet_publicKey owner) false true;
        mkAccountMeta (wallet_publicKey owner) true false ]
      [9] TOKEN_PROGRAM_ID in
  burnTokensAndClose owner tokenAccount mint amount closeIfEmpty
  = signAndSendTransaction
      (mkTransaction
         (burnInstruction :: if closeIfEmpty then [closeInstruction] else [])
         None None [])
      owner [] false
  /\ burnTokens owner tokenAccount mint amount
     = burnTokensAndClose owner tokenAccount mint amount false.
Proof.
  intros Ha. cbv zeta. unfold burnTokens, burnTokensAndClose.
  rewrite burn_ok by done. by destruct closeIfEmpty.
Qed.

Lemma burnTokensAndClose_composition_witness :
  burnTokens test_owner (publicKey test_account) (publicKey test_mint) 0
  = burnTokensAndClose test_owner (publicKey test_account) (publicKey test_mint)
      0 false.
Proof.
  apply (proj2 (burnTokensAndClose_composition test_owner (publicKey test_account)
                  (publicKey test_mint) 0 false ltac:(lia))).
Defined.

(** X10. [closeTokenAccount] is the submission, signed by the owner wallet
    alone, of one [closeAccount] instruction (payload the single byte 9)
    whose destination and authority are both the owner's key: the rent of
    the closed account can go nowhere else.  The caller's preflight flag is
    the one the transaction is sent with. *)
Theorem closeTokenAccount_composition {W : Type}
    (handle : forall c : Call, W -> Settled (Reply c) * W)
    (owner : Wallet) (sourcePublicKey : PublicKey) (skipPreflight : bool) (w : W) :
  closeTokenAccount owner sourcePublicKey skipPreflight
  = signAndSendTransaction
      (mkTransaction
         [ mkInstruction
             [ mkAccountMeta sourcePublicKey false true;
               mkAccountMeta (wallet_publicKey owner) false true;
               mkAccountMeta (wallet_publicKey owner) true false ]
             [9] TOKEN_PROGRAM_ID ]
         None None [])
      owner [] skipPreflight
  /\ forall c,
       c ∈ (run handle (closeTokenAccount owner sourcePublicKey skipPreflight) w).2 ->
       is_send c = true ->
       exists raw, c = sendRawTransaction raw skipPreflight "single".
Proof.
  assert (Heq : closeTokenAccount owner sourcePublicKey skipPreflight
                = signAndSendTransaction
                    (mkTransaction
                       [ mkInstruction
                           [ mkAccountMeta sourcePublicKey false true;
                             mkAccountMeta (wallet_publicKey owner) false true;
                             mkAccountMeta (wallet_publicKey owner) true false ]
                           [9] TOKEN_PROGRAM_ID ]
                       None None [])
                    owner [] skipPreflight) by reflexivity.
  split; [exact Heq|].
  intros c Hc Hsend. rewrite Heq in Hc.
  destruct (signAndSendTransaction_send_last handle _ _ _ _ _ _ Hc Hsend)
    as (request & signed & w1 & w2 & _ & _ & -> & _).
  by eexists.
Qed.

(** X11. [createAndInitializeTokenAccount] first asks the connection for
    the rent-exempt balance of a token account; if that query is rejected
    the rejection is rethrown and nothing is built or sent.  With the
    answer it submits, with the new account's keypair as the signer besides
    the payer, exactly two instructions: the system program's
    [createAccount] from the payer to the new account, funded with the
    reported rent, sized as a token account and assigned to the token
    program, and then [initializeAccount] of the new account for the mint,
    owned by the payer. *)
Theorem createAndInitializeTokenAccount_composition {data_js : DataJs} {W : Type}
    (handle : forall c : Call, W -> Settled (Reply c) * W)
    (payer : Wallet) (mintPublicKey : PublicKey) (newAccount : Keypair) (w : W) :
  let rent := getMinimumBalanceForRentExemption ACCOUNT_LAYOUT_span in
  let r := run handle
             (createAndInitializeTokenAccount payer mintPublicKey newAccount) w in
  (forall detail w1,
     handle rent w = (Rejected detail, w1) ->
     r = (Err (ExternalError detail), w1, [rent]))
  /\ (forall lamports w1,
        handle rent w = (Fulfilled lamports, w1) ->
        r = after rent
              (run handle
                 (signAndSendTransaction
                    (mkTransaction
                       [ SystemProgram_createAccount (wallet_publicKey payer)
                           (publicKey newAccount) lamports ACCOUNT_LAYOUT_span
                           TOKEN_PROGRAM_ID;
                         mkInstruction
                           [ mkAccountMeta (publicKey newAccount) false true;
                             mkAccountMeta mintPublicKey false false;
                             mkAccountMeta (wallet_publicKey payer) false false;
                             mkAccountMeta SYSVAR_RENT_PUBKEY false false ]
                           [1] TOKEN_PROGRAM_ID ]
                       None None [])
                    payer [newAccount] false) w1)).
Proof.
  cbv zeta. unfold createAndInitializeTokenAccount. cbv zeta.
  rewrite (run_await_bind handle
             (getMinimumBalanceForRentExemption ACCOUNT_LAYOUT_span)).
  split.
  - intros detail w1 ->. reflexivity.
  - intros lamports w1 ->. reflexivity.
Qed.

(** X12. [nativeTransfer], for a lamport amount that is a safe integer, is
    the submission, signed by the wallet alone, of one transfer instruction
    of the system program from the wallet (signer, writable) to the
    destination (writable), whose payload is the instruction index 2 on 4
    bytes and the lamports on 8 bytes, little-endian.  Unlike
    [transferTokens] it looks at no account: a destination that does not
    exist yet is not refused. *)
Theorem nativeTransfer_submission {W : Type}
    (handle : forall c : Call, W -> Settled (Reply c) * W)
    (wallet : Wallet) (destination : PublicKey) (amount : Z) (w : W) :
  0 <= amount < 2 ^ 53 ->
  nativeTransfer wallet destination amount
  = signAndSendTransaction
      (mkTransaction
         [ mkInstruction
             [ mkAccountMeta (wallet_publicKey wallet) true true;
               mkAccountMeta destination false true ]
             ([2; 0; 0; 0] ++ le_bytes amount 8) SystemProgram_programId ]
         None None [])
      wallet [] false
  /\ toBigIntLE (le_bytes amount 8) = amount
  /\ Forall (fun c => forall address, c <> getAccountInfo address)
       (run handle (nativeTransfer wallet destination amount) w).2.
Proof.
  intros Ha. split; [reflexivity|]. split.
  - apply toBigIntLE_le_bytes. cbn. lia.
  - apply signAndSendTransaction_queries_nothing.
Qed.

Lemma nativeTransfer_submission_witness :
  Forall (fun c => forall address, c <> getAccountInfo address)
    (run mock_handle (nativeTransfer test_owner test_recipient 1000000000)
       test_world).2.
Proof.
  apply (nativeTransfer_submission mock_handle test_owner test_recipient
           1000000000 test_world ltac:(lia)).
Defined.

(** ** The other routes of [transferTokens] *)

Section TransferRoutes.

Context {W : Type} (handle : forall c : Call, W -> Settled (Reply c) * W).

(** X13. The direct route: when the destination is an account owned by the
    token program, [transferTokens] returns, after that one query, a
    transaction with [transferChecked] from the source to the destination
    itself, followed by the memo instruction when a non-empty memo is
    given.  Neither the balance of the destination nor the override flag
    plays a part. *)
Theorem transferTokens_direct owner source destination amount memo mint decimals
    overrideDestinationCheck programId (account : AccountInfo) (w w1 : W) :
  let pid := default TOKEN_PROGRAM_ID programId in
  0 <= amount < 2 ^ 64 -> 0 <= decimals <= 255 ->
  handle (getAccountInfo destination) w = (Fulfilled (Some account), w1) ->
  equals (owner_of account) pid = true ->
  run handle
    (transferTokens owner source destination amount memo mint decimals
       overrideDestinationCheck programId) w
  = (Ok (mkTransaction
           (mkInstruction
              [ mkAccountMeta source false true;
                mkAccountMeta mint false false;
                mkAccountMeta destination false true;
                mkAccountMeta (wallet_publicKey owner) true false ]
              (12 :: le_bytes amount 8 ++ [decimals]) pid
              :: if truthy memo then [memoInstruction (default "" memo)] else [])
           None None []),
     w1, [getAccountInfo destination]).
Proof.
  intros pid Ha Hd Hquery Hown.
  rewrite transferTokens_run. fold pid. rewrite Hquery.
  cbn [owned_by]. rewrite Hown.
  unfold createTransferBetweenSplTokenAccountsInstruction.
  rewrite transferChecked_ok by done. cbn [mbind Result_bind].
  by destruct (truthy memo).
Qed.

(** X14. The route through an existing associated account: when the
    destination is not owned by the token program, is funded or the
    override flag is set, and the account at its associated address is owned
    by the token program, [transferTokens] returns, after the two queries, a
    transaction with [transferChecked] to the associated address (and the
    memo, if any): no account is created. *)
Theorem transferTokens_to_existing_associated owner source destination amount memo
    mint decimals overrideDestinationCheck programId
    (info : option AccountInfo) (associated : PublicKey) (held : AccountInfo)
    (w w1 w2 : W) :
  let pid := default TOKEN_PROGRAM_ID programId in
  0 <= amount < 2 ^ 64 -> 0 <= decimals <= 255 ->
  handle (getAccountInfo destination) w = (Fulfilled info, w1) ->
  owned_by info pid = false ->
  (unfunded info = false \/ overrideDestinationCheck = true) ->
  findAssociatedTokenAddress destination mint pid = Ok associated ->
  handle (getAccountInfo associated) w1 = (Fulfilled (Some held), w2) ->
  equals (owner_of held) pid = true ->
  run handle
    (transferTokens owner source destination amount memo mint decimals
       overrideDestinationCheck programId) w
  = (Ok (mkTransaction
           (mkInstruction
              [ mkAccountMeta source false true;
                mkAccountMeta mint false false;
                mkAccountMeta associated false true;
                mkAccountMeta (wallet_publicKey owner) true false ]
              (12 :: le_bytes amount 8 ++ [decimals]) pid
              :: if truthy memo then [memoInstruction (default "" memo)] else [])
           None None []),
     w2, [getAccountInfo destination; getAccountInfo associated]).
Proof.
  intros pid Ha Hd Hquery Hother Hfunded Hderive Hquery2 Hown.
  rewrite transferTokens_run. fold pid. rewrite Hquery, Hother.
  replace (unfunded info && negb overrideDestinationCheck) with false.
  2: { destruct Hfunded as [-> | ->]; [done|]. by rewrite andb_false_r. }
  rewrite Hderive, Hquery2. cbn [owned_by]. rewrite Hown.
  unfold createTransferBetweenSplTokenAccountsInstruction.
  rewrite transferChecked_ok by done. cbn [mbind Result_bind].
  by destruct (truthy memo).
Qed.

(** X15. The override flag lets a transfer go to an address that has no
    ledger account at all: with the flag set and nothing at the destination
    nor at its associated address, [transferTokens] returns the transaction
    that creates the associated account, paid by the owner, and transfers
    to it. *)
Theorem transferTokens_override_missing_destination owner source destination amount
    memo mint decimals programId (associated : PublicKey) (w w1 w2 : W) :
  let pid := default TOKEN_PROGRAM_ID programId in
  0 <= amount < 2 ^ 64 -> 0 <= decimals <= 255 ->
  handle (getAccountInfo destination) w = (Fulfilled None, w1) ->
  findAssociatedTokenAddress destination mint pid = Ok associated ->
  handle (getAccountInfo associated) w1 = (Fulfilled None, w2) ->
  run handle
    (transferTokens owner source destination amount memo mint decimals true
       programId) w
  = (Ok (mkTransaction
           ([ mkInstruction
                [ mkAccountMeta (wallet_publicKey owner) true true;
                  mkAccountMeta associated false true;
                  mkAccountMeta destination false false;
                  mkAccountMeta mint false false;
                  mkAccountMeta SystemProgram_programId false false;
                  mkAccountMeta pid false false;
                  mkAccountMeta SYSVAR_RENT_PUBKEY false false ]
                [] ASSOCIATED_TOKEN_PROGRAM_ID;
              mkInstruction
                [ mkAccountMeta source false true;
                  mkAccountMeta mint false false;
                  mkAccountMeta associated false true;
                  mkAccountMeta (wallet_publicKey owner) true false ]
                (12 :: le_bytes amount 8 ++ [decimals]) pid ]
              ++ if truthy memo then [memoInstruction (default "" memo)] else [])
           None None []),
     w2, [getAccountInfo destination; getAccountInfo associated]).
Proof.
  intros pid Ha Hd Hquery Hderive Hquery2.
  rewrite transferTokens_run. fold pid. rewrite Hquery.
  cbn [owned_by unfunded negb andb].
  rewrite Hderive, Hquery2.
  unfold createAssociatedTokenAccountIx. rewrite Hderive.
  cbn [mbind Result_bind].
  unfold createTransferBetweenSplTokenAccountsInstruction.
  rewrite transferChecked_ok by done. cbn [mbind Result_bind].
  by destruct (truthy memo).
Qed.

(** X16. A rejected account query ends [transferTokens] with that
    rejection and without a transaction: after the one call when it is the
    query of the destination, after the two calls when it is the query of
    the associated address. *)
Theorem transferTokens_query_rejected owner source destination amount memo mint
    decimals overrideDestinationCheck programId (w : W) :
  let pid := default TOKEN_PROGRAM_ID programId in
  let r := run handle
             (transferTokens owner source destination amount memo mint decimals
                overrideDestinationCheck programId) w in
  (forall detail w1,
     handle (getAccountInfo destination) w = (Rejected detail, w1) ->
     r = (Err (ExternalError detail), w1, [getAccountInfo destination]))
  /\ (forall info associated detail w1 w2,
        handle (getAccountInfo destination) w = (Fulfilled info, w1) ->
        owned_by info pid = false ->
        unfunded info && negb overrideDestinationCheck = false ->
        findAssociatedTokenAddress destination mint pid = Ok associated ->
        handle (getAccountInfo associated) w1 = (Rejected detail, w2) ->
        r = (Err (ExternalError detail), w2,
             [getAccountInfo destination; getAccountInfo associated])).
Proof.
  cbv zeta. rewrite transferTokens_run. split.
  - by intros detail w1 ->.
  - intros info associated detail w1 w2 -> -> -> -> ->. reflexivity.
Qed.

End TransferRoutes.

Lemma transferTokens_direct_witness :
  run mock_handle
    (transferTokens test_owner (publicKey test_account) test_recipient 250 (Some "")
       (publicKey test_mint) 9 false None) test_world_token_recipient
  = (Ok (mkTransaction
           (mkInstruction
              [ mkAccountMeta (publicKey test_account) false true;
                mkAccountMeta (publicKey test_mint) false false;
                mkAccountMeta test_recipient false true;
                mkAccountMeta (wallet_publicKey test_owner) true false ]
              (12 :: le_bytes 250 8 ++ [9]) (default TOKEN_PROGRAM_ID None)
              :: if truthy (Some "") then [memoInstruction (default "" (Some ""))]
                 else [])
           None None []),
     test_world_token_recipient, [getAccountInfo test_recipient]).
Proof.
  apply (transferTokens_direct mock_handle _ _ _ _ _ _ _ _ _
           (mkAccountInfo [] false TOKEN_PROGRAM_ID 0)
           test_world_token_recipient test_world_token_recipient).
  - lia.
  - lia.
  - reflexivity.
  - reflexivity.
Defined.

Lemma transferTokens_to_existing_associated_witness :
  run mock_handle
    (transferTokens test_owner (publicKey test_account) test_recipient 250 None
       (publicKey test_mint) 9 false None) test_world_associated
  = (Ok (mkTransaction
           (mkInstruction
              [ mkAccountMeta (publicKey test_account) false true;
                mkAccountMeta (publicKey test_mint) false false;
                mkAccountMeta test_associated false true;
                mkAccountMeta (wallet_publicKey test_owner) true false ]
              (12 :: le_bytes 250 8 ++ [9]) (default TOKEN_PROGRAM_ID None)
              :: if truthy None then [memoInstruction (default "" None)] else [])
           None None []),
     test_world_associated,
     [getAccountInfo test_recipient; getAccountInfo test_associated]).
Proof.
  apply (transferTokens_to_existing_associated mock_handle _ _ _ _ _ _ _ _ _
           (Some (mkAccountInfo [] false SystemProgram_programId 1000000))
           test_associated
           (mkAccountInfo (replicate 165 0) false TOKEN_PROGRAM_ID 2039280)
           test_world_associated test_world_associated test_world_associated).
  - lia.
  - lia.
  - vm_compute; reflexivity.
  - vm_compute; reflexivity.
  - left; vm_compute; reflexivity.
  - vm_compute; reflexivity.
  - vm_compute; reflexivity.
  - vm_compute; reflexivity.
Defined.

Lemma transferTokens_override_missing_destination_witness :
  run mock_handle
    (transferTokens test_owner (publicKey test_account) test_recipient 250 None
       (publicKey test_mint) 9 true None) test_world
  = (Ok (mkTransaction
           ([ mkInstruction
                [ mkAccountMeta (wallet_publicKey test_owner) true true;
                  mkAccountMeta test_associated false true;
                  mkAccountMeta test_recipient false false;
                  mkAccountMeta (publicKey test_mint) false false;
                  mkAccountMeta SystemProgram_programId false false;
                  mkAccountMeta (default TOKEN_PROGRAM_ID None) false false;
                  mkAccountMeta SYSVAR_RENT_PUBKEY false false ]
                [] ASSOCIATED_TOKEN_PROGRAM_ID;
              mkInstruction
                [ mkAccountMeta (publicKey test_account) false true;
                  mkAccountMeta (publicKey test_mint) false false;
                  mkAccountMeta test_associated false true;
                  mkAccountMeta (wallet_publicKey test_owner) true false ]
                (12 :: le_bytes 250 8 ++ [9]) (default TOKEN_PROGRAM_ID None) ]
              ++ if truthy None then [memoInstruction (default "" None)] else [])
           None None []),
     test_world, [getAccountInfo test_recipient; getAccountInfo test_associated]).
Proof.
  apply (transferTokens_override_missing_destination mock_handle
           _ _ _ _ _ _ _ _ test_associated test_world test_world test_world).
  - lia.
  - lia.
  - vm_compute; reflexivity.
  - vm_compute; reflexivity.
  - vm_compute; reflexivity.
Defined.

(** X17. An empty memo is no memo: [transferTokens] with the empty string
    as memo is the same operation as without a memo, on every route. *)
Theorem transferTokens_empty_memo owner source destination amount mint decimals
    overrideDestinationCheck programId :
  transferTokens owner source destination amount (Some "") mint decimals
    overrideDestinationCheck programId
  = transferTokens owner source destination amount None mint decimals
      overrideDestinationCheck programId.
Proof.
  unfold transferTokens, transferBetweenSplTokenAccounts,
    createAndTransferToAccount, createTransferBetweenSplTokenAccountsInstruction.
  cbn [truthy negb String.eqb].
  reflexivity.
Qed.

(** ** Program addresses *)

Lemma sha256_bytes msg : byte_sequence (SHA256.sha256 msg).
Proof.
  unfold SHA256.sha256, SHA256.word_bytes, byte_sequence.
  repeat (apply Forall_app; split);
    apply byte_sequence_reverse, le_bytes_bytes.
Qed.

Lemma sha256_length msg : length (SHA256.sha256 msg) = 32%nat.
Proof.
  unfold SHA256.sha256, SHA256.word_bytes.
  rewrite !length_app, !length_reverse, !le_bytes_length. reflexivity.
Qed.

(** [findAssociatedTokenAddress] is the first component of the program
    address. *)
Lemma findAssociatedTokenAddress_unfold walletAddress tokenMintAddress programId :
  findAssociatedTokenAddress walletAddress tokenMintAddress programId
  = fst <$> findProgramAddressSync
              [ toBuffer walletAddress; toBuffer programId;
                toBuffer tokenMintAddress ] ASSOCIATED_TOKEN_PROGRAM_ID.
Proof. unfold findAssociatedTokenAddress. reflexivity. Qed.

(** What a successful [createProgramAddressSync] returns: the key whose
    bytes are the hash, which is not a point of the curve. *)
Lemma createProgramAddressSync_ok seeds programId address :
  createProgramAddressSync seeds programId = Ok address ->
  let digest :=
    SHA256.sha256 (concat seeds ++ toBuffer programId ++ utf8 "ProgramDerivedAddress") in
  toBuffer address = digest /\ Ed25519.isOnCurve digest = false.
Proof.
  unfold createProgramAddressSync. cbv zeta.
  case_decide; [|done].
  destruct (Ed25519.isOnCurve _) eqn:Hcurve; [done|].
  intros Hkey. split; [|done].
  by apply toBuffer_PublicKey_of_bytes;
    [apply sha256_bytes|apply sha256_length|].
Qed.

(** How [createProgramAddressSync] fails: with the type error when a seed
    is too long, and otherwise only when the hash is a point of the
    curve. *)
Lemma createProgramAddressSync_err seeds programId e :
  createProgramAddressSync seeds programId = Err e ->
  (e = TypeError "Max seed length exceeded"
   /\ ~ Forall (fun seed => (length seed <= MAX_SEED_LENGTH)%nat) seeds)
  \/ (e = Error "Invalid seeds, address must fall off the curve"
      /\ Forall (fun seed => (length seed <= MAX_SEED_LENGTH)%nat) seeds
      /\ Ed25519.isOnCurve
           (SHA256.sha256
              (concat seeds ++ toBuffer programId ++ utf8 "ProgramDerivedAddress"))
         = true).
Proof.
  unfold createProgramAddressSync.
  case_decide as Hseeds.
  - destruct (Ed25519.isOnCurve _) eqn:Hcurve.
    + intros [= <-]. by right.
    + destruct (PublicKey_of_bytes_ok (SHA256.sha256
                  (concat seeds ++ toBuffer programId
                     ++ utf8 "ProgramDerivedAddress")))
        as (k & -> & _); [apply sha256_bytes|apply sha256_length|done].
  - intros [= <-]. by left.
Qed.

Lemma findProgramAddressSync_from_ok seeds programId address bump : forall nonce,
  findProgramAddressSync_from seeds programId nonce = Ok (address, bump) ->
  1 <= bump <= Z.of_nat nonce
  /\ createProgramAddressSync (seeds ++ [[bump]]) programId = Ok address
  /\ forall higher,
       bump < higher <= Z.of_nat nonce ->
       Ed25519.isOnCurve (SHA256.sha256 (address_preimage seeds higher programId))
       = true.
Proof.
  induction nonce as [|n IH]; [done|].
  cbn [findProgramAddressSync_from].
  destruct (createProgramAddressSync (seeds ++ [[Z.of_nat (S n)]]) programId)
    as [found|e] eqn:Hcreate.
  - intros [= <- <-]. split; [lia|]. split; [done|]. intros higher Hhigher. lia.
  - apply createProgramAddressSync_err in Hcreate
      as [[-> _]|(-> & _ & Hcurve)]; [done|].
    intros Hrest. destruct (IH Hrest) as (Hbump & Hfound & Hhigher).
    split; [lia|]. split; [done|].
    intros higher Hrange.
    destruct (decide (higher = Z.of_nat (S n))) as [->|Hne]; [exact Hcurve|].
    apply Hhigher. lia.
Qed.

(** [findProgramAddressSync] returns the address of the highest bump seed,
    from 255 down, whose hash is not a point of the ed25519 curve. *)
Lemma findProgramAddressSync_highest_bump seeds programId address bump :
  findProgramAddressSync seeds programId = Ok (address, bump) ->
  1 <= bump <= 255
  /\ createProgramAddressSync (seeds ++ [[bump]]) programId = Ok address
  /\ toBuffer address = SHA256.sha256 (address_preimage seeds bump programId)
  /\ Ed25519.isOnCurve (toBuffer address) = false
  /\ forall higher,
       bump < higher <= 255 ->
       Ed25519.isOnCurve (SHA256.sha256 (address_preimage seeds higher programId))
       = true.
Proof.
  unfold findProgramAddressSync. intros Hfind.
  apply findProgramAddressSync_from_ok in Hfind as (Hbump & Hcreate & Hhigher).
  change (Z.of_nat 255) with 255 in Hbump, Hhigher.
  split; [exact Hbump|]. split; [exact Hcreate|].
  apply createProgramAddressSync_ok in Hcreate as [Hbytes Hcurve].
  split; [exact Hbytes|]. split; [|exact Hhigher].
  rewrite Hbytes. exact Hcurve.
Qed.

Example findProgramAddressSync_bump_254 :
  let seeds := [ toBuffer MEMO_PROGRAM_ID; toBuffer TOKEN_PROGRAM_ID;
                 toBuffer WRAPPED_DOMI_MINT ] in
  let address := PublicKey_new "8d2b474UYAg81VxbEzAw5cx51ZyDxw6tZzLiu6vb71QW" in
  1 <= 254 <= 255
  /\ createProgramAddressSync (seeds ++ [[254]]) ASSOCIATED_TOKEN_PROGRAM_ID
     = Ok address
  /\ toBuffer address
     = SHA256.sha256 (address_preimage seeds 254 ASSOCIATED_TOKEN_PROGRAM_ID)
  /\ Ed25519.isOnCurve (toBuffer address) = false
  /\ forall higher,
       254 < higher <= 255 ->
       Ed25519.isOnCurve
         (SHA256.sha256 (address_preimage seeds higher ASSOCIATED_TOKEN_PROGRAM_ID))
       = true.
Proof.
  cbv zeta.
  apply (findProgramAddressSync_highest_bump
           [ toBuffer MEMO_PROGRAM_ID; toBuffer TOKEN_PROGRAM_ID;
             toBuffer WRAPPED_DOMI_MINT ]
           ASSOCIATED_TOKEN_PROGRAM_ID
           (PublicKey_new "8d2b474UYAg81VxbEzAw5cx51ZyDxw6tZzLiu6vb71QW") 254).
  vm_compute. reflexivity.
Qed.

Lemma findProgramAddressSync_from_err seeds programId e : forall nonce,
  Forall (fun seed => (length seed <= MAX_SEED_LENGTH)%nat) seeds ->
  findProgramAddressSync_from seeds programId nonce = Err e ->
  e = Error "Unable to find a viable program address nonce".
Proof.
  intros nonce Hseeds. induction nonce as [|n IH]; [by intros [= <-]|].
  cbn [findProgramAddressSync_from].
  destruct (createProgramAddressSync (seeds ++ [[Z.of_nat (S n)]]) programId)
    as [found|e'] eqn:Hcreate; [done|].
  apply createProgramAddressSync_err in Hcreate as [[_ Hlong]|(-> & _)]; [|exact IH].
  destruct Hlong. apply Forall_app. split; [done|].
  constructor; [|constructor]. cbn [length]. unfold MAX_SEED_LENGTH. lia.
Qed.

(** X18. The associated token address is a program address: when
    [findAssociatedTokenAddress] returns an address, its 32 bytes are the
    SHA-256 hash of the wallet, the token program, the mint, a bump seed, the
    associated-token program and the marker 'ProgramDerivedAddress', and
    they are not a point of the ed25519 curve; the bump lies in [1, 255] and
    is the highest one with such a hash: for every higher bump the hash is
    on the curve.  When the derivation fails, it is with 'Unable to find a
    viable program address nonce': the three seeds are keys, never too
    long. *)
Theorem findAssociatedTokenAddress_program_address
    (walletAddress tokenMintAddress programId : PublicKey) :
  let preimage (bump : Z) :=
    toBuffer walletAddress ++ toBuffer programId ++ toBuffer tokenMintAddress
      ++ [bump] ++ toBuffer ASSOCIATED_TOKEN_PROGRAM_ID
      ++ utf8 "ProgramDerivedAddress" in
  (forall address,
     findAssociatedTokenAddress walletAddress tokenMintAddress programId
     = Ok address ->
     Ed25519.isOnCurve (toBuffer address) = false
     /\ exists bump,
          1 <= bump <= 255
          /\ toBuffer address = SHA256.sha256 (preimage bump)
          /\ forall higher,
               bump < higher <= 255 ->
               Ed25519.isOnCurve (SHA256.sha256 (preimage higher)) = true)
  /\ (forall e,
        findAssociatedTokenAddress walletAddress tokenMintAddress programId = Err e ->
        e = Error "Unable to find a viable program address nonce").
Proof.
  cbv zeta.
  assert (Hpreimage : forall bump,
            address_preimage
              [ toBuffer walletAddress; toBuffer programId;
                toBuffer tokenMintAddress ] bump ASSOCIATED_TOKEN_PROGRAM_ID
            = toBuffer walletAddress ++ toBuffer programId
                ++ toBuffer tokenMintAddress ++ [bump]
                ++ toBuffer ASSOCIATED_TOKEN_PROGRAM_ID
                ++ utf8 "ProgramDerivedAddress").
  { intros bump. unfold address_preimage. cbn [concat app].
    rewrite <- !(assoc_L (++)). reflexivity. }
  split.
  - intros address. rewrite findAssociatedTokenAddress_unfold.
    destruct (findProgramAddressSync _ _) as [[found bump]|e] eqn:Hfind;
      [|discriminate].
    intros [= <-].
    apply findProgramAddressSync_highest_bump in Hfind
      as (Hbump & _ & Hbytes & Hcurve & Hhigher).
    split; [exact Hcurve|].
    exists bump. split; [exact Hbump|].
    rewrite <- Hpreimage. split; [exact Hbytes|].
    intros higher Hrange. rewrite <- Hpreimage. by apply Hhigher.
  - intros e. rewrite findAssociatedTokenAddress_unfold.
    unfold findProgramAddressSync.
    destruct (findProgramAddressSync_from _ _ _) as [[found bump]|e'] eqn:Hfind;
      [discriminate|].
    intros [= <-].
    apply findProgramAddressSync_from_err in Hfind; [exact Hfind|].
    repeat constructor; rewrite toBuffer_length; unfold MAX_SEED_LENGTH; lia.
Qed.

(** X19. The instruction [createAssociatedTokenAccountIx] builds, when the
    address derivation succeeds: it is addressed to the associated-token
    program, carries no data, and lists seven accounts in this order: the
    funding address (signer, writable), the associated address (writable),
    the wallet, the mint, the system program, the token program it was
    given and the rent sysvar.  The address returned with it is the second
    account, the associated token address of the wallet for the mint; and a
    failing derivation is the only way it fails. *)
Theorem createAssociatedTokenAccountIx_accounts
    (fundingAddress walletAddress dplTokenMintAddress programId : PublicKey) :
  (forall associated,
     findAssociatedTokenAddress walletAddress dplTokenMintAddress programId
     = Ok associated ->
     createAssociatedTokenAccountIx fundingAddress walletAddress
       dplTokenMintAddress programId
     = Ok (mkInstruction
             [ mkAccountMeta fundingAddress true true;
               mkAccountMeta associated false true;
               mkAccountMeta walletAddress false false;
               mkAccountMeta dplTokenMintAddress false false;
               mkAccountMeta SystemProgram_programId false false;
               mkAccountMeta programId false false;
               mkAccountMeta SYSVAR_RENT_PUBKEY false false ]
             [] ASSOCIATED_TOKEN_PROGRAM_ID,
           associated))
  /\ (forall e,
        createAssociatedTokenAccountIx fundingAddress walletAddress
          dplTokenMintAddress programId = Err e ->
        findAssociatedTokenAddress walletAddress dplTokenMintAddress programId
        = Err e).
Proof.
  unfold createAssociatedTokenAccountIx. split.
  - by intros associated ->.
  - intros e.
    destruct (findAssociatedTokenAddress _ _ _) as [associated|e'];
      cbn [mbind Result_bind]; [discriminate|by intros [= ->]].
Qed.

Lemma findAssociatedTokenAddress_program_address_witness :
  let preimage (bump : Z) :=
    toBuffer test_recipient ++ toBuffer TOKEN_PROGRAM_ID
      ++ toBuffer (publicKey test_mint) ++ [bump]
      ++ toBuffer ASSOCIATED_TOKEN_PROGRAM_ID ++ utf8 "ProgramDerivedAddress" in
  Ed25519.isOnCurve (toBuffer test_associated) = false
  /\ exists bump,
       1 <= bump <= 255
       /\ toBuffer test_associated = SHA256.sha256 (preimage bump)
       /\ forall higher,
            bump < higher <= 255 ->
            Ed25519.isOnCurve (SHA256.sha256 (preimage higher)) = true.
Proof.
  cbv zeta.
  apply (proj1 (findAssociatedTokenAddress_program_address test_recipient
                  (publicKey test_mint) TOKEN_PROGRAM_ID)).
  vm_compute. reflexivity.
Defined.

Lemma createAssociatedTokenAccountIx_accounts_witness :
  createAssociatedTokenAccountIx (wallet_publicKey test_owner) test_recipient
    (publicKey test_mint) TOKEN_PROGRAM_ID
  = Ok (mkInstruction
          [ mkAccountMeta (wallet_publicKey test_owner) true true;
            mkAccountMeta test_associated false true;
            mkAccountMeta test_recipient false false;
            mkAccountMeta (publicKey test_mint) false false;
            mkAccountMeta SystemProgram_programId false false;
            mkAccountMeta TOKEN_PROGRAM_ID false false;
            mkAccountMeta SYSVAR_RENT_PUBKEY false false ]
          [] ASSOCIATED_TOKEN_PROGRAM_ID,
        test_associated).
Proof.
  apply (proj1 (createAssociatedTokenAccountIx_accounts (wallet_publicKey test_owner)
                  test_recipient (publicKey test_mint) TOKEN_PROGRAM_ID)).
  vm_compute. reflexivity.
Defined.

(** ** Confirmation: every failed poll is retried *)

Section ConfirmationFailures.

Context {W : Type} (handle : forall c : Call, W -> Settled (Reply c) * W).
Variable txid : string.

(** A poll that fails, with attempts left, is followed by the pause and the
    next attempt, whether the call was rejected or the transaction failed on
    chain. *)
Lemma confirmTransaction_loop_failures (failures : list (Settled SignatureResult)) :
  forall (n : nat) (w : W),
  Forall (fun outcome => is_Some (poll_failure outcome)) failures ->
  polls handle txid failures w ->
  run handle (confirmTransaction_loop txid (length failures + S n)) w
  = preceded_by (poll_calls txid (length failures))
      (run handle (confirmTransaction_loop txid (S n))
         (after_polls handle txid (length failures) w)).
Proof.
  induction failures as [|outcome failures IH]; intros n w Hfail Hpolls.
  - unfold preceded_by. cbn [length Nat.add poll_calls after_polls app].
    by destruct (run handle _ w) as [[res w'] calls].
  - apply Forall_cons in Hfail as [[e He] Hfail].
    cbn [polls] in Hpolls. destruct Hpolls as [Hfirst Hrest].
    destruct (handle (rpc_confirmTransaction txid "confirmed") w) as [outcome' w1]
      eqn:Hpoll.
    cbn [fst snd] in Hfirst, Hrest. subst outcome'.
    cbn [length Nat.add]. rewrite confirmTransaction_loop_step. cbv zeta.
    rewrite Hpoll, Nat.add_succ_r, <- (Nat.add_succ_r (length failures) n).
    assert (Hnext : after (rpc_confirmTransaction txid "confirmed")
                      (after (setTimeout 2000)
                         (run handle
                            (confirmTransaction_loop txid (length failures + S n))
                            (handle (setTimeout 2000) w1).2))
                    = preceded_by (poll_calls txid (length (outcome :: failures)))
                        (run handle (confirmTransaction_loop txid (S n))
                           (after_polls handle txid (length (outcome :: failures))
                              w))).
    { rewrite (IH n _ Hfail Hrest).
      cbn [length poll_calls after_polls]. rewrite Hpoll. reflexivity. }
    destruct outcome as [result|detail]; cbn [poll_failure] in He.
    + destruct (ToBoolean (err result)); [exact Hnext|discriminate He].
    + exact Hnext.
Qed.

(** X20. [confirmTransaction] retries every failed poll, not only a
    rejected one: a poll whose result carries a truthy [err] is followed,
    like a time-out, by the two-second pause and another poll while attempts
    are left.  So failed polls followed, within the maximum, by a poll whose
    [err] is falsy give that result; and when the last attempt allowed fails
    too, the error thrown is the one of that last poll alone: the rejection
    of the call, or 'Transaction failed: ' with the JSON text of its [err].
    With a maximum of zero attempts nothing is polled and the operation
    returns undefined as if nothing had failed. *)
Theorem confirmTransaction_retries_every_failure
    (failures : list (Settled SignatureResult)) (w : W) :
  Forall (fun outcome => is_Some (poll_failure outcome)) failures ->
  let poll := rpc_confirmTransaction txid "confirmed" in
  let final := handle poll (after_polls handle txid (length failures) w) in
  (forall (maxRetries : nat) (result : SignatureResult),
     (length failures + 1 <= maxRetries)%nat ->
     ToBoolean (err result) = false ->
     polls handle txid (failures ++ [Fulfilled result]) w ->
     run handle (confirmTransaction txid maxRetries) w
     = (Ok (Some result), final.2, poll_calls txid (length failures) ++ [poll]))
  /\ (forall (last : Settled SignatureResult) (e : error),
        poll_failure last = Some e ->
        safe_outcome last = true ->
        polls handle txid (failures ++ [last]) w ->
        run handle (confirmTransaction txid (length failures + 1)) w
        = (Err e, final.2, poll_calls txid (length failures) ++ [poll]))
  /\ run handle (confirmTransaction txid 0) w = (Ok None, w, []).
Proof.
  intros Hfail poll final. unfold confirmTransaction.
  split; [|split; [|reflexivity]].
  - intros maxRetries result Hmax Hok Hpolls.
    apply polls_app in Hpolls as [Hfailed Hfinal].
    replace maxRetries with (length failures + S (maxRetries - length failures - 1))%nat
      by lia.
    rewrite confirmTransaction_loop_failures by done.
    rewrite confirmTransaction_loop_step. cbv zeta.
    cbn [polls] in Hfinal. destruct Hfinal as [Hfinal _].
    fold poll in Hfinal |- *. fold final in Hfinal |- *.
    destruct final as [outcome w1]. cbn [fst] in Hfinal. subst outcome.
    rewrite Hok. reflexivity.
  - intros last e He _ Hpolls.
    apply polls_app in Hpolls as [Hfailed Hfinal].
    rewrite confirmTransaction_loop_failures by done.
    rewrite confirmTransaction_loop_step. cbv zeta.
    cbn [polls] in Hfinal. destruct Hfinal as [Hfinal _].
    fold poll in Hfinal |- *. fold final in Hfinal |- *.
    destruct final as [outcome w1]. cbn [fst] in Hfinal. subst outcome.
    destruct last as [result|detail]; cbn [poll_failure] in He.
    + destruct (ToBoolean (err result)); [|done].
      by injection He as <-.
    + by injection He as <-.
Qed.

End ConfirmationFailures.

Lemma confirmTransaction_retries_every_failure_witness :
  run scripted_handle (confirmTransaction "txid" 3)
    [ Fulfilled (mkSignatureResult (JSON_string "InstructionError"));
      Rejected "timeout";
      Fulfilled (mkSignatureResult (JSON_string "AccountInUse")) ]
  = (Err (Error ("Transaction failed: "
                   ++ String "034" "AccountInUse" ++ String "034" "")), [],
     poll_calls "txid" 2 ++ [rpc_confirmTransaction "txid" "confirmed"]).
Proof.
  apply (proj1 (proj2 (confirmTransaction_retries_every_failure scripted_handle "txid"
                  [ Fulfilled (mkSignatureResult (JSON_string "InstructionError"));
                    Rejected "timeout" ]
                  [ Fulfilled (mkSignatureResult (JSON_string "InstructionError"));
                    Rejected "timeout";
                    Fulfilled (mkSignatureResult (JSON_string "AccountInUse")) ]
                  ltac:(repeat constructor; by eexists)))
           (Fulfilled (mkSignatureResult (JSON_string "AccountInUse")))
           (Error ("Transaction failed: "
                     ++ String "034" "AccountInUse" ++ String "034" ""))).
  - reflexivity.
  - reflexivity.
  - cbn. tauto.
Defined.

(** ** Balance queries *)

Lemma associated_token_program_id :
  PublicKey_of_base58 "Dt8fRCpjeV6JDemhPmtcTKijgKdPxXHn9Wo9cXY5agtG"
  = Ok ASSOCIATED_TOKEN_PROGRAM_ID.
Proof. vm_compute. reflexivity. Qed.

(** The derivation under the program id that balance.js spells out is the
    derivation under the constant of instructions.js. *)
Lemma derive_under_associated_program (seeds : list Buffer) :
  (programId ← PublicKey_of_base58 "Dt8fRCpjeV6JDemhPmtcTKijgKdPxXHn9Wo9cXY5agtG";
   fst <$> findProgramAddressSync seeds programId)
  = fst <$> findProgramAddressSync seeds ASSOCIATED_TOKEN_PROGRAM_ID.
Proof. rewrite associated_token_program_id. reflexivity. Qed.

(** The address [getAssociatedTokenBalance] derives is the associated token
    address of transfer.js under the token program. *)
Lemma getAssociatedTokenBalance_address walletPublicKey mintPublicKey :
  (programId ← PublicKey_of_base58 "Dt8fRCpjeV6JDemhPmtcTKijgKdPxXHn9Wo9cXY5agtG";
   fst <$> findProgramAddressSync
             [ toBuffer walletPublicKey; toBuffer TOKEN_PROGRAM_ID;
               toBuffer mintPublicKey ] programId)
  = findAssociatedTokenAddress walletPublicKey mintPublicKey TOKEN_PROGRAM_ID.
Proof.
  rewrite derive_under_associated_program. symmetry.
  apply findAssociatedTokenAddress_unfold.
Qed.

Section BalanceQueries.

Context {data_js : DataJs} {mint_data_js : MintDataJs} {js_number : JsNumber}.
Context {W : Type} (handle : forall c : Call, W -> Settled (Reply c) * W).

(** X21. [getTokenAccountBalance], once the query of the token account is
    answered.  Without an account it throws 'Token account not found' after
    that one call.  With one, it queries the mint the account's data names;
    if there is no account at the mint, reading its data throws a type
    error (the case is not guarded); otherwise it returns the amount of the
    token account, the decimals of that mint, their quotient as the UI
    amount, and the mint, after exactly the two queries. *)
Theorem getTokenAccountBalance_outcomes (tokenAccountPublicKey : PublicKey)
    (info : option AccountInfo) (w w1 : W) :
  handle (getAccountInfo tokenAccountPublicKey) w = (Fulfilled info, w1) ->
  let r := run handle (getTokenAccountBalance tokenAccountPublicKey) w in
  (info = None ->
   r = (Err (Error "Token account not found"), w1,
        [getAccountInfo tokenAccountPublicKey]))
  /\ (forall account tokenData mintInfo w2,
        info = Some account ->
        parseTokenAccountData (account_data account) = Ok tokenData ->
        handle (getAccountInfo (state_mint tokenData)) w1 = (Fulfilled mintInfo, w2) ->
        let calls := [ getAccountInfo tokenAccountPublicKey;
                       getAccountInfo (state_mint tokenData) ] in
        (mintInfo = None -> exists msg, r = (Err (TypeError msg), w2, calls))
        /\ (forall mintAccount mintData,
              mintInfo = Some mintAccount ->
              parseMintData (account_data mintAccount) = Ok mintData ->
              r = (Ok (TokenAccountBalance.make (state_amount tokenData)
                         (state_decimals mintData)
                         (uiAmount_of (state_amount tokenData)
                            (state_decimals mintData))
                         (state_mint tokenData)),
                   w2, calls))).
Proof.
  intros Hquery. cbv zeta. unfold getTokenAccountBalance.
  rewrite (run_await_bind handle (getAccountInfo tokenAccountPublicKey)), Hquery.
  split; [by intros ->|].
  intros account tokenData mintInfo w2 -> Hparse Hmint.
  rewrite Hparse. cbn [lift mbind Prog_mbind Prog_bind].
  change (Prog_bind ?f (await ?c)) with (await c ≫= f).
  rewrite (run_await_bind handle (getAccountInfo (state_mint tokenData))), Hmint.
  split.
  - intros ->. eexists. reflexivity.
  - intros mintAccount mintData -> Hmintdata.
    cbn [data_of mbind Result_bind]. rewrite Hmintdata. reflexivity.
Qed.

(** X22. [getAssociatedTokenBalance] looks at the associated token address
    of the wallet for the mint under the token program, the address
    [findAssociatedTokenAddress] of transfer.js gives.  If no account is
    there it returns null after that one query and nothing is thrown.
    Otherwise it queries the mint it was given; if there is no account at
    the mint it throws a type error, and else it returns the associated
    address, the amount it holds and the decimals of the mint. *)
Theorem getAssociatedTokenBalance_outcomes (walletPublicKey mintPublicKey : PublicKey)
    (associated : PublicKey) (info : option AccountInfo) (w w1 : W) :
  findAssociatedTokenAddress walletPublicKey mintPublicKey TOKEN_PROGRAM_ID
  = Ok associated ->
  handle (getAccountInfo associated) w = (Fulfilled info, w1) ->
  let r := run handle (getAssociatedTokenBalance walletPublicKey mintPublicKey) w in
  (info = None -> r = (Ok None, w1, [getAccountInfo associated]))
  /\ (forall account tokenData mintInfo w2,
        info = Some account ->
        parseTokenAccountData (account_data account) = Ok tokenData ->
        handle (getAccountInfo mintPublicKey) w1 = (Fulfilled mintInfo, w2) ->
        let calls := [ getAccountInfo associated; getAccountInfo mintPublicKey ] in
        (mintInfo = None -> exists msg, r = (Err (TypeError msg), w2, calls))
        /\ (forall mintAccount mintData,
              mintInfo = Some mintAccount ->
              parseMintData (account_data mintAccount) = Ok mintData ->
              r = (Ok (Some (AssociatedTokenBalance.make associated
                               (state_amount tokenData) (state_decimals mintData)
                               (uiAmount_of (state_amount tokenData)
                                  (state_decimals mintData)))),
                   w2, calls))).
Proof.
  intros Hderive Hquery. cbv zeta. unfold getAssociatedTokenBalance.
  rewrite getAssociatedTokenBalance_address, Hderive.
  rewrite run_lift_bind.
  rewrite (run_await_bind handle (getAccountInfo associated)), Hquery.
  split; [by intros ->|].
  intros account tokenData mintInfo w2 -> Hparse Hmint.
  rewrite Hparse. cbn [lift mbind Prog_mbind Prog_bind].
  change (Prog_bind ?f (await ?c)) with (await c ≫= f).
  rewrite (run_await_bind handle (getAccountInfo mintPublicKey)), Hmint.
  split.
  - intros ->. eexists. reflexivity.
  - intros mintAccount mintData -> Hmintdata.
    cbn [data_of mbind Result_bind]. rewrite Hmintdata. reflexivity.
Qed.

(** X23. [getMintSupply] guards the missing mint: without an account at
    the address it throws 'Mint not found'; a mint record that does not
    parse fails with the parser's error; otherwise the supply, the decimals,
    their quotient and the two authorities of the parsed record are
    returned.  In each case the one query is the only call. *)
Theorem getMintSupply_outcomes (mintPublicKey : PublicKey)
    (info : option AccountInfo) (w w1 : W) :
  handle (getAccountInfo mintPublicKey) w = (Fulfilled info, w1) ->
  let r := run handle (getMintSupply mintPublicKey) w in
  (info = None ->
   r = (Err (Error "Mint not found"), w1, [getAccountInfo mintPublicKey]))
  /\ (forall mintAccount e,
        info = Some mintAccount ->
        parseMintData (account_data mintAccount) = Err e ->
        r = (Err e, w1, [getAccountInfo mintPublicKey]))
  /\ (forall mintAccount mintData,
        info = Some mintAccount ->
        parseMintData (account_data mintAccount) = Ok mintData ->
        r = (Ok (MintSupply.make (state_supply mintData) (state_decimals mintData)
                   (uiAmount_of (state_supply mintData) (state_decimals mintData))
                   (state_mintAuthority mintData) (state_freezeAuthority mintData)),
             w1, [getAccountInfo mintPublicKey])).
Proof.
  intros Hquery. cbv zeta. unfold getMintSupply.
  rewrite (run_await_bind handle (getAccountInfo mintPublicKey)), Hquery.
  split; [by intros ->|]. split.
  - intros mintAccount e -> Hparse. by rewrite Hparse.
  - intros mintAccount mintData -> Hparse. by rewrite Hparse.
Qed.

(** X24. The loop of [getAllTokenBalances], on a ledger that answers the
    account queries without changing, for token accounts that parse and
    whose mints, where the balance is not zero, exist and parse: the
    accounts with a zero balance are skipped; for each of the others, in
    the order of the reply, one entry is appended to the balances, with the
    account's address, mint and amount and the mint's decimals; and the
    mint is queried once per such account, so that the calls are the mint
    queries of the entries added. *)
Theorem getAllTokenBalances_loop_collects (ledger : PublicKey -> option AccountInfo)
    (tokenAccounts : list (PublicKey * AccountInfo)) (w : W) :
  (forall address, handle (getAccountInfo address) w = (Fulfilled (ledger address), w)) ->
  Forall (fun entry =>
            exists tokenData,
              parseTokenAccountData (account_data entry.2) = Ok tokenData
              /\ (state_amount tokenData <> 0 ->
                  exists mintAccount mintData,
                    ledger (state_mint tokenData) = Some mintAccount
                    /\ parseMintData (account_data mintAccount) = Ok mintData))
    tokenAccounts ->
  forall balances,
  exists added,
    run handle (getAllTokenBalances_loop tokenAccounts balances) w
    = (Ok (balances ++ added), w,
       map (fun b => getAccountInfo (WalletTokenBalance.mint b)) added)
    /\ map WalletTokenBalance.publicKey added
       = (List.filter holds_tokens tokenAccounts).*1
    /\ Forall (fun b => WalletTokenBalance.amount b <> 0) added.
Proof.
  intros Hledger Hall.
  induction Hall as [|[pubkey account] rest (tokenData & Hparse & Hmint) Hrest IH];
    intros balances.
  - exists []. cbn [getAllTokenBalances_loop run map List.filter fmap list_fmap].
    by rewrite app_nil_r.
  - cbn [snd] in Hparse.
    cbn [getAllTokenBalances_loop List.filter]. unfold holds_tokens at 1.
    cbn [snd]. rewrite Hparse. cbn [lift mbind Prog_mbind Prog_bind].
    case_decide as Hzero.
    + rewrite bool_decide_eq_false_2 by (by intros ?).
      apply IH.
    + rewrite bool_decide_eq_true_2 by done.
      destruct (Hmint Hzero) as (mintAccount & mintData & Hfound & Hmintdata).
      change (Prog_bind ?f (await ?c)) with (await c ≫= f).
      rewrite (run_await_bind handle (getAccountInfo (state_mint tokenData))).
      rewrite Hledger, Hfound.
      cbn [data_of mbind Result_bind]. rewrite Hmintdata.
      cbn [lift mbind Prog_mbind Prog_bind].
      set (entry := WalletTokenBalance.make pubkey (state_mint tokenData)
                      (state_amount tokenData) (state_decimals mintData)
                      (uiAmount_of (state_amount tokenData)
                         (state_decimals mintData))).
      destruct (IH (balances ++ [entry])) as (added & Hrun & Hkeys & Hamounts).
      exists (entry :: added). rewrite Hrun. unfold after.
      cbn [fst snd map fmap list_fmap].
      split; [by rewrite <- (assoc_L (++))|].
      split; [by rewrite <- Hkeys|].
      by constructor.
Qed.

End BalanceQueries.

Lemma getTokenAccountBalance_outcomes_witness :
  run mock_handle
    (getTokenAccountBalance (data_js := data_js_layout)
       (mint_data_js := mint_data_js_layout) (js_number := symbolic_numbers)
       (publicKey test_account)) test_world
  = (Err (Error "Token account not found"), test_world,
     [getAccountInfo (publicKey test_account)])
  /\ run mock_handle
       (getTokenAccountBalance (data_js := data_js_layout)
          (mint_data_js := mint_data_js_layout) (js_number := symbolic_numbers)
          (publicKey test_account)) test_world_mint
     = (Ok (TokenAccountBalance.make (js_number := symbolic_numbers) 5 9
              (divide_expr (Number_expr 5) (pow_expr 10 9)) PublicKey_default),
        test_world_mint,
        [getAccountInfo (publicKey test_account); getAccountInfo PublicKey_default]).
Proof.
  split.
  - apply (proj1 (getTokenAccountBalance_outcomes (data_js := data_js_layout)
                    (mint_data_js := mint_data_js_layout)
                    (js_number := symbolic_numbers) mock_handle
                    (publicKey test_account) None test_world test_world eq_refl)).
    reflexivity.
  - eapply (proj2 (proj2 (getTokenAccountBalance_outcomes
                            (data_js := data_js_layout)
                            (mint_data_js := mint_data_js_layout)
                            (js_number := symbolic_numbers) mock_handle
                            (publicKey test_account) _ test_world_mint
                            test_world_mint eq_refl)
                     _ (mkTokenAccountState PublicKey_default PublicKey_default 5)
                     _ test_world_mint eq_refl eq_refl eq_refl)
              _ (mkMintState None 0 9 None) eq_refl eq_refl).
Defined.

Lemma getAssociatedTokenBalance_outcomes_witness :
  run mock_handle
    (getAssociatedTokenBalance (data_js := data_js_layout)
       (mint_data_js := mint_data_js_layout) (js_number := symbolic_numbers)
       test_recipient (publicKey test_mint)) test_world_funded
  = (Ok None, test_world_funded, [getAccountInfo test_associated]).
Proof.
  apply (proj1 (getAssociatedTokenBalance_outcomes (data_js := data_js_layout)
                  (mint_data_js := mint_data_js_layout)
                  (js_number := symbolic_numbers) mock_handle
                  test_recipient (publicKey test_mint) test_associated None
                  test_world_funded test_world_funded
                  ltac:(vm_compute; reflexivity) ltac:(vm_compute; reflexivity))).
  reflexivity.
Defined.

Lemma getMintSupply_outcomes_witness :
  run mock_handle
    (getMintSupply (mint_data_js := mint_data_js_layout)
       (js_number := symbolic_numbers) PublicKey_default) test_world
  = (Err (Error "Mint not found"), test_world, [getAccountInfo PublicKey_default])
  /\ run mock_handle
       (getMintSupply (mint_data_js := mint_data_js_layout)
          (js_number := symbolic_numbers) PublicKey_default) test_world_mint
     = (Ok (MintSupply.make (js_number := symbolic_numbers) 0 9
              (divide_expr (Number_expr 0) (pow_expr 10 9)) None None),
        test_world_mint, [getAccountInfo PublicKey_default]).
Proof.
  split.
  - apply (proj1 (getMintSupply_outcomes (mint_data_js := mint_data_js_layout)
                    (js_number := symbolic_numbers) mock_handle PublicKey_default
                    None test_world test_world eq_refl)).
    reflexivity.
  - eapply (proj2 (proj2 (getMintSupply_outcomes
                            (mint_data_js := mint_data_js_layout)
                            (js_number := symbolic_numbers) mock_handle
                            PublicKey_default _ test_world_mint test_world_mint
                            eq_refl))
              _ (mkMintState None 0 9 None) eq_refl eq_refl).
Defined.

Lemma getAllTokenBalances_loop_collects_witness :
  exists added,
    run mock_handle
      (getAllTokenBalances_loop (data_js := data_js_layout)
         (mint_data_js := mint_data_js_layout) (js_number := symbolic_numbers)
         test_token_accounts []) test_world_mint
    = (Ok ([] ++ added), test_world_mint,
       map (fun b => getAccountInfo (WalletTokenBalance.mint b)) added)
    /\ map WalletTokenBalance.publicKey added
       = (List.filter (holds_tokens (data_js := data_js_layout))
            test_token_accounts).*1
    /\ Forall (fun b => WalletTokenBalance.amount b <> 0) added.
Proof.
  apply (getAllTokenBalances_loop_collects (data_js := data_js_layout)
           (mint_data_js := mint_data_js_layout) (js_number := symbolic_numbers)
           mock_handle (fun address => accounts test_world_mint !! address)).
  - intros address. reflexivity.
  - repeat constructor.
    + exists (mkTokenAccountState PublicKey_default PublicKey_default 5).
      split; [reflexivity|]. intros _.
      eexists _, (mkMintState None 0 9 None). split; reflexivity.
    + exists (mkTokenAccountState PublicKey_default PublicKey_default 0).
      split; [reflexivity|]. intros Hzero. by destruct Hzero.
Defined.

(** ** The state helpers of the mock connection *)

Lemma Buffer_copy_fits source target targetStart :
  (targetStart + length source <= length target)%nat ->
  Buffer_copy source target targetStart = Buffer_write source target targetStart.
Proof.
  intros Hfits. unfold Buffer_copy, Buffer_write. cbv zeta.
  replace (length source `min` (length target - targetStart))%nat
    with (length source) by lia.
  by rewrite firstn_all.
Qed.

Lemma Buffer_write_front src n :
  (length src <= n)%nat ->
  Buffer_write src (Buffer_alloc n) 0 = src ++ replicate (n - length src) 0.
Proof.
  intros Hlen. unfold Buffer_write, Buffer_alloc.
  rewrite take_0, drop_replicate. reflexivity.
Qed.

Section MockStateProperties.

Context {data_js : DataJs}.

(** X25. [simulateTokenAccount] and the mock's [getAccountInfo]: for an
    amount of 64 bits and a token-account span of at least 72 bytes, the
    helper succeeds, and afterwards the mock answers the query of that
    address with an account of the token program, not executable, with
    2039280 lamports, whose data has the span's length and consists of the
    32 bytes of the mint, the 32 bytes of the owner, the amount on 8 bytes,
    little-endian, and zeros; every other address, and the transactions
    recorded so far, are left as they were.  An amount outside 64 bits
    makes the helper throw a range error. *)
Theorem simulateTokenAccount_lookup (connection : MockConnection)
    (pubkey mint owner : PublicKey) (amount : Z) :
  72 <= ACCOUNT_LAYOUT_span ->
  (0 <= amount < 2 ^ 64 ->
   exists connection' info,
     simulateTokenAccount connection pubkey mint owner amount = Ok connection'
     /\ mock_handle (getAccountInfo pubkey) connection'
        = (Fulfilled (Some info), connection')
     /\ owner_of info = TOKEN_PROGRAM_ID
     /\ executable info = false
     /\ lamports_of info = 2039280
     /\ account_data info
        = toBuffer mint ++ toBuffer owner ++ le_bytes amount 8
            ++ replicate (Z.to_nat ACCOUNT_LAYOUT_span - 72) 0
     /\ Z.of_nat (length (account_data info)) = ACCOUNT_LAYOUT_span
     /\ toBigIntLE (Buffer_slice (account_data info) 64 72) = amount
     /\ (forall other,
           other <> pubkey ->
           mock_handle (getAccountInfo other) connection'
           = (Fulfilled (accounts connection !! other), connection'))
     /\ transactions connection' = transactions connection)
  /\ (~ 0 <= amount < 2 ^ 64 ->
      exists msg,
        simulateTokenAccount connection pubkey mint owner amount
        = Err (RangeError msg)).
Proof.
  intros Hspan.
  assert (Hn : (72 <= Z.to_nat ACCOUNT_LAYOUT_span)%nat) by lia.
  unfold simulateTokenAccount, Buffer_alloc_size.
  rewrite decide_True by lia. cbn [mbind Result_bind].
  unfold writeBigUInt64LE. split.
  - intros Ha. rewrite decide_True by done.
    rewrite decide_True by (unfold Buffer_alloc; rewrite length_replicate; lia).
    cbn [mbind Result_bind].
    set (n := Z.to_nat ACCOUNT_LAYOUT_span) in *.
    rewrite (Buffer_write_front (le_bytes amount 8) 8)
      by (rewrite le_bytes_length; lia).
    rewrite le_bytes_length, Nat.sub_diag. cbn [replicate]. rewrite app_nil_r.
    pose proof (toBuffer_length mint) as Hmint.
    pose proof (toBuffer_length owner) as Howner.
    pose proof (le_bytes_length amount 8) as Hamount.
    assert (Halloc : length (Buffer_alloc n) = n) by apply length_replicate.
    rewrite (Buffer_copy_fits (toBuffer mint)) by lia.
    rewrite (Buffer_copy_fits (toBuffer owner))
      by (rewrite Buffer_write_length; lia).
    rewrite (Buffer_copy_fits (le_bytes amount 8))
      by (rewrite !Buffer_write_length; rewrite ?Buffer_write_length; lia).
    assert (Hfirst : Buffer_write (toBuffer owner)
                       (Buffer_write (toBuffer mint) (Buffer_alloc n) 0) 32
                     = Buffer_write (toBuffer mint ++ toBuffer owner)
                         (Buffer_alloc n) 0).
    { rewrite <- (Buffer_write_write (toBuffer mint) (toBuffer owner)
                    (Buffer_alloc n) 0) by lia.
      by rewrite Hmint. }
    rewrite Hfirst.
    assert (Hsecond : Buffer_write (le_bytes amount 8)
                        (Buffer_write (toBuffer mint ++ toBuffer owner)
                           (Buffer_alloc n) 0) 64
                      = Buffer_write
                          ((toBuffer mint ++ toBuffer owner) ++ le_bytes amount 8)
                          (Buffer_alloc n) 0).
    { rewrite <- (Buffer_write_write (toBuffer mint ++ toBuffer owner)
                    (le_bytes amount 8) (Buffer_alloc n) 0)
        by (rewrite length_app; lia).
      by rewrite length_app, Hmint, Howner. }
    rewrite Hsecond.
    rewrite Buffer_write_front by (rewrite !length_app; lia).
    rewrite !length_app, Hmint, Howner, Hamount. cbn [Nat.add].
    rewrite <- !(assoc_L (++)).
    eexists _, _. split; [reflexivity|].
    unfold set_account. cbn [mock_handle accounts transactions].
    rewrite lookup_insert_eq.
    split; [reflexivity|].
    cbn [owner_of executable lamports_of account_data].
    split; [reflexivity|]. split; [reflexivity|]. split; [reflexivity|].
    split; [reflexivity|].
    split.
    { rewrite !length_app, Hmint, Howner, Hamount, length_replicate. lia. }
    split.
    { unfold Buffer_slice.
      rewrite (assoc_L (++) (toBuffer mint)).
      rewrite drop_app_length' by (rewrite length_app; lia).
      rewrite take_app_length' by lia.
      by apply toBigIntLE_le_bytes. }
    split; [|reflexivity].
    intros other Hother. by rewrite lookup_insert_ne.
  - intros Ha. rewrite decide_False by done. by eexists.
Qed.

(** X26. [simulateMint]: for decimals that are a byte and a mint span of
    more than 44 bytes, the helper succeeds, and afterwards the mock answers
    the query of that address with an account of the token program with
    1461600 lamports whose data is all zero but for the decimals at offset
    44, the byte production_test.js reads them from.  Decimals that are not
    a byte, or a span too short for the offset, make the helper throw a
    range error. *)
Theorem simulateMint_lookup (connection : MockConnection) (pubkey : PublicKey)
    (decimals : Z) :
  0 <= MINT_LAYOUT_span ->
  (0 <= decimals <= 255 -> 44 < MINT_LAYOUT_span ->
   exists connection' info,
     simulateMint connection pubkey decimals = Ok connection'
     /\ mock_handle (getAccountInfo pubkey) connection'
        = (Fulfilled (Some info), connection')
     /\ owner_of info = TOKEN_PROGRAM_ID
     /\ lamports_of info = 1461600
     /\ account_data info
        = replicate 44 0 ++ [decimals]
            ++ replicate (Z.to_nat MINT_LAYOUT_span - 45) 0
     /\ account_data info !! 44%nat = Some decimals
     /\ (forall other,
           other <> pubkey ->
           mock_handle (getAccountInfo other) connection'
           = (Fulfilled (accounts connection !! other), connection')))
  /\ (~ 0 <= decimals <= 255 \/ MINT_LAYOUT_span <= 44 ->
      exists msg, simulateMint connection pubkey decimals = Err (RangeError msg)).
Proof.
  intros Hspan. unfold simulateMint, Buffer_alloc_size.
  rewrite decide_True by done. cbn [mbind Result_bind].
  unfold u8_encode.
  assert (Halloc : length (Buffer_alloc (Z.to_nat MINT_LAYOUT_span))
                   = Z.to_nat MINT_LAYOUT_span) by apply length_replicate.
  split.
  - intros Hd Hroom.
    rewrite decide_True by done. rewrite decide_True by lia.
    cbn [mbind Result_bind].
    assert (Hdata : Buffer_write [decimals]
                      (Buffer_alloc (Z.to_nat MINT_LAYOUT_span)) 44
                    = replicate 44 0 ++ [decimals]
                        ++ replicate (Z.to_nat MINT_LAYOUT_span - 45) 0).
    { unfold Buffer_write, Buffer_alloc.
      rewrite take_replicate, drop_replicate. cbn [length].
      by replace (44 `min` Z.to_nat MINT_LAYOUT_span)%nat with 44%nat by lia. }
    rewrite Hdata.
    eexists _, _. split; [reflexivity|].
    unfold set_account. cbn [mock_handle accounts].
    rewrite lookup_insert_eq.
    split; [reflexivity|].
    cbn [owner_of lamports_of account_data].
    split; [reflexivity|]. split; [reflexivity|]. split; [reflexivity|].
    split.
    { rewrite lookup_app_r by (rewrite length_replicate; lia).
      by rewrite length_replicate. }
    intros other Hother. by rewrite lookup_insert_ne.
  - intros [Hd|Hshort].
    + rewrite decide_False by done. by eexists.
    + case_decide; [|by eexists].
      rewrite decide_False by lia. by eexists.
Qed.

End MockStateProperties.

Lemma simulateTokenAccount_lookup_witness :
  exists connection' info,
    simulateTokenAccount (data_js := data_js_layout) test_world
      (publicKey test_account) (publicKey test_mint) (wallet_publicKey test_owner)
      1000000000000 = Ok connection'
    /\ mock_handle (getAccountInfo (publicKey test_account)) connection'
       = (Fulfilled (Some info), connection')
    /\ owner_of info = TOKEN_PROGRAM_ID
    /\ executable info = false
    /\ lamports_of info = 2039280
    /\ account_data info
       = toBuffer (publicKey test_mint) ++ toBuffer (wallet_publicKey test_owner)
           ++ le_bytes 1000000000000 8
           ++ replicate (Z.to_nat (ACCOUNT_LAYOUT_span (DataJs := data_js_layout)) - 72) 0
    /\ Z.of_nat (length (account_data info))
       = ACCOUNT_LAYOUT_span (DataJs := data_js_layout)
    /\ toBigIntLE (Buffer_slice (account_data info) 64 72) = 1000000000000
    /\ (forall other,
          other <> publicKey test_account ->
          mock_handle (getAccountInfo other) connection'
          = (Fulfilled (accounts test_world !! other), connection'))
    /\ transactions connection' = transactions test_world.
Proof.
  apply (proj1 (simulateTokenAccount_lookup (data_js := data_js_layout) test_world
                  (publicKey test_account) (publicKey test_mint)
                  (wallet_publicKey test_owner) 1000000000000
                  ltac:(cbn; lia))).
  lia.
Defined.

Lemma simulateMint_lookup_witness :
  exists msg,
    simulateMint (data_js := data_js_layout) test_world (publicKey test_mint) 256
    = Err (RangeError msg).
Proof.
  apply (proj2 (simulateMint_lookup (data_js := data_js_layout) test_world
                  (publicKey test_mint) 256 ltac:(cbn; lia))).
  left. lia.
Defined.

(** X27. The mock connection only records: whatever operation runs
    against it, the accounts and the balances of the mock are afterwards
    what they were, and its list of transactions has grown by exactly the
    transactions that were sent, in the order of the sending.  Only the
    helpers of the test change the accounts. *)
Theorem mock_connection_only_records {A : Type} (p : Prog A) (w : MockConnection) :
  let r := run mock_handle p w in
  accounts r.1.2 = accounts w
  /\ balances r.1.2 = balances w
  /\ wallet_signers r.1.2 = wallet_signers w
  /\ transactions r.1.2 = transactions w ++ recorded r.2.
Proof.
  cbv zeta. revert w.
  induction p as [a|e|c k IH]; intros w; cbn [run].
  - cbn. by rewrite app_nil_r.
  - cbn. by rewrite app_nil_r.
  - assert (Hstep : forall (reply : Settled (Reply c)) (w1 : MockConnection)
                      (sent : list (string * RawTransaction)),
              accounts w1 = accounts w -> balances w1 = balances w ->
              wallet_signers w1 = wallet_signers w ->
              transactions w1 = transactions w ++ sent ->
              recorded [c] = sent ->
              let r := (let '(res, w2, calls) := run mock_handle (k reply) w1 in
                        (res, w2, c :: calls)) in
              accounts r.1.2 = accounts w
              /\ balances r.1.2 = balances w
              /\ wallet_signers r.1.2 = wallet_signers w
              /\ transactions r.1.2 = transactions w ++ recorded r.2).
    { intros reply w1 sent Haccounts Hbalances Hsigners Htransactions Hsent.
      cbv zeta.
      destruct (IH reply w1) as (Ha & Hb & Hs & Ht).
      destruct (run mock_handle (k reply) w1) as [[res w2] calls].
      cbn [fst snd] in *.
      rewrite Ha, Hb, Hs, Ht, Haccounts, Hbalances, Hsigners, Htransactions.
      repeat (split; [reflexivity|]).
      rewrite <- (assoc_L (++)). f_equal.
      change (c :: calls) with ([c] ++ calls).
      unfold recorded in *. by rewrite omap_app, Hsent. }
    destruct c; cbn [mock_handle];
      try (apply (Hstep _ _ []); [done..|by rewrite app_nil_r|done]).
    + apply (Hstep _ _ [("mock_tx", rawTransaction)]); done.
    + destruct (Transaction_sign transaction (wallet_signers w));
        apply (Hstep _ _ []); try done; by rewrite app_nil_r.
Qed.
